(** * med-melanin-backend: authentication, progress and symptom-diary stores

    A shallow embedding of the Express/Mongoose backend: the validation
    service, the user model (schema setters, validators, pre-save hook,
    [calculateRecoveryDay]), the auth and user services, the auth
    controller, the bearer-token middleware, the brochure-progress service
    and the symptom-entry service, controller and router.

    Conventions.
    - JavaScript strings are modelled as [string] (ASCII code units);
      [trim], [toLowerCase] and the character classes of the regular
      expressions act on ASCII.
    - [Date] values are integers: milliseconds since the epoch.
    - A MongoDB collection is the list of its documents in insertion order;
      an [ObjectId] is the number it encodes, printed as 24 hex digits.
    - bcrypt, jsonwebtoken and [Date] parsing are interfaces ([Platform]).
    - Every handler receives the wall-clock time and the bcrypt salt of the
      request explicitly ([Env]).
    - Numbers in request bodies are integers; [Math.ceil(a / b)] is the
      exact ceiling of the quotient.

    Behaviour of the libraries the code relies on, as modelled.
    - Express: the first registered route whose method and path match
      handles the request; [/:id] matches any single path segment.
    - Mongoose: schema setters ([trim], [lowercase]) run on assigned values
      and on query filters; [save] runs the validators and then the
      pre-save hooks; a path counts as modified only when the assigned
      value differs from the loaded one; a field with [select: false] is
      returned only when asked for; [findOneAndUpdate] runs no validator
      and drops keys whose value is [undefined]; a string casts to an
      [ObjectId] only when it consists of 24 hex digits.
    - jsonwebtoken: [TokenExpiredError] is a [JsonWebTokenError]. *)

From Stdlib Require Import ZArith NArith List String Ascii Bool Lia.
From Stdlib Require Import Permutation Sorted.
Import ListNotations.
Local Open Scope string_scope.
Local Open Scope Z_scope.

(* ================================================================== *)
(** ** JavaScript string primitives *)

Module Js.

Definition code (c : ascii) : N := N_of_ascii c.

Definition inRange (lo hi : N) (c : ascii) : bool :=
  (N.leb lo (code c) && N.leb (code c) hi)%bool.

(** [\s] restricted to ASCII: TAB, LF, VT, FF, CR, SPACE. *)
Definition isWhitespace (c : ascii) : bool :=
  (inRange 9 13 c || N.eqb (code c) 32)%bool.

Definition isLower (c : ascii) : bool := inRange 97 122 c.
Definition isUpper (c : ascii) : bool := inRange 65 90 c.
Definition isDigit (c : ascii) : bool := inRange 48 57 c.

(** [\w] *)
Definition isWord (c : ascii) : bool :=
  (isLower c || isUpper c || isDigit c || N.eqb (code c) 95)%bool.

(** [.] without the [s] flag: anything but a line terminator. *)
Definition isDot (c : ascii) : bool :=
  negb (N.eqb (code c) 10 || N.eqb (code c) 13)%bool.

Definition isHex (c : ascii) : bool :=
  (isDigit c || inRange 97 102 c || inRange 65 70 c)%bool.

Definition lowerChar (c : ascii) : ascii :=
  if isUpper c then ascii_of_N (code c + 32) else c.

Fixpoint toLowerCase (s : string) : string :=
  match s with
  | EmptyString => EmptyString
  | String c s' => String (lowerChar c) (toLowerCase s')
  end.

Fixpoint trimStart (s : string) : string :=
  match s with
  | EmptyString => EmptyString
  | String c s' => if isWhitespace c then trimStart s' else s
  end.

Fixpoint trimEnd (s : string) : string :=
  match s with
  | EmptyString => EmptyString
  | String c s' =>
      match trimEnd s' with
      | EmptyString => if isWhitespace c then EmptyString
                       else String c EmptyString
      | t => String c t
      end
  end.

Definition trim (s : string) : string := trimEnd (trimStart s).

(** Truthiness of a string value. *)
Definition truthy (s : string) : bool := negb (String.eqb s "").

(** Truthiness of a possibly [undefined] string. *)
Definition truthyOpt (o : option string) : bool :=
  match o with Some s => truthy s | None => false end.

Fixpoint startsWith (p s : string) : bool :=
  match p, s with
  | EmptyString, _ => true
  | String a p', String b s' => (Ascii.eqb a b && startsWith p' s')%bool
  | String _ _, EmptyString => false
  end.

(** [s.includes(sub)] *)
Fixpoint includes (sub s : string) : bool :=
  (startsWith sub s ||
   match s with
   | EmptyString => false
   | String _ s' => includes sub s'
   end)%bool.

(** [s.split(sep)] for a one-character separator. *)
Fixpoint split (sep : ascii) (s : string) : list string :=
  match s with
  | EmptyString => [EmptyString]
  | String c s' =>
      if Ascii.eqb c sep then EmptyString :: split sep s'
      else match split sep s' with
           | [] => [String c EmptyString]
           | w :: ws => String c w :: ws
           end
  end.

End Js.

(* ================================================================== *)
(** ** Regular expressions (Brzozowski derivatives) *)

Module Regex.

Inductive regex : Type :=
| Void : regex
| Eps : regex
| Chr : (ascii -> bool) -> regex
| Seq : regex -> regex -> regex
| Alt : regex -> regex -> regex
| Star : regex -> regex.

Definition Plus (r : regex) : regex := Seq r (Star r).
Definition Opt (r : regex) : regex := Alt Eps r.
Definition Lit (c : ascii) : regex := Chr (Ascii.eqb c).
Definition AnyChar : regex := Chr (fun _ => true).

Fixpoint nullable (r : regex) : bool :=
  match r with
  | Void => false
  | Eps => true
  | Chr _ => false
  | Seq a b => (nullable a && nullable b)%bool
  | Alt a b => (nullable a || nullable b)%bool
  | Star _ => true
  end.

Fixpoint deriv (c : ascii) (r : regex) : regex :=
  match r with
  | Void => Void
  | Eps => Void
  | Chr p => if p c then Eps else Void
  | Seq a b =>
      if nullable a then Alt (Seq (deriv c a) b) (deriv c b)
      else Seq (deriv c a) b
  | Alt a b => Alt (deriv c a) (deriv c b)
  | Star a => Seq (deriv c a) (Star a)
  end.

(** Anchored match: [/^r$/.test(s)]. *)
Fixpoint fullMatch (r : regex) (s : string) : bool :=
  match s with
  | EmptyString => nullable r
  | String c s' => fullMatch (deriv c r) s'
  end.

(** Match of a prefix: [/^r/.test(s)]. *)
Definition prefixMatch (r : regex) (s : string) : bool :=
  fullMatch (Seq r (Star AnyChar)) s.

(** A lookahead [(?=r)] at position 0 holds when some prefix matches. *)
Definition lookahead := prefixMatch.

End Regex.

(* ================================================================== *)
(** ** validation.service.ts *)

Module ValidationService.
Import Js Regex.

Record RegistrationData := {
  rd_firstName : option string;
  rd_lastName : option string;
  rd_email : option string;
  rd_password : option string
}.

Record LoginData := {
  ld_email : option string;
  ld_password : option string
}.

Record Sanitized := {
  s_firstName : string;
  s_lastName : string;
  s_email : string;
  s_password : string
}.

Record SanitizedLogin := {
  sl_email : string;
  sl_password : string
}.

(** [isValid], [errors] and [sanitizedData] of the source collapse into a
    sum: the error list is non-empty exactly when [isValid] is false. *)
Inductive ValidationResult (A : Type) : Type :=
| Valid : A -> ValidationResult A
| Invalid : list string -> ValidationResult A.
Arguments Valid {A} _.
Arguments Invalid {A} _.

(** [/^[^\s@]+@[^\s@]+\.[^\s@]+$/] *)
Definition notSpaceAt (c : ascii) : bool :=
  negb (isWhitespace c || Ascii.eqb c "@")%bool.

Definition emailRegex : regex :=
  Seq (Plus (Chr notSpaceAt))
    (Seq (Lit "@")
       (Seq (Plus (Chr notSpaceAt))
          (Seq (Lit ".") (Plus (Chr notSpaceAt))))).

Definition isValidEmail (email : string) : bool :=
  fullMatch emailRegex email.

(** [/^(?=.*[a-z])(?=.*[A-Z])(?=.*\d)/] *)
Definition passwordPolicy (password : string) : bool :=
  (lookahead (Seq (Star (Chr isDot)) (Chr isLower)) password
   && lookahead (Seq (Star (Chr isDot)) (Chr isUpper)) password
   && lookahead (Seq (Star (Chr isDot)) (Chr isDigit)) password)%bool.

Definition nameErrors (field : string) (v : option string) : list string :=
  match v with
  | Some n =>
      if truthy n then
        if (Nat.ltb (String.length (trim n)) 2)
        then [field ++ " must be at least 2 characters long"]
        else []
      else [field ++ " is required"]
  | None => [field ++ " is required"]
  end.

Definition sanitizeEmail (e : string) : string := toLowerCase (trim e).

Definition emailErrors (v : option string) : list string :=
  match v with
  | Some e =>
      let email := sanitizeEmail e in
      if negb (truthy email) then ["Email is required"]
      else if negb (isValidEmail email) then ["Invalid email format"]
      else []
  | None => ["Email is required"]
  end.

Definition passwordErrors (v : option string) : list string :=
  match v with
  | Some password =>
      if negb (truthy password) then ["Password is required"]
      else if Nat.ltb (String.length password) 8
           then ["Password must be at least 4 characters long"]
      else if negb (passwordPolicy password)
           then ["Password must contain at least one uppercase letter, one lowercase letter, and one number"]
      else []
  | None => ["Password is required"]
  end.

Definition orEmpty (o : option string) : string :=
  match o with Some s => s | None => "" end.

Definition validateRegistration (data : RegistrationData)
  : ValidationResult Sanitized :=
  let errors :=
    (nameErrors "First name" (rd_firstName data)
     ++ nameErrors "Last name" (rd_lastName data)
     ++ emailErrors (rd_email data)
     ++ passwordErrors (rd_password data))%list in
  match errors with
  | [] => Valid {| s_firstName := trim (orEmpty (rd_firstName data));
                   s_lastName := trim (orEmpty (rd_lastName data));
                   s_email := sanitizeEmail (orEmpty (rd_email data));
                   s_password := orEmpty (rd_password data) |}
  | _ => Invalid errors
  end.

Definition loginPasswordErrors (v : option string) : list string :=
  if truthyOpt v then [] else ["Password is required"].

Definition validateLogin (data : LoginData)
  : ValidationResult SanitizedLogin :=
  let errors :=
    (emailErrors (ld_email data)
     ++ loginPasswordErrors (ld_password data))%list in
  match errors with
  | [] => Valid {| sl_email := sanitizeEmail (orEmpty (ld_email data));
                   sl_password := orEmpty (ld_password data) |}
  | _ => Invalid errors
  end.

End ValidationService.

(* ================================================================== *)
(** ** Errors, results and the database *)

Inductive ErrorClass : Type :=
| PlainError          (* [new Error(...)] *)
| ValidationError     (* mongoose schema validation *)
| CastError           (* mongoose cast failure *)
| MongoServerError    (* duplicate key, E11000 *)
| JsonWebTokenError
| TokenExpiredError
| NotBeforeError.

Record JsError := { err_class : ErrorClass; err_message : string }.

(** In jsonwebtoken, [TokenExpiredError] and [NotBeforeError] inherit from
    [JsonWebTokenError]. *)
Definition instanceofJsonWebTokenError (e : JsError) : bool :=
  match err_class e with
  | JsonWebTokenError | TokenExpiredError | NotBeforeError => true
  | _ => false
  end.

Definition instanceofTokenExpiredError (e : JsError) : bool :=
  match err_class e with
  | TokenExpiredError => true
  | _ => false
  end.

Inductive Result (A : Type) : Type :=
| Ok : A -> Result A
| Throw : JsError -> Result A.
Arguments Ok {A} _.
Arguments Throw {A} _.

Definition ObjectId := N.

Definition hexDigit (n : N) : ascii :=
  if (n <? 10)%N then ascii_of_N (48 + n) else ascii_of_N (87 + n).

Fixpoint hexOfN (digits : nat) (n : N) : string :=
  match digits with
  | O => EmptyString
  | S d => hexOfN d (n / 16) ++ String (hexDigit (n mod 16)) EmptyString
  end.

(** [_id.toString()] *)
Definition oidToString (o : ObjectId) : string := hexOfN 24 o.

Definition hexValue (c : ascii) : N :=
  if Js.isDigit c then Js.code c - 48
  else if Js.inRange 97 102 c then Js.code c - 87
  else Js.code c - 55.

Fixpoint allHex (s : string) : bool :=
  match s with
  | EmptyString => true
  | String c s' => (Js.isHex c && allHex s')%bool
  end.

Fixpoint hexToN (acc : N) (s : string) : N :=
  match s with
  | EmptyString => acc
  | String c s' => hexToN (16 * acc + hexValue c) s'
  end.

(** Casting a string to an [ObjectId]: only a string of 24 hex digits
    casts; anything else raises a [CastError]. *)
Definition castObjectId (s : string) : option ObjectId :=
  if (Nat.eqb (String.length s) 24 && allHex s)%bool
  then Some (hexToN 0 s) else None.

Record UserDoc := {
  u_id : ObjectId;
  u_firstName : string;
  u_lastName : string;
  u_email : string;
  u_password : string;
  u_surgeryDate : option Z;
  u_recoveryDay : Z;
  u_isActive : bool;
  u_createdAt : Z;
  u_updatedAt : Z
}.

Record ProgressDoc := {
  p_id : ObjectId;
  p_userId : string;
  p_sectionId : string;
  p_itemId : string;
  p_completed : bool;
  p_notes : string;
  p_createdAt : Z;
  p_updatedAt : Z
}.

Record SymptomDoc := {
  se_id : ObjectId;
  se_userId : string;
  se_date : string;
  se_painLevel : Z;
  se_location : string;
  se_description : string;
  se_medications : string;
  se_timestamp : Z;
  se_createdAt : Z;
  se_updatedAt : Z
}.

Record Db := {
  users : list UserDoc;
  progress : list ProgressDoc;
  symptoms : list SymptomDoc;
  next_oid : N
}.

Definition emptyDb : Db :=
  {| users := []; progress := []; symptoms := []; next_oid := 1 |}.

Definition withUsers (us : list UserDoc) (db : Db) : Db :=
  {| users := us; progress := progress db; symptoms := symptoms db;
     next_oid := next_oid db |}.

Definition withProgress (ps : list ProgressDoc) (db : Db) : Db :=
  {| users := users db; progress := ps; symptoms := symptoms db;
     next_oid := next_oid db |}.

Definition withSymptoms (ss : list SymptomDoc) (db : Db) : Db :=
  {| users := users db; progress := progress db; symptoms := ss;
     next_oid := next_oid db |}.

(** A new [ObjectId]: the generator is a counter kept with the database. *)
Definition freshOid (db : Db) : ObjectId * Db :=
  (next_oid db,
   {| users := users db; progress := progress db; symptoms := symptoms db;
      next_oid := N.succ (next_oid db) |}).

(** Wall-clock time of the request and the salt bcrypt draws for it. *)
Record Env := { now : Z; salt : string }.

(** An asynchronous service call: it reads and writes the database and
    either resolves or rejects. *)
Definition M (A : Type) : Type := Db -> Result A * Db.

Definition ret {A} (a : A) : M A := fun db => (Ok a, db).
Definition throw {A} (c : ErrorClass) (msg : string) : M A :=
  fun db => (Throw {| err_class := c; err_message := msg |}, db).
Definition bind {A B} (m : M A) (k : A -> M B) : M B :=
  fun db =>
    match m db with
    | (Ok a, db') => k a db'
    | (Throw e, db') => (Throw e, db')
    end.
Definition getDb : M Db := fun db => (Ok db, db).
Definition putDb (db' : Db) : M unit := fun _ => (Ok tt, db').

Declare Scope m_scope.
Delimit Scope m_scope with m.
Notation "x <- c1 ;; c2" := (bind c1 (fun x => c2))
  (at level 100, c1 at next level, right associativity) : m_scope.
Notation "c1 ;;; c2" := (bind c1 (fun _ => c2))
  (at level 100, right associativity) : m_scope.

(** bcrypt, jsonwebtoken and [Date] parsing. [jwt_sign] and [jwt_verify]
    have the secret and the 7-day validity fixed; both see the clock. *)
Record JwtPayload := { jp_userId : string; jp_email : string }.

Class Platform : Type := {
  bcrypt_hashSync : string -> string -> string;   (* salt, plaintext *)
  bcrypt_compareSync : string -> string -> bool;  (* candidate, hash *)
  jwt_sign : JwtPayload -> Z -> string;
  jwt_verify : string -> Z -> Result JwtPayload;
  date_parse : string -> option Z                 (* [None] is the NaN date *)
}.

(* ================================================================== *)
(** ** models/user.model.ts *)

Module UserModel.
Import Js Regex.

(** [/^\w+([.-]?\w+)*@\w+([.-]?\w+)*(\.\w{2,3})+$/] *)
Definition dotOrDash (c : ascii) : bool :=
  (Ascii.eqb c "." || Ascii.eqb c "-")%bool.

Definition wordsRegex : regex :=
  Seq (Plus (Chr isWord))
      (Star (Seq (Opt (Chr dotOrDash)) (Plus (Chr isWord)))).

Definition schemaEmailRegex : regex :=
  Seq wordsRegex
    (Seq (Lit "@")
       (Seq wordsRegex
          (Plus (Seq (Lit ".")
                   (Seq (Chr isWord) (Seq (Chr isWord) (Opt (Chr isWord)))))))).

(** Schema setters: [trim: true] and [lowercase: true]. *)
Definition nameSetter (s : string) : string := trim s.
Definition emailSetter (s : string) : string := toLowerCase (trim s).

(** [new User({ email, password, firstName, lastName })]: setters are
    applied and the schema defaults filled in. The [_id] and the
    timestamps are given at the first save. *)
Definition newUser (oid : ObjectId) (t : Z)
           (email password firstName lastName : string) : UserDoc :=
  {| u_id := oid;
     u_firstName := nameSetter firstName;
     u_lastName := nameSetter lastName;
     u_email := emailSetter email;
     u_password := password;
     u_surgeryDate := None;
     u_recoveryDay := 0;
     u_isActive := true;
     u_createdAt := t;
     u_updatedAt := t |}.

Definition nameValidators (label : string) (v : string) : list string :=
  if negb (truthy v) then [label ++ " is required"]
  else if Nat.ltb (String.length v) 2
       then [label ++ " must be at least 2 characters long"]
  else if Nat.ltb 30 (String.length v)
       then [label ++ " cannot exceed 30 characters"]
  else [].

Definition emailValidators (v : string) : list string :=
  if negb (truthy v) then ["Email is required"]
  else if negb (fullMatch schemaEmailRegex v)
       then ["Please enter a valid email address"]
  else [].

Definition passwordValidators (v : string) : list string :=
  if negb (truthy v) then ["Password is required"]
  else if Nat.ltb (String.length v) 4
       then ["Password must be at least 4 characters long"]
  else [].

Definition recoveryDayValidators (v : Z) : list string :=
  if v <? 0 then ["Recovery day cannot be negative"] else [].

(** Schema validation of the selected paths; the password is validated
    only when it is loaded in the document. *)
Definition validationErrors (withPassword : bool) (u : UserDoc)
  : list string :=
  (nameValidators "First name" (u_firstName u)
   ++ nameValidators "Last name" (u_lastName u)
   ++ emailValidators (u_email u)
   ++ (if withPassword then passwordValidators (u_password u) else [])
   ++ recoveryDayValidators (u_recoveryDay u))%list.

Definition validate (withPassword : bool) (u : UserDoc) : M unit :=
  match validationErrors withPassword u with
  | [] => ret tt
  | _ => throw ValidationError "User validation failed"
  end.

Definition setPassword (pw : string) (u : UserDoc) : UserDoc :=
  {| u_id := u_id u; u_firstName := u_firstName u;
     u_lastName := u_lastName u; u_email := u_email u;
     u_password := pw;
     u_surgeryDate := u_surgeryDate u; u_recoveryDay := u_recoveryDay u;
     u_isActive := u_isActive u; u_createdAt := u_createdAt u;
     u_updatedAt := u_updatedAt u |}.

Definition setUpdatedAt (t : Z) (u : UserDoc) : UserDoc :=
  {| u_id := u_id u; u_firstName := u_firstName u;
     u_lastName := u_lastName u; u_email := u_email u;
     u_password := u_password u;
     u_surgeryDate := u_surgeryDate u; u_recoveryDay := u_recoveryDay u;
     u_isActive := u_isActive u; u_createdAt := u_createdAt u;
     u_updatedAt := t |}.

(** [userSchema.pre('save')]: hash the password only when it is new or
    has been modified. *)
Definition preSave {P : Platform} (env : Env) (passwordModified : bool)
           (u : UserDoc) : UserDoc :=
  if negb passwordModified then u
  else setPassword (bcrypt_hashSync (salt env) (u_password u)) u.

(** [comparePassword]; [pw] is the password field as loaded, [None] when
    it was not selected. *)
Definition comparePassword {P : Platform} (pw : option string)
           (candidatePassword : string) : bool :=
  match pw with
  | None => false
  | Some h => if negb (truthy h) then false
              else bcrypt_compareSync candidatePassword h
  end.

Definition msPerDay : Z := 1000 * 60 * 60 * 24.

(** [Math.ceil(a / b)] for integers [a] and [b > 0]. *)
Definition ceilDiv (a b : Z) : Z := - ((- a) / b).

Definition calculateRecoveryDay (today : Z) (surgeryDate : option Z) : Z :=
  match surgeryDate with
  | None => 0
  | Some sd =>
      let diffTime := today - sd in
      let diffDays := ceilDiv diffTime msPerDay in
      Z.max 0 diffDays
  end.

Definition getFullName (u : UserDoc) : string :=
  u_firstName u ++ " " ++ u_lastName u.

(** *** Collection operations *)

Definition findById (oid : ObjectId) (db : Db) : option UserDoc :=
  find (fun u => N.eqb (u_id u) oid) (users db).

(** [User.findOne({ email })]: the schema setters also run on the
    filter value. *)
Definition findOneByEmail (email : string) (db : Db) : option UserDoc :=
  find (fun u => String.eqb (u_email u) (emailSetter email)) (users db).

(** First save of a new document: validate, run the pre-save hook,
    insert. The unique index on [email] rejects a duplicate. *)
Definition saveNew {P : Platform} (env : Env) (u : UserDoc) : M UserDoc :=
  (_ <- validate true u ;;
   let u' := preSave env true u in
   db <- getDb ;;
   if existsb (fun v => String.eqb (u_email v) (u_email u')) (users db)
   then throw MongoServerError "E11000 duplicate key error"
   else (putDb (withUsers (users db ++ [u']) db) ;;; ret u'))%m.

Fixpoint replaceById (u : UserDoc) (us : list UserDoc) : list UserDoc :=
  match us with
  | [] => []
  | v :: vs => if N.eqb (u_id v) (u_id u) then u :: vs
               else v :: replaceById u vs
  end.

(** Save of a loaded document [old] after assignments gave [new].
    [password] tells whether the password was selected when loading. A
    path is modified only when its new value differs from the loaded one;
    an unmodified document is not written, and a password that was not
    loaded is left as stored. *)
Definition userEqb (a b : UserDoc) : bool :=
  (String.eqb (u_firstName a) (u_firstName b)
   && String.eqb (u_lastName a) (u_lastName b)
   && String.eqb (u_email a) (u_email b)
   && String.eqb (u_password a) (u_password b)
   && match u_surgeryDate a, u_surgeryDate b with
      | Some x, Some y => x =? y
      | None, None => true
      | _, _ => false
      end
   && (u_recoveryDay a =? u_recoveryDay b)
   && Bool.eqb (u_isActive a) (u_isActive b))%bool.

Definition saveLoaded {P : Platform} (env : Env) (password : bool)
           (old new : UserDoc) : M UserDoc :=
  (_ <- validate password new ;;
   let passwordModified :=
     (password && negb (String.eqb (u_password new) (u_password old)))%bool in
   let new0 := if password then new
               else setPassword (u_password old) new in
   if userEqb old new0 then ret new0
   else
     let stored :=
       setUpdatedAt (now env) (preSave env passwordModified new0) in
     db <- getDb ;;
     putDb (withUsers (replaceById stored (users db)) db) ;;; ret stored)%m.

Fixpoint removeById (oid : ObjectId) (us : list UserDoc) : list UserDoc :=
  match us with
  | [] => []
  | v :: vs => if N.eqb (u_id v) oid then vs else v :: removeById oid vs
  end.

Definition deleteOne (u : UserDoc) : M unit :=
  (db <- getDb ;;
   putDb (withUsers (removeById (u_id u) (users db)) db))%m.

(** What a query hands out: the document with the password present only
    when it was selected ([select: false] in the schema). *)
Record UserView := {
  uv_id : ObjectId;
  uv_firstName : string;
  uv_lastName : string;
  uv_email : string;
  uv_password : option string;
  uv_surgeryDate : option Z;
  uv_recoveryDay : Z;
  uv_isActive : bool
}.

Definition select (withPassword : bool) (u : UserDoc) : UserView :=
  {| uv_id := u_id u;
     uv_firstName := u_firstName u;
     uv_lastName := u_lastName u;
     uv_email := u_email u;
     uv_password := if withPassword then Some (u_password u) else None;
     uv_surgeryDate := u_surgeryDate u;
     uv_recoveryDay := u_recoveryDay u;
     uv_isActive := u_isActive u |}.

(** [User.findById(userId)] for an id given as a string. *)
Definition findByIdString (userId : string) : M (option UserDoc) :=
  match castObjectId userId with
  | None => throw CastError "Cast to ObjectId failed"
  | Some oid => (db <- getDb ;; ret (findById oid db))%m
  end.

End UserModel.

(* ================================================================== *)
(** ** services/auth.service.ts *)

Module AuthService.
Import UserModel.

Record RegisterData := {
  reg_email : string;
  reg_password : string;
  reg_firstName : string;
  reg_lastName : string
}.

Record LoginCredentials := {
  cred_email : string;
  cred_password : string
}.

Record AuthUser := {
  au_id : string;
  au_email : string;
  au_firstName : string;
  au_lastName : string
}.

Record AuthResponse := { ar_token : string; ar_user : AuthUser }.

Definition generateToken {P : Platform} (env : Env) (user : UserDoc) : string :=
  jwt_sign {| jp_userId := oidToString (u_id user);
              jp_email := u_email user |} (now env).

Definition authResponse {P : Platform} (env : Env) (user : UserDoc)
  : AuthResponse :=
  {| ar_token := generateToken env user;
     ar_user := {| au_id := oidToString (u_id user);
                   au_email := u_email user;
                   au_firstName := u_firstName user;
                   au_lastName := u_lastName user |} |}.

Definition newObjectId : M ObjectId :=
  fun db => let (oid, db') := freshOid db in (Ok oid, db').

Definition register {P : Platform} (env : Env) (data : RegisterData)
  : M AuthResponse :=
  (db <- getDb ;;
   match findOneByEmail (reg_email data) db with
   | Some _ => throw PlainError "User with this email already exists"
   | None =>
       oid <- newObjectId ;;
       user <- saveNew env
                 (newUser oid (now env) (reg_email data) (reg_password data)
                    (reg_firstName data) (reg_lastName data)) ;;
       ret (authResponse env user)
   end)%m.

Definition login {P : Platform} (env : Env) (credentials : LoginCredentials)
  : M AuthResponse :=
  (db <- getDb ;;
   match findOneByEmail (cred_email credentials) db with
   | None => throw PlainError "Invalid email or password"
   | Some user =>
       if comparePassword (uv_password (select true user))
            (cred_password credentials)
       then ret (authResponse env user)
       else throw PlainError "Invalid email or password"
   end)%m.

Definition verifyToken {P : Platform} (env : Env) (token : string)
  : M JwtPayload :=
  match jwt_verify token (now env) with
  | Ok decoded => ret decoded
  | Throw _ => throw PlainError "Invalid token"
  end.

Definition changePassword {P : Platform} (env : Env)
           (userId currentPassword newPassword : string) : M unit :=
  (found <- findByIdString userId ;;
   match found with
   | None => throw PlainError "User not found"
   | Some user =>
       if comparePassword (uv_password (select true user)) currentPassword
       then (_ <- saveLoaded env true user (setPassword newPassword user) ;;
             ret tt)
       else throw PlainError "Current password is incorrect"
   end)%m.

End AuthService.

(* ================================================================== *)
(** ** services/user.service.ts *)

Module UserService.
Import UserModel.

Record UpdateUserData := {
  upd_firstName : option string;
  upd_lastName : option string;
  upd_email : option string;
  upd_isActive : option bool;
  upd_surgeryDate : option Z
}.

Definition noUpdate : UpdateUserData :=
  {| upd_firstName := None; upd_lastName := None; upd_email := None;
     upd_isActive := None; upd_surgeryDate := None |}.

Definition getUserById (userId : string) : M (option UserView) :=
  (found <- findByIdString userId ;;
   ret (option_map (select false) found))%m.

Definition getUserByEmail (email : string) : M (option UserView) :=
  (db <- getDb ;;
   ret (option_map (select false) (findOneByEmail email db)))%m.

(** [Object.assign(user, updateData)]: every present field is assigned
    through its schema setter. *)
Definition assign (d : UpdateUserData) (u : UserDoc) : UserDoc :=
  {| u_id := u_id u;
     u_firstName := match upd_firstName d with
                    | Some v => nameSetter v | None => u_firstName u end;
     u_lastName := match upd_lastName d with
                   | Some v => nameSetter v | None => u_lastName u end;
     u_email := match upd_email d with
                | Some v => emailSetter v | None => u_email u end;
     u_password := u_password u;
     u_surgeryDate := match upd_surgeryDate d with
                      | Some v => Some v | None => u_surgeryDate u end;
     u_recoveryDay := u_recoveryDay u;
     u_isActive := match upd_isActive d with
                   | Some v => v | None => u_isActive u end;
     u_createdAt := u_createdAt u;
     u_updatedAt := u_updatedAt u |}.

Definition emailTaken (d : UpdateUserData) (u : UserDoc) (db : Db) : bool :=
  match upd_email d with
  | Some e =>
      if (Js.truthy e && negb (String.eqb e (u_email u)))%bool
      then match findOneByEmail e db with Some _ => true | None => false end
      else false
  | None => false
  end.

Definition updateUser {P : Platform} (env : Env) (userId : string)
           (updateData : UpdateUserData) : M (option UserView) :=
  (found <- findByIdString userId ;;
   match found with
   | None => throw PlainError "User not found"
   | Some user =>
       db <- getDb ;;
       if emailTaken updateData user db
       then throw PlainError "Email is already taken"
       else
         (_ <- saveLoaded env false user (assign updateData user) ;;
          getUserById userId)
   end)%m.

Definition deleteUser (userId : string) : M unit :=
  (found <- findByIdString userId ;;
   match found with
   | None => throw PlainError "User not found"
   | Some user => deleteOne user
   end)%m.

Definition setActive {P : Platform} (env : Env) (userId : string) (b : bool)
  : M (option UserView) :=
  (found <- findByIdString userId ;;
   match found with
   | None => throw PlainError "User not found"
   | Some user =>
       _ <- saveLoaded env false user
              (assign {| upd_firstName := None; upd_lastName := None;
                         upd_email := None; upd_isActive := Some b;
                         upd_surgeryDate := None |} user) ;;
       getUserById userId
   end)%m.

Definition deactivateUser {P : Platform} (env : Env) (userId : string)
  : M (option UserView) := setActive env userId false.

Definition activateUser {P : Platform} (env : Env) (userId : string)
  : M (option UserView) := setActive env userId true.

End UserService.

(* ================================================================== *)
(** ** HTTP responses *)

Record FieldError := { fe_message : string; fe_field : string }.

(** A date in a JSON body: a string echoed from the request, or a stored
    [Date]. *)
Inductive DateJson : Type :=
| DateString : string -> DateJson
| DateValue : Z -> DateJson.

Record UserJson := {
  uj_id : string;
  uj_firstName : string;
  uj_lastName : string;
  uj_email : string;
  uj_surgeryDate : option DateJson;   (* [None] is [null] *)
  uj_recoveryDay : Z
}.

Inductive Body : Type :=
| BFailure (error : string) (errors : list FieldError)
    (* { success: false, error, errors } *)
| BGate (error : string)
    (* { success: false, error } *)
| BMessage (success : bool) (message : string)
    (* { success, message } *)
| BAuth (user : UserJson) (token : string) (message : string)
    (* { success: true, data: { user, token }, message } *)
| BUser (user : UserJson) (message : string)
    (* { success: true, data: { user }, message } *)
| BEntry (data : SymptomDoc) (message : string)
| BEntries (data : list SymptomDoc) (message : string)
| BProgress (data : ProgressDoc) (message : string)
| BProgressList (data : list ProgressDoc) (message : string)
| BNotFound.
    (* no route matched *)

Record Response := { status : Z; body : Body }.

Definition respond (code : Z) (b : Body) : Response :=
  {| status := code; body := b |}.

(** [req.user], as the middleware attaches it. *)
Record ReqUser := {
  ru_id : string;
  ru_firstName : string;
  ru_lastName : string;
  ru_email : string
}.

(** [req.user?.id] followed by [if (!userId)]. *)
Definition authenticatedId (u : option ReqUser) : option string :=
  match u with
  | Some r => if Js.truthy (ru_id r) then Some (ru_id r) else None
  | None => None
  end.

(** A controller: it answers and leaves a database. *)
Definition Handler : Type := Db -> Response * Db.

(* ================================================================== *)
(** ** middleware/auth.middleware.ts *)

Module AuthMiddleware.
Import UserModel.

Inductive Gate : Type :=
| Next : ReqUser -> Gate          (* [req.user] set, [next()] called *)
| Rejected : Response -> Gate.

(** [authHeader && authHeader.split(' ')[1]] *)
Definition bearerToken (authorization : option string) : option string :=
  match authorization with
  | Some authHeader =>
      if Js.truthy authHeader then nth_error (Js.split " " authHeader) 1
      else None
  | None => None
  end.

Definition authenticateToken {P : Platform} (env : Env)
           (authorization : option string) (db : Db) : Gate :=
  if negb (Js.truthyOpt (bearerToken authorization))
  then Rejected (respond 401 (BGate "Access token required"))
  else
    let token := match bearerToken authorization with Some t => t | None => "" end in
    let attempt : Result Gate :=
      match jwt_verify token (now env) with
      | Throw e => Throw e
      | Ok decoded =>
          match findByIdString (jp_userId decoded) db with
          | (Throw e, _) => Throw e
          | (Ok None, _) =>
              Ok (Rejected (respond 401 (BGate "User not found")))
          | (Ok (Some user), _) =>
              Ok (Next {| ru_id := oidToString (u_id user);
                          ru_firstName := u_firstName user;
                          ru_lastName := u_lastName user;
                          ru_email := u_email user |})
          end
      end in
    match attempt with
    | Ok g => g
    | Throw error =>
        if instanceofJsonWebTokenError error
        then Rejected (respond 401 (BGate "Invalid token"))
        else if instanceofTokenExpiredError error
        then Rejected (respond 401 (BGate "Token expired"))
        else Rejected (respond 500 (BGate "Authentication failed"))
    end.

End AuthMiddleware.

(* ================================================================== *)
(** ** controllers/auth.controller.ts *)

Module AuthController.
Import ValidationService UserModel AuthService UserService.

Record SignupBody := {
  sb_firstName : option string;
  sb_lastName : option string;
  sb_email : option string;
  sb_password : option string;
  sb_surgeryDate : option string
}.

Record SigninBody := {
  ib_email : option string;
  ib_password : option string
}.

Definition getFieldFromError (error : string) : string :=
  if Js.includes "First name" error then "firstName"
  else if Js.includes "Last name" error then "lastName"
  else if Js.includes "Email" error then "email"
  else if Js.includes "Password" error then "password"
  else "general".

Definition validationFailed (errors : list string) : Response :=
  respond 400
    (BFailure "Validation failed"
       (map (fun e => {| fe_message := e;
                         fe_field := getFieldFromError e |}) errors)).

Definition unexpected (error : string) : Response :=
  respond 500
    (BFailure error
       [{| fe_message := "An unexpected error occurred. Please try again.";
           fe_field := "general" |}]).

Definition fail1 (code : Z) (error message field : string) : Response :=
  respond code
    (BFailure error [{| fe_message := message; fe_field := field |}]).

(** [surgeryDate || null] *)
Definition orNull (surgeryDate : option string) : option DateJson :=
  match surgeryDate with
  | Some s => if Js.truthy s then Some (DateString s) else None
  | None => None
  end.

Definition signup {P : Platform} (env : Env) (body : SignupBody) : Handler :=
  fun db =>
    match validateRegistration
            {| rd_firstName := sb_firstName body;
               rd_lastName := sb_lastName body;
               rd_email := sb_email body;
               rd_password := sb_password body |} with
    | Invalid errors => (validationFailed errors, db)
    | Valid sanitizedData =>
        match register env
                {| reg_firstName := s_firstName sanitizedData;
                   reg_lastName := s_lastName sanitizedData;
                   reg_email := s_email sanitizedData;
                   reg_password := s_password sanitizedData |} db with
        | (Ok authResponse, db') =>
            (respond 201
               (BAuth
                  {| uj_id := au_id (ar_user authResponse);
                     uj_firstName := au_firstName (ar_user authResponse);
                     uj_lastName := au_lastName (ar_user authResponse);
                     uj_email := au_email (ar_user authResponse);
                     uj_surgeryDate := orNull (sb_surgeryDate body);
                     uj_recoveryDay := 0 |}
                  (ar_token authResponse)
                  "User created successfully"),
             db')
        | (Throw error, db') =>
            if Js.includes "already exists" (err_message error)
            then (fail1 409 "Registration failed"
                    "Email already in use" "email", db')
            else (unexpected "Failed to create user", db')
        end
    end.

Definition signin {P : Platform} (env : Env) (body : SigninBody) : Handler :=
  fun db =>
    match validateLogin {| ld_email := ib_email body;
                           ld_password := ib_password body |} with
    | Invalid errors => (validationFailed errors, db)
    | Valid sanitizedData =>
        match login env
                {| cred_email := sl_email sanitizedData;
                   cred_password := sl_password sanitizedData |} db with
        | (Ok authResponse, db') =>
            (respond 200
               (BAuth
                  {| uj_id := au_id (ar_user authResponse);
                     uj_firstName := au_firstName (ar_user authResponse);
                     uj_lastName := au_lastName (ar_user authResponse);
                     uj_email := au_email (ar_user authResponse);
                     uj_surgeryDate := None;
                     uj_recoveryDay := 0 |}
                  (ar_token authResponse)
                  "User signed in successfully"),
             db')
        | (Throw _, db') =>
            (* every thrown value is an [Error] *)
            (fail1 400 "Authentication failed"
               "Invalid email or password" "credentials", db')
        end
    end.

Definition unauthorized : Response :=
  fail1 401 "Unauthorized" "Authentication token is required" "token".

Definition userResponse (env : Env) (user : UserView) : UserJson :=
  {| uj_id := oidToString (uv_id user);
     uj_firstName := uv_firstName user;
     uj_lastName := uv_lastName user;
     uj_email := uv_email user;
     uj_surgeryDate := option_map DateValue (uv_surgeryDate user);
     uj_recoveryDay := calculateRecoveryDay (now env) (uv_surgeryDate user) |}.

Definition getProfile (env : Env) (user : option ReqUser) : Handler :=
  fun db =>
    match authenticatedId user with
    | None => (unauthorized, db)
    | Some userId =>
        match getUserById userId db with
        | (Ok None, db') =>
            (fail1 401 "User not found" "User account not found" "user", db')
        | (Ok (Some u), db') =>
            (respond 200
               (BUser (userResponse env u)
                  "User profile retrieved successfully"), db')
        | (Throw _, db') => (unexpected "Failed to get user profile", db')
        end
    end.

Definition updateSurgeryDate {P : Platform} (env : Env)
           (user : option ReqUser) (surgeryDate : option string) : Handler :=
  fun db =>
    match authenticatedId user with
    | None => (unauthorized, db)
    | Some userId =>
        if negb (Js.truthyOpt surgeryDate)
        then (fail1 400 "Validation failed"
                "Surgery date is required" "surgeryDate", db)
        else
          match date_parse (orEmpty surgeryDate) with
          | None => (fail1 400 "Validation failed"
                       "Invalid date format" "surgeryDate", db)
          | Some date =>
              if now env <? date
              then (fail1 400 "Validation failed"
                      "Surgery date cannot be in the future" "surgeryDate",
                    db)
              else
                match updateUser env userId
                        {| upd_firstName := None; upd_lastName := None;
                           upd_email := None; upd_isActive := None;
                           upd_surgeryDate := Some date |} db with
                | (Ok None, db') =>
                    (fail1 404 "User not found"
                       "User account not found" "user", db')
                | (Ok (Some u), db') =>
                    (respond 200
                       (BUser (userResponse env u)
                          "Surgery date updated successfully"), db')
                | (Throw _, db') =>
                    (unexpected "Failed to update surgery date", db')
                end
          end
    end.

Definition changePassword {P : Platform} (env : Env) (user : option ReqUser)
           (currentPassword newPassword : option string) : Handler :=
  fun db =>
    match authenticatedId user with
    | None => (unauthorized, db)
    | Some userId =>
        if (negb (Js.truthyOpt currentPassword)
            || negb (Js.truthyOpt newPassword))%bool
        then (fail1 400 "Validation failed"
                "Current password and new password are required"
                "password", db)
        else
          let cur := orEmpty currentPassword in
          let new := orEmpty newPassword in
          if Nat.ltb (String.length new) 8
          then (fail1 400 "Validation failed"
                  "New password must be at least 8 characters long"
                  "newPassword", db)
          else if String.eqb cur new
          then (fail1 400 "Validation failed"
                  "New password must be different from current password"
                  "newPassword", db)
          else
            match AuthService.changePassword env userId cur new db with
            | (Ok _, db') =>
                (respond 200
                   (BMessage true "Password changed successfully"), db')
            | (Throw error, db') =>
                (fail1 400 "Password change failed"
                   (err_message error) "password", db')
            end
    end.

End AuthController.

(* ================================================================== *)
(** ** services/brochure-progress.service.ts *)

Module BrochureProgressService.

Definition sameKey (userId sectionId itemId : string) (p : ProgressDoc)
  : bool :=
  (String.eqb (p_userId p) userId
   && String.eqb (p_sectionId p) sectionId
   && String.eqb (p_itemId p) itemId)%bool.

(** The [$set] of [{ completed, notes, updatedAt }]: a key whose value is
    [undefined] is stripped from the update, so absent notes leave the
    stored notes as they are. *)
Definition applyUpdate (completed : bool) (notes : option string) (t : Z)
           (p : ProgressDoc) : ProgressDoc :=
  {| p_id := p_id p;
     p_userId := p_userId p;
     p_sectionId := p_sectionId p;
     p_itemId := p_itemId p;
     p_completed := completed;
     p_notes := match notes with Some n => n | None => p_notes p end;
     p_createdAt := p_createdAt p;
     p_updatedAt := t |}.

(** The document an upsert inserts: the filter's fields, the update and
    the schema defaults. *)
Definition inserted (oid : ObjectId) (userId sectionId itemId : string)
           (completed : bool) (notes : option string) (t : Z) : ProgressDoc :=
  {| p_id := oid;
     p_userId := userId;
     p_sectionId := sectionId;
     p_itemId := itemId;
     p_completed := completed;
     p_notes := match notes with Some n => n | None => "" end;
     p_createdAt := t;
     p_updatedAt := t |}.

(** Update the first document the filter matches. *)
Fixpoint updateFirst (f : ProgressDoc -> bool) (g : ProgressDoc -> ProgressDoc)
         (ps : list ProgressDoc) : option (ProgressDoc * list ProgressDoc) :=
  match ps with
  | [] => None
  | p :: ps' =>
      if f p then Some (g p, g p :: ps')
      else match updateFirst f g ps' with
           | Some (q, ps'') => Some (q, p :: ps'')
           | None => None
           end
  end.

(** [BrochureProgress.findOneAndUpdate(filter, update,
    { upsert: true, new: true })] *)
Definition findOneAndUpdate (env : Env) (userId sectionId itemId : string)
           (completed : bool) (notes : option string) : M ProgressDoc :=
  fun db =>
    match updateFirst (sameKey userId sectionId itemId)
            (applyUpdate completed notes (now env)) (progress db) with
    | Some (p, ps) => (Ok p, withProgress ps db)
    | None =>
        let (oid, db') := freshOid db in
        let p := inserted oid userId sectionId itemId completed notes
                   (now env) in
        (Ok p, withProgress (progress db' ++ [p]) db')
    end.

Inductive ProgressData : Type :=
| OneProgress : ProgressDoc -> ProgressData
| ManyProgress : list ProgressDoc -> ProgressData.

Record ProgressResponse := {
  pr_success : bool;
  pr_data : option ProgressData;
  pr_message : string
}.

Definition updateProgress (env : Env) (userId sectionId itemId : string)
           (completed : bool) (notes : option string)
  : Db -> ProgressResponse * Db :=
  fun db =>
    match findOneAndUpdate env userId sectionId itemId completed notes db with
    | (Ok p, db') =>
        ({| pr_success := true; pr_data := Some (OneProgress p);
            pr_message := "Progress updated successfully" |}, db')
    | (Throw _, db') =>
        ({| pr_success := false; pr_data := None;
            pr_message := "Failed to update progress" |}, db')
    end.

Definition find (userId : string) (db : Db) : list ProgressDoc :=
  filter (fun p => String.eqb (p_userId p) userId) (progress db).

Definition getUserProgress (userId : string)
  : Db -> ProgressResponse * Db :=
  fun db =>
    ({| pr_success := true; pr_data := Some (ManyProgress (find userId db));
        pr_message := "Progress retrieved successfully" |}, db).

Definition deleteMany (userId : string) (db : Db) : Db :=
  withProgress
    (filter (fun p => negb (String.eqb (p_userId p) userId)) (progress db))
    db.

Definition resetProgress (userId : string)
  : Db -> ProgressResponse * Db :=
  fun db =>
    ({| pr_success := true; pr_data := None;
        pr_message := "Progress reset successfully" |},
     deleteMany userId db).

End BrochureProgressService.

(* ================================================================== *)
(** ** models/symptom-entry.model.ts, services/symptom-entry.service.ts *)

Module SymptomEntryService.

Record SymptomEntryRequest := {
  req_date : option string;
  req_painLevel : option Z;
  req_location : option string;
  req_description : option string;
  req_medications : option string
}.

Inductive SymptomData : Type :=
| OneEntry : SymptomDoc -> SymptomData
| ManyEntries : list SymptomDoc -> SymptomData.

Record SymptomEntryResponse := {
  success : bool;
  data : option SymptomData;
  message : string
}.

Definition succeeded (d : option SymptomData) (msg : string)
  : SymptomEntryResponse :=
  {| success := true; data := d; message := msg |}.

Definition failed (msg : string) : SymptomEntryResponse :=
  {| success := false; data := None; message := msg |}.

(** Schema validators run by [save]: [userId], [date] and [painLevel] are
    required; [painLevel] has [min: 0] and [max: 10]. *)
Definition painLevelErrors (v : option Z) : list string :=
  match v with
  | None => ["Path `painLevel` is required."]
  | Some n =>
      if n <? 0 then ["Path `painLevel` is less than minimum allowed value (0)."]
      else if 10 <? n
           then ["Path `painLevel` is more than maximum allowed value (10)."]
      else []
  end.

Definition requiredString (path : string) (v : option string)
  : list string :=
  if Js.truthyOpt v then [] else ["Path `" ++ path ++ "` is required."].

Definition validationErrors (userId : string) (d : SymptomEntryRequest)
  : list string :=
  (requiredString "userId" (Some userId)
   ++ requiredString "date" (req_date d)
   ++ painLevelErrors (req_painLevel d))%list.

Definition orDefault (o : option string) : string :=
  match o with Some s => s | None => "" end.

(** [new SymptomEntry({ userId, ...entryData })] with the defaults of the
    schema; [timestamp] defaults to [Date.now]. *)
Definition newEntry (oid : ObjectId) (t : Z) (userId : string)
           (d : SymptomEntryRequest) : SymptomDoc :=
  {| se_id := oid;
     se_userId := userId;
     se_date := orDefault (req_date d);
     se_painLevel := match req_painLevel d with Some n => n | None => 0 end;
     se_location := orDefault (req_location d);
     se_description := orDefault (req_description d);
     se_medications := orDefault (req_medications d);
     se_timestamp := t;
     se_createdAt := t;
     se_updatedAt := t |}.

(** [newEntry.save()] *)
Definition save (env : Env) (userId : string) (d : SymptomEntryRequest)
  : M SymptomDoc :=
  fun db =>
    let (oid, db') := freshOid db in
    match validationErrors userId d with
    | [] =>
        let e := newEntry oid (now env) userId d in
        (Ok e, withSymptoms (symptoms db' ++ [e]) db')
    | _ => throw ValidationError "SymptomEntry validation failed" db'
    end.

Definition createEntry (env : Env) (userId : string)
           (entryData : SymptomEntryRequest)
  : Db -> SymptomEntryResponse * Db :=
  fun db =>
    match save env userId entryData db with
    | (Ok savedEntry, db') =>
        (succeeded (Some (OneEntry savedEntry))
           "Symptom entry created successfully", db')
    | (Throw _, db') => (failed "Failed to create symptom entry", db')
    end.

(** Insertion of [e] into a list sorted by [timestamp], newest first. *)
Fixpoint insertByTimestamp (e : SymptomDoc) (l : list SymptomDoc)
  : list SymptomDoc :=
  match l with
  | [] => [e]
  | x :: l' =>
      if se_timestamp x <? se_timestamp e then e :: l
      else x :: insertByTimestamp e l'
  end.

(** [.sort({ timestamp: -1 })] *)
Definition sortByTimestampDesc (l : list SymptomDoc) : list SymptomDoc :=
  fold_right insertByTimestamp [] l.

Definition find (userId : string) (db : Db) : list SymptomDoc :=
  filter (fun e => String.eqb (se_userId e) userId) (symptoms db).

Definition getUserEntries (userId : string)
  : Db -> SymptomEntryResponse * Db :=
  fun db =>
    (succeeded (Some (ManyEntries (sortByTimestampDesc (find userId db))))
       "Symptom entries retrieved successfully", db).

(** The filter [{ _id: entryId, userId }] after the cast of [_id]. *)
Definition owned (oid : ObjectId) (userId : string) (e : SymptomDoc) : bool :=
  (N.eqb (se_id e) oid && String.eqb (se_userId e) userId)%bool.

(** The [$set] built from [updateData]; absent fields are left alone and
    no validator runs on an update. *)
Definition applyUpdate (d : SymptomEntryRequest) (t : Z) (e : SymptomDoc)
  : SymptomDoc :=
  {| se_id := se_id e;
     se_userId := se_userId e;
     se_date := match req_date d with Some v => v | None => se_date e end;
     se_painLevel := match req_painLevel d with
                     | Some v => v | None => se_painLevel e end;
     se_location := match req_location d with
                    | Some v => v | None => se_location e end;
     se_description := match req_description d with
                       | Some v => v | None => se_description e end;
     se_medications := match req_medications d with
                       | Some v => v | None => se_medications e end;
     se_timestamp := se_timestamp e;
     se_createdAt := se_createdAt e;
     se_updatedAt := t |}.

Fixpoint updateFirst (f : SymptomDoc -> bool) (g : SymptomDoc -> SymptomDoc)
         (l : list SymptomDoc) : option (SymptomDoc * list SymptomDoc) :=
  match l with
  | [] => None
  | e :: l' =>
      if f e then Some (g e, g e :: l')
      else match updateFirst f g l' with
           | Some (r, l'') => Some (r, e :: l'')
           | None => None
           end
  end.

Fixpoint removeFirst (f : SymptomDoc -> bool) (l : list SymptomDoc)
  : option (SymptomDoc * list SymptomDoc) :=
  match l with
  | [] => None
  | e :: l' =>
      if f e then Some (e, l')
      else match removeFirst f l' with
           | Some (r, l'') => Some (r, e :: l'')
           | None => None
           end
  end.

(** [SymptomEntry.findOneAndUpdate({ _id: entryId, userId }, updateData,
    { new: true })] *)
Definition findOneAndUpdate (env : Env) (userId entryId : string)
           (updateData : SymptomEntryRequest) : M (option SymptomDoc) :=
  match castObjectId entryId with
  | None => throw CastError "Cast to ObjectId failed"
  | Some oid =>
      fun db =>
        match updateFirst (owned oid userId)
                (applyUpdate updateData (now env)) (symptoms db) with
        | Some (e, l) => (Ok (Some e), withSymptoms l db)
        | None => (Ok None, db)
        end
  end.

(** [SymptomEntry.findOneAndDelete({ _id: entryId, userId })] *)
Definition findOneAndDelete (userId entryId : string)
  : M (option SymptomDoc) :=
  match castObjectId entryId with
  | None => throw CastError "Cast to ObjectId failed"
  | Some oid =>
      fun db =>
        match removeFirst (owned oid userId) (symptoms db) with
        | Some (e, l) => (Ok (Some e), withSymptoms l db)
        | None => (Ok None, db)
        end
  end.

Definition updateEntry (env : Env) (userId entryId : string)
           (updateData : SymptomEntryRequest)
  : Db -> SymptomEntryResponse * Db :=
  fun db =>
    match findOneAndUpdate env userId entryId updateData db with
    | (Ok None, db') => (failed "Symptom entry not found", db')
    | (Ok (Some updatedEntry), db') =>
        (succeeded (Some (OneEntry updatedEntry))
           "Symptom entry updated successfully", db')
    | (Throw _, db') => (failed "Failed to update symptom entry", db')
    end.

Definition deleteEntry (userId entryId : string)
  : Db -> SymptomEntryResponse * Db :=
  fun db =>
    match findOneAndDelete userId entryId db with
    | (Ok None, db') => (failed "Symptom entry not found", db')
    | (Ok (Some _), db') =>
        (succeeded None "Symptom entry deleted successfully", db')
    | (Throw _, db') => (failed "Failed to delete symptom entry", db')
    end.

(** [SymptomEntry.deleteMany({ userId })] *)
Definition deleteMany (userId : string) (db : Db) : Db :=
  withSymptoms
    (filter (fun e => negb (String.eqb (se_userId e) userId)) (symptoms db))
    db.

Definition clearUserEntries (userId : string)
  : Db -> SymptomEntryResponse * Db :=
  fun db =>
    (succeeded None "All symptom entries cleared successfully",
     deleteMany userId db).

End SymptomEntryService.

(* ================================================================== *)
(** ** controllers/symptom-entry.controller.ts *)

Module SymptomEntryController.
Import SymptomEntryService.

Definition notAuthenticated : Response :=
  respond 401 (BMessage false "User not authenticated").

(** [{ success: true, data: result.data, message: result.message }] *)
Definition dataBody (r : SymptomEntryResponse) : Body :=
  match data r with
  | Some (OneEntry e) => BEntry e (message r)
  | Some (ManyEntries l) => BEntries l (message r)
  | None => BMessage true (message r)
  end.

(** [req.body.location || ''] *)
Definition orEmptyString (o : option string) : option string :=
  Some (if Js.truthyOpt o then orDefault o else "").

Definition createSymptomEntry (env : Env) (user : option ReqUser)
           (body : SymptomEntryRequest) : Handler :=
  fun db =>
    match authenticatedId user with
    | None => (notAuthenticated, db)
    | Some userId =>
        let entryData :=
          {| req_date := req_date body;
             req_painLevel := req_painLevel body;
             req_location := orEmptyString (req_location body);
             req_description := orEmptyString (req_description body);
             req_medications := orEmptyString (req_medications body) |} in
        let (result, db') := createEntry env userId entryData db in
        if success result then (respond 201 (dataBody result), db')
        else (respond 400 (BMessage false (message result)), db')
    end.

Definition getUserSymptomEntries (user : option ReqUser) : Handler :=
  fun db =>
    match authenticatedId user with
    | None => (notAuthenticated, db)
    | Some userId =>
        let (result, db') := getUserEntries userId db in
        if success result then (respond 200 (dataBody result), db')
        else (respond 400 (BMessage false (message result)), db')
    end.

Definition updateSymptomEntry (env : Env) (user : option ReqUser)
           (id : string) (body : SymptomEntryRequest) : Handler :=
  fun db =>
    match authenticatedId user with
    | None => (notAuthenticated, db)
    | Some userId =>
        let updateData :=
          {| req_date := if Js.truthyOpt (req_date body)
                         then req_date body else None;
             req_painLevel := req_painLevel body;
             req_location := req_location body;
             req_description := req_description body;
             req_medications := req_medications body |} in
        let (result, db') := updateEntry env userId id updateData db in
        if success result then (respond 200 (dataBody result), db')
        else (respond 404 (BMessage false (message result)), db')
    end.

Definition deleteSymptomEntry (user : option ReqUser) (id : string)
  : Handler :=
  fun db =>
    match authenticatedId user with
    | None => (notAuthenticated, db)
    | Some userId =>
        let (result, db') := deleteEntry userId id db in
        if success result
        then (respond 200 (BMessage true (message result)), db')
        else (respond 404 (BMessage false (message result)), db')
    end.

Definition clearUserSymptomEntries (user : option ReqUser) : Handler :=
  fun db =>
    match authenticatedId user with
    | None => (notAuthenticated, db)
    | Some userId =>
        let (result, db') := clearUserEntries userId db in
        if success result
        then (respond 200 (BMessage true (message result)), db')
        else (respond 400 (BMessage false (message result)), db')
    end.

End SymptomEntryController.

(* ================================================================== *)
(** ** routes/symptom-entry.routes.ts *)

Module SymptomEntryRoutes.
Import SymptomEntryService SymptomEntryController AuthMiddleware.

Inductive Method : Type := GET | POST | PUT | PATCH | DELETE.

Definition methodEqb (a b : Method) : bool :=
  match a, b with
  | GET, GET | POST, POST | PUT, PUT | PATCH, PATCH | DELETE, DELETE => true
  | _, _ => false
  end.

(** One segment of a route path: a literal or a [:name] parameter. *)
Inductive Segment : Type :=
| Literal : string -> Segment
| Param : string -> Segment.

Inductive Action : Type :=
| CreateSymptomEntry
| GetUserSymptomEntries
| UpdateSymptomEntry
| DeleteSymptomEntry
| ClearUserSymptomEntries.

Record Route := {
  route_method : Method;
  route_path : list Segment;
  route_action : Action
}.

(** The routes in the order the file registers them. *)
Definition routes : list Route :=
  [ {| route_method := POST; route_path := [];
       route_action := CreateSymptomEntry |};
    {| route_method := GET; route_path := [];
       route_action := GetUserSymptomEntries |};
    {| route_method := PUT; route_path := [Param "id"];
       route_action := UpdateSymptomEntry |};
    {| route_method := DELETE; route_path := [Param "id"];
       route_action := DeleteSymptomEntry |};
    {| route_method := DELETE; route_path := [Literal "clear"];
       route_action := ClearUserSymptomEntries |} ].

(** The non-empty segments of a request path below the mount point. *)
Definition segments (path : string) : list string :=
  filter Js.truthy (Js.split "/" path).

(** Match of a route path against the segments of the request; the result
    is [req.params]. *)
Fixpoint matchPath (pat : list Segment) (segs : list string)
  : option (list (string * string)) :=
  match pat, segs with
  | [], [] => Some []
  | Literal l :: pat', s :: segs' =>
      if String.eqb l s then matchPath pat' segs' else None
  | Param name :: pat', s :: segs' =>
      match matchPath pat' segs' with
      | Some ps => Some ((name, s) :: ps)
      | None => None
      end
  | _, _ => None
  end.

(** The first registered route that matches; its handler answers without
    calling [next], so no later route is tried. *)
Fixpoint firstMatch (rs : list Route) (m : Method) (segs : list string)
  : option (Action * list (string * string)) :=
  match rs with
  | [] => None
  | r :: rs' =>
      if methodEqb (route_method r) m then
        match matchPath (route_path r) segs with
        | Some ps => Some (route_action r, ps)
        | None => firstMatch rs' m segs
        end
      else firstMatch rs' m segs
  end.

Fixpoint param (name : string) (ps : list (string * string)) : string :=
  match ps with
  | [] => ""
  | (n, v) :: ps' => if String.eqb n name then v else param name ps'
  end.

Record Request := {
  rq_method : Method;
  rq_path : string;
  rq_authorization : option string;
  rq_body : SymptomEntryRequest
}.

Definition emptyBody : SymptomEntryRequest :=
  {| req_date := None; req_painLevel := None; req_location := None;
     req_description := None; req_medications := None |}.

Definition run (env : Env) (a : Action) (ps : list (string * string))
           (user : option ReqUser) (body : SymptomEntryRequest) : Handler :=
  match a with
  | CreateSymptomEntry => createSymptomEntry env user body
  | GetUserSymptomEntries => getUserSymptomEntries user
  | UpdateSymptomEntry => updateSymptomEntry env user (param "id" ps) body
  | DeleteSymptomEntry => deleteSymptomEntry user (param "id" ps)
  | ClearUserSymptomEntries => clearUserSymptomEntries user
  end.

(** The router mounted at [/api/v1/tracker]: [authenticateToken] first,
    then the routes. *)
Definition router {P : Platform} (env : Env) (req : Request) : Handler :=
  fun db =>
    match authenticateToken env (rq_authorization req) db with
    | Rejected r => (r, db)
    | Next user =>
        match firstMatch routes (rq_method req) (segments (rq_path req)) with
        | Some (a, ps) => run env a ps (Some user) (rq_body req) db
        | None => (respond 404 BNotFound, db)
        end
    end.

End SymptomEntryRoutes.

(* ================================================================== *)
(** ** Database invariants *)

(** What MongoDB and the [ObjectId] generator maintain: every [_id] is
    below the generator's counter and unique in its collection, and the
    unique indexes hold (user email; progress key triple). *)
Module Invariant.

Fixpoint nodupb {A : Type} (eqb : A -> A -> bool) (l : list A) : bool :=
  match l with
  | [] => true
  | x :: l' => (negb (existsb (eqb x) l') && nodupb eqb l')%bool
  end.

Definition belowb (n : N) (ids : list N) : bool :=
  forallb (fun i => (i <? n)%N) ids.

Definition progressKey (p : ProgressDoc) : string * string * string :=
  (p_userId p, p_sectionId p, p_itemId p).

Definition keyEqb (a b : string * string * string) : bool :=
  match a, b with
  | (u1, s1, i1), (u2, s2, i2) =>
      (String.eqb u1 u2 && String.eqb s1 s2 && String.eqb i1 i2)%bool
  end.

(** The compound unique index of brochure-progress.model.ts. *)
Definition uniqueProgressKeys (db : Db) : bool :=
  nodupb keyEqb (map progressKey (progress db)).

Definition uniqueUserIds (db : Db) : bool :=
  (nodupb N.eqb (map u_id (users db))
   && belowb (next_oid db) (map u_id (users db)))%bool.

Definition uniqueSymptomIds (db : Db) : bool :=
  (nodupb N.eqb (map se_id (symptoms db))
   && belowb (next_oid db) (map se_id (symptoms db)))%bool.

End Invariant.

(* ================================================================== *)
(** ** A concrete platform, for running the model on examples *)

Module Toy.

Fixpoint drop (n : nat) (s : string) : string :=
  match n, s with
  | O, _ => s
  | S n', String _ s' => drop n' s'
  | S _, EmptyString => EmptyString
  end.

Fixpoint take (n : nat) (s : string) : string :=
  match n, s with
  | O, _ => EmptyString
  | S n', String c s' => String c (take n' s')
  | S n', EmptyString => String "." (take n' EmptyString)
  end.

(** Shaped like a bcrypt string: version, cost, 22 characters of salt,
    then a digest (here the data itself). *)
Definition hashSync (salt data : string) : string :=
  "$2a$10$" ++ take 22 salt ++ data.

Definition compareSync (candidate hash : string) : bool :=
  (Js.startsWith "$2a$10$" hash && String.eqb (drop 29 hash) candidate)%bool.

Definition sign (p : JwtPayload) (t : Z) : string :=
  "jwt|" ++ jp_userId p ++ "|" ++ jp_email p.

Definition verify (token : string) (t : Z) : Result JwtPayload :=
  match Js.split "|" token with
  | [tag; uid; email] =>
      if String.eqb tag "jwt"
      then Ok {| jp_userId := uid; jp_email := email |}
      else Throw {| err_class := JsonWebTokenError;
                    err_message := "jwt malformed" |}
  | _ => Throw {| err_class := JsonWebTokenError;
                  err_message := "jwt malformed" |}
  end.

Definition parseDate (s : string) : option Z :=
  if String.eqb s "2024-01-15" then Some 1705276800000
  else if String.eqb s "2024-01-14" then Some 1705190400000
  else None.

Definition platform : Platform :=
  {| bcrypt_hashSync := hashSync;
     bcrypt_compareSync := compareSync;
     jwt_sign := sign;
     jwt_verify := verify;
     date_parse := parseDate |}.

Definition env : Env :=
  {| now := 1705312800000;               (* 2024-01-15T10:00:00Z *)
     salt := "N9qo8uLOickgx2ZMRZoMye" |}.

End Toy.

(** Sample requests and the databases they lead to. *)
Module Examples.
Import AuthController SymptomEntryService SymptomEntryRoutes.

Definition sarah : SignupBody :=
  {| sb_firstName := Some "Sarah"; sb_lastName := Some "Johnson";
     sb_email := Some "sarah@x.com"; sb_password := Some "Passw0rd";
     sb_surgeryDate := Some "2024-01-15" |}.

Definition sarahId : string := "000000000000000000000001".

Definition sarahToken : string := "jwt|000000000000000000000001|sarah@x.com".

Definition bearer : option string := Some ("Bearer " ++ sarahToken).

Definition sarahUser : ReqUser :=
  {| ru_id := sarahId; ru_firstName := "Sarah"; ru_lastName := "Johnson";
     ru_email := "sarah@x.com" |}.

Definition otherUser : ReqUser :=
  {| ru_id := "000000000000000000000009"; ru_firstName := "Amara";
     ru_lastName := "Okafor"; ru_email := "amara@x.com" |}.

(** After [POST /auth/signup] on an empty database. *)
Definition registered : Db :=
  snd (signup (P := Toy.platform) Toy.env sarah emptyDb).

Definition pain (n : Z) : SymptomEntryRequest :=
  {| req_date := Some "2024-01-15"; req_painLevel := Some n;
     req_location := None; req_description := None;
     req_medications := None |}.

(** After Sarah's [POST /tracker] with pain level 5. *)
Definition withDiary : Db :=
  snd (router (P := Toy.platform) Toy.env
         {| rq_method := POST; rq_path := "/"; rq_authorization := bearer;
            rq_body := pain 5 |} registered).

Definition deleteClear : Request :=
  {| rq_method := DELETE; rq_path := "/clear"; rq_authorization := bearer;
     rq_body := emptyBody |}.

Definition getAll : Request :=
  {| rq_method := GET; rq_path := "/"; rq_authorization := bearer;
     rq_body := emptyBody |}.

End Examples.

(* ================================================================== *)
(** ** Notions used to state the properties *)

(** Midnight (UTC) of the calendar day that contains the instant [t]: the
    [Date] a date-only string of that day parses to. *)
Definition startOfUtcDay (t : Z) : Z := (t / UserModel.msPerDay) * UserModel.msPerDay.

(** Two e-mail addresses equal up to letter case, after trimming. *)
Definition sameEmail (a b : string) : Prop :=
  Js.toLowerCase (Js.trim a) = Js.toLowerCase (Js.trim b).

Module Notions.
Import ValidationService UserModel AuthService AuthController.

(** The fields of a signup body that [validateRegistration] receives. *)
Definition registrationData (body : SignupBody) : RegistrationData :=
  {| rd_firstName := sb_firstName body; rd_lastName := sb_lastName body;
     rd_email := sb_email body; rd_password := sb_password body |}.

(** The sanitized data as [signup] hands it to [register]. *)
Definition registerData (sd : Sanitized) : RegisterData :=
  {| reg_firstName := s_firstName sd; reg_lastName := s_lastName sd;
     reg_email := s_email sd; reg_password := s_password sd |}.

(** The document [register] creates for [data] in [db]. *)
Definition registeredUser {P : Platform} (env : Env) (data : RegisterData)
           (db : Db) : UserDoc :=
  preSave env true
    (newUser (next_oid db) (now env) (reg_email data) (reg_password data)
       (reg_firstName data) (reg_lastName data)).

(** [req.user] for a stored user. *)
Definition reqUserOf (u : UserDoc) : ReqUser :=
  {| ru_id := oidToString (u_id u);
     ru_firstName := u_firstName u;
     ru_lastName := u_lastName u;
     ru_email := u_email u |}.

(** A string that does not start with white space. *)
Definition noLeadingSpace (s : string) : Prop :=
  match s with
  | EmptyString => True
  | String c _ => Js.isWhitespace c = false
  end.

(** The fields of a signin body that [validateLogin] receives. *)
Definition loginData (body : SigninBody) : LoginData :=
  {| ld_email := ib_email body; ld_password := ib_password body |}.


(** The one answer of [signin] to a failed login. *)
Definition invalidCredentials : Response :=
  fail1 400 "Authentication failed" "Invalid email or password" "credentials".

End Notions.

(* ================================================================== *)
(** ** The meaning of a regular expression *)

Module RegexSemantics.
Import Regex.

(** The strings a regular expression denotes. *)
Inductive Matches : regex -> string -> Prop :=
| MEps : Matches Eps EmptyString
| MChr p c : p c = true -> Matches (Chr p) (String c EmptyString)
| MSeq a b s t : Matches a s -> Matches b t -> Matches (Seq a b) (s ++ t)
| MAltL a b s : Matches a s -> Matches (Alt a b) s
| MAltR a b s : Matches b s -> Matches (Alt a b) s
| MStarNil a : Matches (Star a) EmptyString
| MStarApp a s t :
    Matches a s -> Matches (Star a) t -> Matches (Star a) (s ++ t).

Fixpoint allChars (p : ascii -> bool) (s : string) : bool :=
  match s with
  | EmptyString => true
  | String c s' => (p c && allChars p s')%bool
  end.

Fixpoint anyChar (p : ascii -> bool) (s : string) : bool :=
  match s with
  | EmptyString => false
  | String c s' => (p c || anyChar p s')%bool
  end.

(** The part of a string before its first line terminator. *)
Fixpoint firstLine (s : string) : string :=
  match s with
  | EmptyString => EmptyString
  | String c s' => if Js.isDot c then String c (firstLine s') else EmptyString
  end.

End RegexSemantics.

(* ================================================================== *)
(** ** middleware/auth.middleware.ts: the optional gate *)

Module OptionalAuth.
Import UserModel AuthMiddleware.

(** [optionalAuth]: the result is [req.user]; [next()] is called on every
    path. *)
Definition optionalAuth {P : Platform} (env : Env)
           (authorization : option string) (db : Db) : option ReqUser :=
  if negb (Js.truthyOpt (bearerToken authorization)) then None
  else
    let token := match bearerToken authorization with
                 | Some t => t | None => "" end in
    match jwt_verify token (now env) with
    | Throw _ => None
    | Ok decoded =>
        match findByIdString (jp_userId decoded) db with
        | (Ok (Some user), _) =>
            Some {| ru_id := oidToString (u_id user);
                    ru_firstName := u_firstName user;
                    ru_lastName := u_lastName user;
                    ru_email := u_email user |}
        | (Ok None, _) => None
        | (Throw _, _) => None
        end
    end.

End OptionalAuth.

(* ================================================================== *)
(** ** services/auth.service.ts: token refresh and password reset *)

Module AccountRecovery.
Import UserModel AuthService.

Definition refreshToken {P : Platform} (env : Env) (userId : string)
  : M string :=
  (found <- findByIdString userId ;;
   match found with
   | None => throw PlainError "User not found"
   | Some user => ret (generateToken env user)
   end)%m.


End AccountRecovery.

(* ================================================================== *)
(** ** controllers/auth.controller.ts: the profile *)

Module ProfileController.
Import ValidationService UserModel UserService AuthController.



End ProfileController.

(* ================================================================== *)
(** ** controllers/user.controller.ts *)

Module UserController.
Import UserModel.

Record UserDetail := {
  ud_id : string;
  ud_firstName : string;
  ud_lastName : string;
  ud_email : string;
  ud_surgeryDate : option Z;
  ud_recoveryDay : Z;
  ud_createdAt : Z
}.

Inductive Answer : Type :=
| Retrieved : UserDetail -> Answer
    (* 200 { success: true, data: { user }, message } *)
| Failed : Z -> string -> Answer.
    (* status, { success: false, error } *)

(** [GET /users/:userId], behind [authenticateToken]. *)
Definition getUserById (env : Env) (userId : string) (db : Db) : Answer :=
  match findByIdString userId db with
  | (Throw _, _) => Failed 500 "Failed to retrieve user"
  | (Ok None, _) => Failed 404 "User not found"
  | (Ok (Some user), _) =>
      Retrieved
        {| ud_id := oidToString (u_id user);
           ud_firstName := u_firstName user;
           ud_lastName := u_lastName user;
           ud_email := u_email user;
           ud_surgeryDate := u_surgeryDate user;
           ud_recoveryDay := calculateRecoveryDay (now env) (u_surgeryDate user);
           ud_createdAt := u_createdAt user |}
  end.

End UserController.

(* ================================================================== *)
(** ** data/brochure.data.ts *)

Module BrochureData.

Record BrochureItem := {
  bi_id : string;
  bi_text : string;
  bi_completed : bool;
  bi_notes : option string
}.

Record ContentBlock := {
  cb_id : string;
  cb_title : string;
  cb_items : list BrochureItem
}.

Record BrochureSection := {
  bs_id : string;
  bs_title : string;
  bs_content : list ContentBlock
}.

(** An item as the data file writes every one of them:
    [{ id, text, completed: false }]. *)
Definition item (id text : string) : BrochureItem :=
  {| bi_id := id; bi_text := text; bi_completed := false; bi_notes := None |}.

Definition brochureContent : list BrochureSection :=
  [
  {| bs_id := "activity-restrictions";
     bs_title := "Activity Restrictions";
     bs_content :=
     [
      {| cb_id := "immediate-post-op";
         cb_title := "Immediate Post-Operative Period (First 24-48 hours)";
         cb_items :=
         [
           item "rest-in-bed"
             "Rest in bed as much as possible";
           item "avoid-sitting"
             "Avoid sitting for long periods";
           item "no-driving"
             "Do not drive for at least 24 hours" ] |};
      {| cb_id := "first-week";
         cb_title := "First Week After Surgery";
         cb_items :=
         [
           item "no-heavy-lifting"
             "No heavy lifting (more than 10 pounds)";
           item "no-strenuous-exercise"
             "No strenuous exercise or activities";
           item "walk-gently"
             "Walk gently around the house";
           item "avoid-bending"
             "Avoid bending, twisting, or sudden movements" ] |};
      {| cb_id := "second-week";
         cb_title := "Second Week and Beyond";
         cb_items :=
         [
           item "gradual-activity"
             "Gradually increase activity as tolerated";
           item "listen-to-body"
             "Listen to your body - stop if you feel pain";
           item "avoid-sex"
             "Avoid sexual intercourse for 6 weeks";
           item "no-tampons"
             "No tampons for 6 weeks" ] |} ] |};
  {| bs_id := "pain-management";
     bs_title := "Pain Management";
     bs_content :=
     [
      {| cb_id := "medication";
         cb_title := "Medication";
         cb_items :=
         [
           item "take-prescribed"
             "Take prescribed pain medication as directed";
           item "acetaminophen"
             "Acetaminophen (Tylenol) for mild pain";
           item "ibuprofen"
             "Ibuprofen (Advil) for inflammation and pain";
           item "avoid-aspirin"
             "Avoid aspirin unless specifically prescribed" ] |};
      {| cb_id := "non-medication";
         cb_title := "Non-Medication Pain Relief";
         cb_items :=
         [
           item "ice-packs"
             "Apply ice packs to incision area for 20 minutes";
           item "heat-packs"
             "Use heat packs for muscle soreness";
           item "rest"
             "Get adequate rest and sleep";
           item "comfortable-position"
             "Find comfortable positions for sleeping" ] |} ] |};
  {| bs_id := "warning-signs";
     bs_title := "Warning Signs/Symptoms";
     bs_content :=
     [
      {| cb_id := "immediate-concerns";
         cb_title := "Contact Your Doctor Immediately If You Experience:";
         cb_items :=
         [
           item "fever-over-101"
             "Fever over 101°F (38.3°C)";
           item "severe-pain"
             "Severe pain not relieved by medication";
           item "heavy-bleeding"
             "Heavy vaginal bleeding (soaking a pad in 1 hour)";
           item "foul-discharge"
             "Foul-smelling vaginal discharge";
           item "incision-problems"
             "Redness, swelling, or drainage from incision";
           item "chest-pain"
             "Chest pain or difficulty breathing";
           item "leg-pain"
             "Pain, redness, or swelling in legs" ] |} ] |};
  {| bs_id := "follow-up-schedule";
     bs_title := "Follow-up Schedule";
     bs_content :=
     [
      {| cb_id := "post-op-visits";
         cb_title := "Post-Operative Visits";
         cb_items :=
         [
           item "2-week-visit"
             "2-week post-operative visit";
           item "6-week-visit"
             "6-week post-operative visit";
           item "annual-checkup"
             "Annual gynecological checkup" ] |};
      {| cb_id := "contact-info";
         cb_title := "Contact Information";
         cb_items :=
         [
           item "emergency-number"
             "Emergency contact number: [Your doctor's number]";
           item "office-hours"
             "Office hours: [Your doctor's office hours]" ] |} ] |};
  {| bs_id := "healing-timeline";
     bs_title := "General Healing Timeline";
     bs_content :=
     [
      {| cb_id := "week-1-2";
         cb_title := "Weeks 1-2: Initial Recovery";
         cb_items :=
         [
           item "incision-healing"
             "Incision healing begins";
           item "pain-decreases"
             "Pain gradually decreases";
           item "energy-low"
             "Energy levels may be low" ] |};
      {| cb_id := "week-3-4";
         cb_title := "Weeks 3-4: Gradual Improvement";
         cb_items :=
         [
           item "more-energy"
             "Energy levels improve";
           item "less-pain"
             "Significant pain reduction";
           item "light-activities"
             "Can resume light activities" ] |};
      {| cb_id := "week-5-6";
         cb_title := "Weeks 5-6: Near Full Recovery";
         cb_items :=
         [
           item "normal-activities"
             "Can resume most normal activities";
           item "exercise-resume"
             "Can resume exercise (with doctor approval)";
           item "work-return"
             "Can return to work (if approved by doctor)" ] |} ] |};
  {| bs_id := "incision-care";
     bs_title := "Incision Care";
     bs_content :=
     [
      {| cb_id := "daily-care";
         cb_title := "Daily Care";
         cb_items :=
         [
           item "keep-clean"
             "Keep incision clean and dry";
           item "gentle-washing"
             "Gently wash with mild soap and water";
           item "pat-dry"
             "Pat dry with clean towel";
           item "no-scrubbing"
             "Do not scrub or rub the incision" ] |};
      {| cb_id := "dressings";
         cb_title := "Dressings";
         cb_items :=
         [
           item "change-dressings"
             "Change dressings as instructed by your doctor";
           item "watch-for-signs"
             "Watch for signs of infection";
           item "no-tight-clothing"
             "Avoid tight clothing over incision" ] |} ] |};
  {| bs_id := "diet-medications";
     bs_title := "Diet & Medications";
     bs_content :=
     [
      {| cb_id := "diet-guidelines";
         cb_title := "Diet Guidelines";
         cb_items :=
         [
           item "stay-hydrated"
             "Stay well hydrated";
           item "high-fiber"
             "Eat high-fiber foods to prevent constipation";
           item "small-meals"
             "Eat small, frequent meals";
           item "avoid-gas"
             "Avoid foods that cause gas" ] |};
      {| cb_id := "medication-guidelines";
         cb_title := "Medication Guidelines";
         cb_items :=
         [
           item "take-as-prescribed"
             "Take all medications as prescribed";
           item "finish-antibiotics"
             "Finish all antibiotics if prescribed";
           item "no-new-meds"
             "Do not start new medications without doctor approval";
           item "report-side-effects"
             "Report any side effects to your doctor" ] |} ] |} ].

End BrochureData.

(* ================================================================== *)
(** ** The brochure service (the file of class [BrochureService]) *)

Module BrochureService.
Import BrochureData.

Record BrochureData := {
  bd_id : string;
  bd_title : string;
  bd_sections : list BrochureSection
}.

Definition getBrochureData : BrochureData :=
  {| bd_id := "1";
     bd_title := "Abdominal Myomectomy Recovery Guide";
     bd_sections := brochureContent |}.

Definition getAllItems (data : BrochureData) : list BrochureItem :=
  flat_map (fun section => flat_map cb_items (bs_content section))
    (bd_sections data).

Definition getItemsBySection (data : BrochureData) (sectionId : string)
  : list BrochureItem :=
  match find (fun s => String.eqb (bs_id s) sectionId) (bd_sections data) with
  | None => []
  | Some section => flat_map cb_items (bs_content section)
  end.

Definition getCompletedItems (data : BrochureData) : list BrochureItem :=
  filter bi_completed (getAllItems data).

Definition getPendingItems (data : BrochureData) : list BrochureItem :=
  filter (fun i => negb (bi_completed i)) (getAllItems data).

End BrochureService.

(* ================================================================== *)
(** ** controllers/brochure.controller.ts *)

Module BrochureController.
Import BrochureData BrochureProgressService.

(** [array.slice(start, end)] *)
Definition slice {A} (l : list A) (start stop : Z) : list A :=
  let len := Z.of_nat (List.length l) in
  let k := if start <? 0 then Z.max (len + start) 0 else Z.min start len in
  let final := if stop <? 0 then Z.max (len + stop) 0 else Z.min stop len in
  firstn (Z.to_nat (final - k)) (skipn (Z.to_nat k) l).

Record SectionSummary := {
  ss_id : string;
  ss_title : string;
  ss_contentCount : Z
}.

Record SectionPage := {
  docs : list SectionSummary;
  totalDocs : Z;
  limit : Z;
  totalPages : Z;
  page : Z;
  pagingCounter : Z;
  hasPrevPage : bool;
  hasNextPage : bool;
  prevPage : option Z;
  nextPage : option Z
}.

Inductive Answer : Type :=
| Content : list BrochureSection -> Answer       (* 200, the whole brochure *)
| OneSection : BrochureSection -> Answer         (* 200 *)
| Sections : SectionPage -> Answer               (* 200 *)
| Failed : Z -> string -> Answer.                (* status, error *)

Definition getBrochureContent : Answer := Content brochureContent.


Definition summary (section : BrochureSection) : SectionSummary :=
  {| ss_id := bs_id section;
     ss_title := bs_title section;
     ss_contentCount := Z.of_nat (List.length (bs_content section)) |}.

(** The sections whose title contains [search], letter case ignored; an
    empty [search] keeps them all. *)
Definition filterSections (content : list BrochureSection) (search : string)
  : list BrochureSection :=
  if Js.truthy search
  then filter (fun section =>
                 Js.includes (Js.toLowerCase search)
                   (Js.toLowerCase (bs_title section))) content
  else content.

(** The page computed by [getBrochureSections] over [content]. [pageNum]
    and [limitArg] are the values of [parseInt] on the query parameters;
    the model covers a limit other than 0, where the quotient is finite. *)
Definition sectionsPage (content : list BrochureSection)
           (pageNum limitArg : Z) (search : string) : SectionPage :=
  let filteredSections := filterSections content search in
  let limitNum := Z.min limitArg 50 in
  let total := Z.of_nat (List.length filteredSections) in
  let pages := UserModel.ceilDiv total limitNum in
  let startIndex := (pageNum - 1) * limitNum in
  let endIndex := startIndex + limitNum in
  {| docs := map summary (slice filteredSections startIndex endIndex);
     totalDocs := total;
     limit := limitNum;
     totalPages := pages;
     page := pageNum;
     pagingCounter := startIndex + 1;
     hasPrevPage := 1 <? pageNum;
     hasNextPage := pageNum <? pages;
     prevPage := if 1 <? pageNum then Some (pageNum - 1) else None;
     nextPage := if pageNum <? pages then Some (pageNum + 1) else None |}.

(** [GET /brochures/sections?page&limit&search]; absent parameters take
    the defaults 1, 10 and the empty string. *)
Definition getBrochureSections (pageQ limitQ : option Z)
           (searchQ : option string) : Answer :=
  Sections
    (sectionsPage brochureContent
       (match pageQ with Some p => p | None => 1 end)
       (match limitQ with Some l => l | None => 10 end)
       (match searchQ with Some s => s | None => "" end)).

Inductive ProgressAnswer : Type :=
| Result : Z -> ProgressResponse -> ProgressAnswer   (* status, the result *)
| Refused : Z -> string -> ProgressAnswer.           (* status, error *)

Definition answer (r : ProgressResponse) : ProgressAnswer :=
  if pr_success r then Result 200 r else Result 500 r.

(** [completed] is [Some b] when [typeof completed === 'boolean']. *)
Definition updateProgress (env : Env) (user : option ReqUser)
           (sectionId itemId : option string) (completed : option bool)
           (notes : option string) : Db -> ProgressAnswer * Db :=
  fun db =>
    match authenticatedId user with
    | None => (Refused 401 "User not authenticated", db)
    | Some userId =>
        match completed with
        | Some c =>
            if (Js.truthyOpt sectionId && Js.truthyOpt itemId)%bool
            then
              let (result, db') :=
                BrochureProgressService.updateProgress env userId
                  (ValidationService.orEmpty sectionId)
                  (ValidationService.orEmpty itemId) c notes db in
              (answer result, db')
            else (Refused 400
                    "Missing required fields: sectionId, itemId, completed",
                  db)
        | None => (Refused 400
                     "Missing required fields: sectionId, itemId, completed",
                   db)
        end
    end.

Definition getUserProgress (user : option ReqUser)
  : Db -> ProgressAnswer * Db :=
  fun db =>
    match authenticatedId user with
    | None => (Refused 401 "User not authenticated", db)
    | Some userId =>
        let (result, db') :=
          BrochureProgressService.getUserProgress userId db in
        (answer result, db')
    end.

Definition resetProgress (user : option ReqUser)
  : Db -> ProgressAnswer * Db :=
  fun db =>
    match authenticatedId user with
    | None => (Refused 401 "User not authenticated", db)
    | Some userId =>
        let (result, db') := BrochureProgressService.resetProgress userId db in
        (answer result, db')
    end.

End BrochureController.

(* ================================================================== *)
(** ** Further notions used to state the properties *)

Module MoreNotions.

(** Stored e-mail addresses are pairwise distinct (the unique index of
    the user schema). *)
Definition uniqueEmails (db : Db) : bool :=
  Invariant.nodupb String.eqb (map u_email (users db)).

(** Newest first. *)
Definition newerOrEqual (a b : SymptomDoc) : Prop :=
  se_timestamp b <= se_timestamp a.


End MoreNotions.

(** ** services/brochure-progress.service.ts: the progress of a section *)

Module SectionProgress.
Import BrochureProgressService.

(** [BrochureProgress.find({ userId, sectionId })] *)
Definition findSection (userId sectionId : string) (db : Db)
  : list ProgressDoc :=
  filter (fun p => (String.eqb (p_userId p) userId
                    && String.eqb (p_sectionId p) sectionId)%bool)
    (progress db).

Definition getSectionProgress (userId sectionId : string)
  : Db -> ProgressResponse * Db :=
  fun db =>
    ({| pr_success := true;
        pr_data := Some (ManyProgress (findSection userId sectionId db));
        pr_message := "Section progress retrieved successfully" |}, db).

End SectionProgress.

Module SchemaNotions.

(** The characters the address pattern of the schema is made of, the
    [@] apart: word characters, the dot and the dash. *)
Definition addressChar (c : ascii) : bool :=
  (Js.isWord c || UserModel.dotOrDash c)%bool.

End SchemaNotions.

(** Further sample data. *)
Module MoreExamples.

(** The entry Sarah's [POST /tracker] stored in [Examples.withDiary]. *)
Definition sarahEntry : SymptomDoc :=
  {| se_id := 2%N;
     se_userId := Examples.sarahId;
     se_date := "2024-01-15";
     se_painLevel := 5;
     se_location := "";
     se_description := "";
     se_medications := "";
     se_timestamp := 1705312800000;
     se_createdAt := 1705312800000;
     se_updatedAt := 1705312800000 |}.

Definition sarahEntryId : string := "000000000000000000000002".

(** Sarah's user document in [Examples.registered]. *)
Definition sarahDoc : UserDoc :=
  {| u_id := 1%N;
     u_firstName := "Sarah";
     u_lastName := "Johnson";
     u_email := "sarah@x.com";
     u_password := "$2a$10$N9qo8uLOickgx2ZMRZoMyePassw0rd";
     u_surgeryDate := None;
     u_recoveryDay := 0;
     u_isActive := true;
     u_createdAt := 1705312800000;
     u_updatedAt := 1705312800000 |}.

End MoreExamples.

(* ================================================================== *)
(** * Properties *)

(** ** Recovery day *)

Section RecoveryDay.
Import UserModel.

Lemma msPerDay_value : msPerDay = 86400000.
Proof. reflexivity. Qed.

(** [ceilDiv] is the ceiling of the exact quotient. *)
Lemma ceilDiv_spec (a b : Z) :
  0 < b -> (ceilDiv a b - 1) * b < a <= ceilDiv a b * b.
Proof.
  intros Hb. unfold ceilDiv.
  pose proof (Z.div_mod (- a) b) as E.
  pose proof (Z.mod_pos_bound (- a) b Hb) as B.
  nia.
Qed.

Lemma ceilDiv_unique (a b q : Z) :
  0 < b -> (q - 1) * b < a <= q * b -> ceilDiv a b = q.
Proof.
  intros Hb Hq. pose proof (ceilDiv_spec a b Hb) as Hc. nia.
Qed.

Lemma startOfUtcDay_spec (t : Z) :
  startOfUtcDay t <= t < startOfUtcDay t + msPerDay.
Proof.
  unfold startOfUtcDay. rewrite msPerDay_value.
  pose proof (Z.div_mod t 86400000) as E.
  pose proof (Z.mod_pos_bound t 86400000) as B. lia.
Qed.

Lemma calculateRecoveryDay_none (today : Z) :
  calculateRecoveryDay today None = 0.
Proof. reflexivity. Qed.

(** C2 (as amended). The recovery day is [max(0, ceil(d))] for [d] the
    time elapsed since the surgery date in days, measured from the instant
    of the read: it is never negative, it is 0 exactly when no time has
    elapsed, otherwise it is the number of started 24-hour periods ([k]
    for a surgery date exactly [k] days before the read). For a surgery
    date at midnight [k] days before the current day it is [k] only at
    midnight and [k + 1] during the rest of the day: 1 (not 0) for today's
    date, 2 (not 1) for yesterday's. *)
Theorem C2_recoveryDay_counts_started_days (today sd : Z) :
  let r := calculateRecoveryDay today (Some sd) in
  0 <= r
  /\ (r = 0 <-> today <= sd)
  /\ (sd < today -> (r - 1) * msPerDay < today - sd <= r * msPerDay)
  /\ (forall k, 0 <= k -> sd = today - k * msPerDay -> r = k)
  /\ (forall k, 0 <= k -> sd = startOfUtcDay today - k * msPerDay ->
        r = if today =? startOfUtcDay today then k else k + 1).
Proof.
  cbn zeta. unfold calculateRecoveryDay.
  assert (Hd : 0 < msPerDay) by (rewrite msPerDay_value; lia).
  pose proof (ceilDiv_spec (today - sd) msPerDay Hd) as Hc.
  set (c := ceilDiv (today - sd) msPerDay) in *.
  repeat split.
  - lia.
  - intros H0. nia.
  - intros Hle. nia.
  - nia.
  - nia.
  - intros k Hk Hsd.
    assert (c = k) by (apply ceilDiv_unique; nia). lia.
  - intros k Hk Hsd.
    pose proof (startOfUtcDay_spec today) as Hs.
    destruct (Z.eqb_spec today (startOfUtcDay today)) as [He | Hne].
    + assert (c = k) by (apply ceilDiv_unique; nia). lia.
    + assert (c = k + 1) by (apply ceilDiv_unique; nia). lia.
Qed.

(** C2, counterexample: on 2024-01-15 at 10:00 UTC a surgery date of that
    same day gives recovery day 1, and one of the day before gives 2. *)
Lemma C2_counterexample :
  let today := 1705312800000 in
  startOfUtcDay today = 1705276800000
  /\ calculateRecoveryDay today (Some (startOfUtcDay today)) = 1
  /\ calculateRecoveryDay today (Some (startOfUtcDay today - msPerDay)) = 2.
Proof. vm_compute. auto. Qed.

End RecoveryDay.

(** ** Symptom diary *)

Section SymptomDiary.
Import SymptomEntryService SymptomEntryController SymptomEntryRoutes.
Import AuthMiddleware UserModel Invariant.

Lemma hexOfN_succ_truthy (d : nat) (n : N) :
  Js.truthy (hexOfN (S d) n) = true.
Proof.
  cbn [hexOfN]. destruct (hexOfN d (n / 16)); reflexivity.
Qed.

Lemma oidToString_truthy (o : ObjectId) : Js.truthy (oidToString o) = true.
Proof. apply hexOfN_succ_truthy. Qed.

Lemma authenticatedId_Some (user : option ReqUser) (uid : string) :
  authenticatedId user = Some uid ->
  Js.truthy uid = true /\ exists r, user = Some r /\ ru_id r = uid.
Proof.
  destruct user as [r|]; cbn; [|discriminate].
  destruct (Js.truthy (ru_id r)) eqn:E; [|discriminate].
  intros [= <-]. split; [exact E | eauto].
Qed.

Lemma authenticatedId_truthy (r : ReqUser) :
  Js.truthy (ru_id r) = true -> authenticatedId (Some r) = Some (ru_id r).
Proof. cbn. intros ->. reflexivity. Qed.

(** What the gate attaches is a user of the database, with its id printed. *)
Lemma authenticateToken_Next {P : Platform} env auth db user :
  authenticateToken env auth db = Next user ->
  exists token payload oid u,
    bearerToken auth = Some token
    /\ jwt_verify token (now env) = Ok payload
    /\ castObjectId (jp_userId payload) = Some oid
    /\ findById oid db = Some u
    /\ user = {| ru_id := oidToString (u_id u);
                 ru_firstName := u_firstName u;
                 ru_lastName := u_lastName u;
                 ru_email := u_email u |}.
Proof.
  unfold authenticateToken.
  destruct (bearerToken auth) as [token|] eqn:Ht; cbn [Js.truthyOpt negb].
  2: discriminate.
  destruct (Js.truthy token); cbn [negb]; [|discriminate].
  destruct (jwt_verify token (now env)) as [payload|e] eqn:Hv.
  - unfold findByIdString.
    destruct (castObjectId (jp_userId payload)) as [oid|] eqn:Hc.
    + cbn. destruct (findById oid db) as [u|] eqn:Hf.
      * intros [= <-]. exists token, payload, oid, u. auto.
      * discriminate.
    + cbn. discriminate.
  - destruct (instanceofJsonWebTokenError e); [discriminate|].
    destruct (instanceofTokenExpiredError e); discriminate.
Qed.

Lemma authenticateToken_truthy {P : Platform} env auth db user :
  authenticateToken env auth db = Next user -> Js.truthy (ru_id user) = true.
Proof.
  intros H. apply authenticateToken_Next in H.
  destruct H as (? & ? & ? & u & _ & _ & _ & _ & ->).
  apply oidToString_truthy.
Qed.

(** No request is ever dispatched to [clearUserSymptomEntries]: whatever
    [DELETE] path has one segment is taken by [DELETE /:id]. *)
Lemma clear_route_shadowed (m : Method) (segs : list string) (ps : list (string * string)) :
  firstMatch routes m segs <> Some (ClearUserSymptomEntries, ps).
Proof.
  destruct m; destruct segs as [|s [|s' segs]]; cbn -[String.eqb];
    try discriminate.
  destruct (String.eqb "clear" s); discriminate.
Qed.

Lemma deleteEntry_clear (userId : string) (db : Db) :
  deleteEntry userId "clear" db = (failed "Failed to delete symptom entry", db).
Proof. reflexivity. Qed.

(** C1. [DELETE /tracker/clear] with a valid bearer token is answered by
    [deleteSymptomEntry] with the id [clear]: the id does not cast to an
    [ObjectId], the answer is 404 and the database, so also what
    [GET /tracker] returns, is unchanged. *)
Theorem C1_delete_clear_is_delete_by_id {P : Platform} env auth body db user :
  authenticateToken env auth db = Next user ->
  router env {| rq_method := DELETE; rq_path := "/clear";
                rq_authorization := auth; rq_body := body |} db
  = (respond 404 (BMessage false "Failed to delete symptom entry"), db).
Proof.
  intros Hgate. unfold router. cbn [rq_authorization rq_method rq_path rq_body].
  rewrite Hgate.
  change (firstMatch routes DELETE (segments "/clear"))
    with (Some (DeleteSymptomEntry, [("id", "clear")])).
  cbn [run param String.eqb Ascii.eqb Bool.eqb].
  unfold deleteSymptomEntry.
  rewrite (authenticatedId_truthy user (authenticateToken_truthy _ _ _ _ Hgate)).
  rewrite deleteEntry_clear. reflexivity.
Qed.

Lemma C1_failing_input :
  let before := router (P := Toy.platform) Toy.env Examples.getAll Examples.withDiary in
  let cleared := router (P := Toy.platform) Toy.env Examples.deleteClear Examples.withDiary in
  status (fst cleared) = 404
  /\ snd cleared = Examples.withDiary
  /\ router (P := Toy.platform) Toy.env Examples.getAll (snd cleared) = before
  /\ exists e msg, body (fst before) = BEntries [e] msg.
Proof.
  cbn zeta.
  pose proof (C1_delete_clear_is_delete_by_id (P := Toy.platform) Toy.env
                Examples.bearer emptyBody Examples.withDiary Examples.sarahUser
                eq_refl) as H.
  change (router Toy.env Examples.deleteClear Examples.withDiary)
    with (router (P := Toy.platform) Toy.env
            {| rq_method := DELETE; rq_path := "/clear";
               rq_authorization := Examples.bearer; rq_body := emptyBody |}
            Examples.withDiary).
  rewrite H. cbn [fst snd status].
  repeat split.
  vm_compute. eauto.
Defined.

End SymptomDiary.

Section SymptomOwnership.
Import SymptomEntryService SymptomEntryController Invariant.

Lemma nodupb_In_eq (l : list SymptomDoc) (a b : SymptomDoc) :
  nodupb N.eqb (map se_id l) = true ->
  In a l -> In b l -> se_id a = se_id b -> a = b.
Proof.
  induction l as [|x l IH]; cbn; [tauto|].
  intros Hnd Ha Hb Hid.
  apply andb_prop in Hnd. destruct Hnd as [Hx Hl].
  apply negb_true_iff in Hx.
  assert (Hfresh : forall c, In c l -> se_id x <> se_id c).
  { intros c Hc E.
    assert (existsb (N.eqb (se_id x)) (map se_id l) = true) as Hex.
    { apply existsb_exists. exists (se_id c). split.
      - apply in_map. exact Hc.
      - apply N.eqb_eq. exact E. }
    congruence. }
  destruct Ha as [<-|Ha], Hb as [<-|Hb]; auto.
  - exfalso. exact (Hfresh b Hb Hid).
  - exfalso. exact (Hfresh a Ha (eq_sym Hid)).
Qed.

Lemma updateFirst_none f g (l : list SymptomDoc) :
  (forall x, In x l -> f x = false) -> updateFirst f g l = None.
Proof.
  induction l as [|x l IH]; cbn; intros H; [reflexivity|].
  rewrite (H x (or_introl eq_refl)).
  rewrite IH; [reflexivity|]. intros y Hy. apply H. right. exact Hy.
Qed.

Lemma removeFirst_none f (l : list SymptomDoc) :
  (forall x, In x l -> f x = false) -> removeFirst f l = None.
Proof.
  induction l as [|x l IH]; cbn; intros H; [reflexivity|].
  rewrite (H x (or_introl eq_refl)).
  rewrite IH; [reflexivity|]. intros y Hy. apply H. right. exact Hy.
Qed.

(** With unique ids, the filter [{ _id, userId }] of another user selects
    nothing. *)
Lemma owned_by_other (db : Db) (e : SymptomDoc) (userId : string) :
  In e (symptoms db) ->
  uniqueSymptomIds db = true ->
  userId <> se_userId e ->
  forall x, In x (symptoms db) -> owned (se_id e) userId x = false.
Proof.
  intros He Hu Hne x Hx. unfold owned.
  unfold uniqueSymptomIds in Hu. apply andb_prop in Hu. destruct Hu as [Hnd _].
  destruct (N.eqb_spec (se_id x) (se_id e)) as [Hid|]; [|reflexivity].
  cbn. rewrite (nodupb_In_eq _ x e Hnd Hx He Hid).
  apply String.eqb_neq. congruence.
Qed.

(** C4. An entry of user A addressed by its id with the credentials of
    another user B: update and delete both answer 404 "Symptom entry not
    found", a body that carries no entry data, and the database (so the
    entry) is left as it was. *)
Theorem C4_foreign_entry_is_not_found env db e userB id body :
  In e (symptoms db) ->
  uniqueSymptomIds db = true ->
  castObjectId id = Some (se_id e) ->
  Js.truthy (ru_id userB) = true ->
  ru_id userB <> se_userId e ->
  updateSymptomEntry env (Some userB) id body db
  = (respond 404 (BMessage false "Symptom entry not found"), db)
  /\ deleteSymptomEntry (Some userB) id db
     = (respond 404 (BMessage false "Symptom entry not found"), db).
Proof.
  intros He Hu Hid Hauth Hne.
  pose proof (owned_by_other db e (ru_id userB) He Hu Hne) as Hnone.
  unfold updateSymptomEntry, deleteSymptomEntry.
  rewrite (authenticatedId_truthy userB Hauth).
  unfold updateEntry, deleteEntry, findOneAndUpdate, findOneAndDelete.
  rewrite Hid.
  rewrite (updateFirst_none _ _ _ Hnone), (removeFirst_none _ _ Hnone).
  split; reflexivity.
Qed.

Lemma C4_witness :
  exists e,
    In e (symptoms Examples.withDiary)
    /\ se_userId e = Examples.sarahId
    /\ updateSymptomEntry Toy.env (Some Examples.otherUser)
         "000000000000000000000002" (Examples.pain 9) Examples.withDiary
       = (respond 404 (BMessage false "Symptom entry not found"),
          Examples.withDiary)
    /\ deleteSymptomEntry (Some Examples.otherUser)
         "000000000000000000000002" Examples.withDiary
       = (respond 404 (BMessage false "Symptom entry not found"),
          Examples.withDiary).
Proof.
  eexists. split; [left; reflexivity|]. split; [reflexivity|].
  apply C4_foreign_entry_is_not_found with
    (e := {| se_id := 2%N; se_userId := Examples.sarahId;
             se_date := "2024-01-15"; se_painLevel := 5; se_location := "";
             se_description := ""; se_medications := "";
             se_timestamp := 1705312800000; se_createdAt := 1705312800000;
             se_updatedAt := 1705312800000 |}).
  - left. reflexivity.
  - reflexivity.
  - reflexivity.
  - reflexivity.
  - discriminate.
Defined.

(** The owner's own update by the same id does reach the entry. *)
Lemma owner_update_found :
  status (fst (updateSymptomEntry Toy.env (Some Examples.sarahUser)
                 "000000000000000000000002" (Examples.pain 9)
                 Examples.withDiary)) = 200.
Proof. reflexivity. Qed.

(** C8. For an authenticated user and a supplied date, creating an entry
    with an integer pain level [n] succeeds (201, the entry appended to the
    store with that pain level) when [0 <= n <= 10], both bounds included,
    and fails validation (400, nothing stored) when [n] is outside that
    range, whatever the date. *)
Theorem C8_painLevel_bounds env user userId body db n :
  authenticatedId user = Some userId ->
  req_painLevel body = Some n ->
  (0 <= n <= 10 -> Js.truthyOpt (req_date body) = true ->
     exists e db',
       createSymptomEntry env user body db
       = (respond 201 (BEntry e "Symptom entry created successfully"), db')
       /\ symptoms db' = (symptoms db ++ [e])%list
       /\ se_painLevel e = n /\ se_userId e = userId
       /\ Some (se_date e) = req_date body)
  /\ (n < 0 \/ 10 < n ->
      exists db',
        createSymptomEntry env user body db
        = (respond 400 (BMessage false "Failed to create symptom entry"), db')
        /\ symptoms db' = symptoms db).
Proof.
  intros Hauth Hpain.
  destruct (authenticatedId_Some _ _ Hauth) as [Htruthy _].
  unfold createSymptomEntry. rewrite Hauth.
  unfold createEntry, save, validationErrors, requiredString.
  cbn [req_date req_painLevel Js.truthyOpt freshOid].
  rewrite Htruthy, Hpain. cbn [painLevelErrors app].
  split.
  - intros [Hlo Hhi] Hdate. rewrite Hdate.
    destruct (Z.ltb_spec n 0) as [|_]; [lia|].
    destruct (Z.ltb_spec 10 n) as [|_]; [lia|].
    cbn. do 2 eexists. split; [reflexivity|].
    cbn. repeat split.
    destruct (req_date body) as [d|]; [reflexivity|discriminate].
  - intros Hout.
    assert (E : (if n <? 0
                 then ["Path `painLevel` is less than minimum allowed value (0)."]
                 else if 10 <? n
                      then ["Path `painLevel` is more than maximum allowed value (10)."]
                      else []) <> []).
    { destruct (Z.ltb_spec n 0); [discriminate|].
      destruct (Z.ltb_spec 10 n); [discriminate|lia]. }
    destruct (if n <? 0 then _ else _) as [|m ms] eqn:Hm; [congruence|].
    destruct (Js.truthyOpt (req_date body)); cbn; eexists; split; reflexivity.
Qed.

Lemma C8_witness :
  (exists e db',
     createSymptomEntry Toy.env (Some Examples.sarahUser) (Examples.pain 0)
       Examples.registered
     = (respond 201 (BEntry e "Symptom entry created successfully"), db')
     /\ symptoms db' = (symptoms Examples.registered ++ [e])%list
     /\ se_painLevel e = 0 /\ se_userId e = Examples.sarahId
     /\ Some (se_date e) = req_date (Examples.pain 0))
  /\ (exists db',
        createSymptomEntry Toy.env (Some Examples.sarahUser) (Examples.pain 11)
          Examples.registered
        = (respond 400 (BMessage false "Failed to create symptom entry"), db')
        /\ symptoms db' = symptoms Examples.registered).
Proof.
  split.
  - apply (C8_painLevel_bounds Toy.env (Some Examples.sarahUser)
             Examples.sarahId (Examples.pain 0) Examples.registered 0
             eq_refl eq_refl); [lia | reflexivity].
  - apply (C8_painLevel_bounds Toy.env (Some Examples.sarahUser)
             Examples.sarahId (Examples.pain 11) Examples.registered 11
             eq_refl eq_refl). lia.
Defined.

End SymptomOwnership.

(** ** Brochure progress *)

Section Progress.
Import BrochureProgressService Invariant.

Lemma sameKey_keyEqb (u s i : string) (p : ProgressDoc) :
  sameKey u s i p = keyEqb (progressKey p) (u, s, i).
Proof. reflexivity. Qed.

Lemma keyEqb_sym (a b : string * string * string) : keyEqb a b = keyEqb b a.
Proof.
  destruct a as [[a1 a2] a3], b as [[b1 b2] b3]. cbn.
  rewrite (String.eqb_sym a1), (String.eqb_sym a2), (String.eqb_sym a3).
  reflexivity.
Qed.

Lemma keyEqb_eq (a b : string * string * string) :
  keyEqb a b = true <-> a = b.
Proof.
  destruct a as [[a1 a2] a3], b as [[b1 b2] b3]. cbn.
  rewrite !andb_true_iff, !String.eqb_eq. split.
  - intros [[-> ->] ->]. reflexivity.
  - intros [= -> -> ->]. auto.
Qed.

Lemma applyUpdate_key c n t p :
  progressKey (applyUpdate c n t p) = progressKey p.
Proof. reflexivity. Qed.

Lemma filter_sameKey_absent (u s i : string) (l : list ProgressDoc) :
  existsb (keyEqb (u, s, i)) (map progressKey l) = false <->
  filter (sameKey u s i) l = [].
Proof.
  induction l as [|p l IH]; cbn [existsb map filter]; [tauto|].
  rewrite sameKey_keyEqb, (keyEqb_sym (progressKey p)).
  destruct (keyEqb (u, s, i) (progressKey p)); cbn [orb].
  - split; discriminate.
  - exact IH.
Qed.

(** Under the unique index a key selects at most one document. *)
Lemma unique_key_filter (u s i : string) (l : list ProgressDoc) x rest :
  nodupb keyEqb (map progressKey l) = true ->
  filter (sameKey u s i) l = x :: rest -> rest = [].
Proof.
  induction l as [|p l IH]; cbn; [discriminate|].
  intros Hnd. apply andb_prop in Hnd. destruct Hnd as [Hp Hl].
  apply negb_true_iff in Hp.
  destruct (sameKey u s i p) eqn:Hk.
  - intros [= <- <-].
    rewrite sameKey_keyEqb in Hk. apply keyEqb_eq in Hk. rewrite Hk in Hp.
    apply filter_sameKey_absent. exact Hp.
  - apply IH. exact Hl.
Qed.

Lemma updateFirst_spec (u s i : string) g (ps : list ProgressDoc) :
  (forall p, progressKey (g p) = progressKey p) ->
  match updateFirst (sameKey u s i) g ps with
  | Some (q, ps') =>
      map progressKey ps' = map progressKey ps
      /\ exists x rest,
           filter (sameKey u s i) ps = x :: rest
           /\ q = g x
           /\ filter (sameKey u s i) ps' = g x :: rest
  | None => filter (sameKey u s i) ps = []
  end.
Proof.
  intros Hg. induction ps as [|p ps IH]; cbn; [reflexivity|].
  destruct (sameKey u s i p) eqn:Hk.
  - cbn. rewrite Hg. split; [reflexivity|].
    exists p, (filter (sameKey u s i) ps).
    rewrite sameKey_keyEqb, Hg, <- sameKey_keyEqb, Hk. auto.
  - destruct (updateFirst (sameKey u s i) g ps) as [[q ps']|].
    + destruct IH as [Hm (x & rest & Hf & Hq & Hf')].
      cbn. rewrite Hm, Hk. split; [reflexivity|].
      exists x, rest. auto.
    + exact IH.
Qed.

Lemma nodupb_snoc {A} (eqb : A -> A -> bool) (l : list A) (k : A) :
  nodupb eqb l = true ->
  existsb (fun y => eqb y k) l = false ->
  nodupb eqb (l ++ [k]) = true.
Proof.
  induction l as [|x l IH]; cbn; [reflexivity|].
  intros Hnd Hex.
  apply andb_prop in Hnd. destruct Hnd as [Hx Hl].
  apply orb_false_iff in Hex. destruct Hex as [Hxk Hlk].
  rewrite existsb_app. cbn. rewrite Hxk.
  apply negb_true_iff in Hx. rewrite Hx. cbn.
  apply IH; assumption.
Qed.

Lemma existsb_key_sym (k : string * string * string) l :
  existsb (fun y => keyEqb y k) l = existsb (keyEqb k) l.
Proof.
  induction l as [|x l IH]; cbn; [reflexivity|].
  rewrite keyEqb_sym, IH. reflexivity.
Qed.

Lemma sameKey_refl u s i c n t oid :
  sameKey u s i (inserted oid u s i c n t) = true.
Proof.
  unfold sameKey, inserted. cbn. rewrite !String.eqb_refl. reflexivity.
Qed.

(** One upsert: it succeeds, leaves exactly one document for the key and
    keeps the unique index; [completed] is the argument; [notes] is the
    argument when one is given, otherwise what was stored for the key
    (the schema default for a new document). *)
Lemma findOneAndUpdate_spec env db u s i c n :
  uniqueProgressKeys db = true ->
  exists r db',
    findOneAndUpdate env u s i c n db = (Ok r, db')
    /\ filter (sameKey u s i) (progress db') = [r]
    /\ uniqueProgressKeys db' = true
    /\ p_completed r = c
    /\ p_updatedAt r = now env
    /\ p_notes r = match n with
                   | Some v => v
                   | None => match filter (sameKey u s i) (progress db) with
                             | r0 :: _ => p_notes r0
                             | [] => ""
                             end
                   end
    /\ (forall r0, filter (sameKey u s i) (progress db) = [r0] ->
          p_id r = p_id r0
          /\ List.length (progress db') = List.length (progress db)).
Proof.
  unfold uniqueProgressKeys, findOneAndUpdate. intros Hu.
  pose proof (updateFirst_spec u s i (applyUpdate c n (now env)) (progress db)
                (applyUpdate_key c n (now env))) as Hspec.
  destruct (updateFirst (sameKey u s i) (applyUpdate c n (now env))
              (progress db)) as [[q ps']|].
  - destruct Hspec as [Hm (x & rest & Hf & -> & Hf')].
    pose proof (unique_key_filter u s i _ x rest Hu Hf) as ->.
    do 2 eexists. split; [reflexivity|].
    cbn [progress withProgress].
    split; [exact Hf'|]. split; [rewrite Hm; exact Hu|].
    split; [reflexivity|]. split; [reflexivity|]. split.
    + rewrite Hf. destruct n; reflexivity.
    + intros r0 E. rewrite Hf in E. injection E as <-.
      split; [reflexivity|].
      rewrite <- (length_map progressKey ps'), Hm, length_map. reflexivity.
  - do 2 eexists. split; [reflexivity|].
    cbn [progress withProgress freshOid].
    split.
    { rewrite filter_app, Hspec. cbn [filter app].
      rewrite sameKey_refl. reflexivity. }
    split.
    { rewrite map_app. cbn [map]. apply nodupb_snoc; [exact Hu|].
      rewrite existsb_key_sym. apply filter_sameKey_absent. exact Hspec. }
    split; [reflexivity|]. split; [reflexivity|]. split.
    + rewrite Hspec. reflexivity.
    + rewrite Hspec. discriminate.
Qed.

(** C3 (as amended). Two upserts with the same key triple, starting from
    a store that satisfies the unique index: each leaves exactly one
    document for the triple (the same one, updated in place) and the index
    holds after each; after the second the document's [completed] is the
    second call's; its [notes] are the second call's when it passes notes,
    and are otherwise left as the first call stored them. *)
Theorem C3_upsert_twice env1 env2 db u s i c1 n1 c2 n2 :
  uniqueProgressKeys db = true ->
  exists r1 r2 db1 db2,
    updateProgress env1 u s i c1 n1 db
    = ({| pr_success := true; pr_data := Some (OneProgress r1);
          pr_message := "Progress updated successfully" |}, db1)
    /\ updateProgress env2 u s i c2 n2 db1
       = ({| pr_success := true; pr_data := Some (OneProgress r2);
             pr_message := "Progress updated successfully" |}, db2)
    /\ filter (sameKey u s i) (progress db1) = [r1]
    /\ filter (sameKey u s i) (progress db2) = [r2]
    /\ uniqueProgressKeys db1 = true
    /\ uniqueProgressKeys db2 = true
    /\ p_id r2 = p_id r1
    /\ p_completed r2 = c2
    /\ p_notes r2 = match n2 with Some v => v | None => p_notes r1 end.
Proof.
  intros Hu.
  destruct (findOneAndUpdate_spec env1 db u s i c1 n1 Hu)
    as (r1 & db1 & E1 & F1 & U1 & C1 & _ & N1 & _).
  destruct (findOneAndUpdate_spec env2 db1 u s i c2 n2 U1)
    as (r2 & db2 & E2 & F2 & U2 & C2 & _ & N2 & I2).
  exists r1, r2, db1, db2.
  unfold updateProgress. rewrite E1, E2.
  rewrite F1 in N2. destruct (I2 r1 F1) as [Hid _].
  repeat split; assumption.
Qed.

Lemma C3_witness :
  exists r1 r2 db1 db2,
    updateProgress Toy.env "u1" "section-1" "item-1" false (Some "later") emptyDb
    = ({| pr_success := true; pr_data := Some (OneProgress r1);
          pr_message := "Progress updated successfully" |}, db1)
    /\ updateProgress Toy.env "u1" "section-1" "item-1" true (Some "done") db1
       = ({| pr_success := true; pr_data := Some (OneProgress r2);
             pr_message := "Progress updated successfully" |}, db2)
    /\ filter (sameKey "u1" "section-1" "item-1") (progress db1) = [r1]
    /\ filter (sameKey "u1" "section-1" "item-1") (progress db2) = [r2]
    /\ uniqueProgressKeys db1 = true
    /\ uniqueProgressKeys db2 = true
    /\ p_id r2 = p_id r1
    /\ p_completed r2 = true
    /\ p_notes r2 = "done".
Proof.
  exact (C3_upsert_twice Toy.env Toy.env emptyDb "u1" "section-1" "item-1"
           false (Some "later") true (Some "done") eq_refl).
Defined.

(** C3, counterexample: the same second call (completed = false, no notes)
    after two first calls that differ only in their notes. The stored notes
    are those of the first call, not a function of the second call. *)
Lemma C3_counterexample :
  let first (n : option string) :=
    snd (updateProgress Toy.env "u1" "section-1" "item-1" true n emptyDb) in
  let second (db : Db) :=
    snd (updateProgress Toy.env "u1" "section-1" "item-1" false None db) in
  map p_notes (find "u1" (second (first (Some "ask the nurse")))) = ["ask the nurse"]
  /\ map p_notes (find "u1" (second (first None))) = [""]
  /\ map p_completed (find "u1" (second (first (Some "ask the nurse")))) = [false].
Proof. vm_compute. auto. Qed.

End Progress.

(** ** Registration and login *)

Section Registration.
Import ValidationService UserModel AuthService AuthController Invariant.
Import Notions.
Context {P : Platform}.

Lemma validateRegistration_Valid (data : RegistrationData) (sd : Sanitized) :
  validateRegistration data = Valid sd ->
  sd = {| s_firstName := Js.trim (orEmpty (rd_firstName data));
          s_lastName := Js.trim (orEmpty (rd_lastName data));
          s_email := sanitizeEmail (orEmpty (rd_email data));
          s_password := orEmpty (rd_password data) |}.
Proof.
  unfold validateRegistration.
  destruct (_ ++ _)%list; [|discriminate].
  intros [= <-]. reflexivity.
Qed.

Lemma find_snoc {A} (f : A -> bool) (l : list A) (x : A) :
  find f (l ++ [x]) =
  match find f l with
  | Some y => Some y
  | None => if f x then Some x else None
  end.
Proof.
  induction l as [|y l IH]; cbn; [reflexivity|].
  destruct (f y); [reflexivity|exact IH].
Qed.

Lemma preSave_email env b u : u_email (preSave env b u) = u_email u.
Proof. unfold preSave. destruct (negb b); reflexivity. Qed.

Lemma preSave_surgeryDate env b u :
  u_surgeryDate (preSave env b u) = u_surgeryDate u.
Proof. unfold preSave. destruct (negb b); reflexivity. Qed.

Lemma preSave_id env b u : u_id (preSave env b u) = u_id u.
Proof. unfold preSave. destruct (negb b); reflexivity. Qed.

Lemma preSave_password_new env u :
  u_password (preSave env true u) = bcrypt_hashSync (salt env) (u_password u).
Proof. reflexivity. Qed.

Lemma register_Ok env data db a db' :
  register env data db = (Ok a, db') ->
  findOneByEmail (reg_email data) db = None
  /\ a = authResponse env (registeredUser env data db)
  /\ users db' = (users db ++ [registeredUser env data db])%list
  /\ progress db' = progress db
  /\ symptoms db' = symptoms db
  /\ next_oid db' = N.succ (next_oid db).
Proof.
  unfold register, bind, getDb.
  destruct (findOneByEmail (reg_email data) db) eqn:Hf; [discriminate|].
  unfold newObjectId, saveNew, bind, validate, getDb, putDb, ret, throw.
  cbn [freshOid].
  destruct (validationErrors true _); [|discriminate].
  cbn [users].
  destruct (existsb _ (users db)); [discriminate|].
  intros [= <- <-]. cbn. repeat split.
Qed.


(** What a 201 from [signup] means. *)
Lemma signup_created env body db r db' :
  signup env body db = (r, db') ->
  status r = 201 ->
  exists sd,
    validateRegistration (registrationData body) = Valid sd
    /\ register env (registerData sd) db
       = (Ok (authResponse env (registeredUser env (registerData sd) db)), db')
    /\ r = respond 201
             (BAuth
                {| uj_id := oidToString (next_oid db);
                   uj_firstName := Js.trim (s_firstName sd);
                   uj_lastName := Js.trim (s_lastName sd);
                   uj_email := emailSetter (s_email sd);
                   uj_surgeryDate := orNull (sb_surgeryDate body);
                   uj_recoveryDay := 0 |}
                (generateToken env (registeredUser env (registerData sd) db))
                "User created successfully").
Proof.
  unfold signup. fold (registrationData body).
  destruct (validateRegistration (registrationData body)) as [sd|errs] eqn:Hv.
  - fold (registerData sd).
    destruct (register env (registerData sd) db) as [[a|e] db1] eqn:Hr.
    + intros [= <- <-] _. exists sd. split; [reflexivity|].
      destruct (register_Ok _ _ _ _ _ Hr) as (_ & -> & _).
      split; [exact Hr|reflexivity].
    + destruct (Js.includes "already exists" (err_message e));
        intros [= <- <-]; cbn; discriminate.
  - intros [= <- <-]. cbn. discriminate.
Qed.

(** The schema setter leaves a sanitized e-mail address as it is. *)
Lemma lowerChar_whitespace c :
  Js.isWhitespace (Js.lowerChar c) = Js.isWhitespace c.
Proof.
  destruct c as [[] [] [] [] [] [] [] []]; reflexivity.
Qed.

Lemma lowerChar_idem c : Js.lowerChar (Js.lowerChar c) = Js.lowerChar c.
Proof.
  destruct c as [[] [] [] [] [] [] [] []]; reflexivity.
Qed.

Lemma toLowerCase_idem s : Js.toLowerCase (Js.toLowerCase s) = Js.toLowerCase s.
Proof.
  induction s as [|c s IH]; cbn; [reflexivity|].
  rewrite lowerChar_idem, IH. reflexivity.
Qed.

Lemma trimStart_toLowerCase s :
  Js.trimStart (Js.toLowerCase s) = Js.toLowerCase (Js.trimStart s).
Proof.
  induction s as [|c s IH]; cbn; [reflexivity|].
  rewrite lowerChar_whitespace.
  destruct (Js.isWhitespace c); [exact IH|reflexivity].
Qed.

Lemma trimEnd_toLowerCase s :
  Js.trimEnd (Js.toLowerCase s) = Js.toLowerCase (Js.trimEnd s).
Proof.
  induction s as [|c s IH]; cbn; [reflexivity|].
  rewrite IH, lowerChar_whitespace.
  destruct (Js.trimEnd s); cbn; [|reflexivity].
  destruct (Js.isWhitespace c); reflexivity.
Qed.

Lemma trim_toLowerCase s :
  Js.trim (Js.toLowerCase s) = Js.toLowerCase (Js.trim s).
Proof.
  unfold Js.trim. rewrite trimStart_toLowerCase, trimEnd_toLowerCase.
  reflexivity.
Qed.

Lemma trimEnd_idem s : Js.trimEnd (Js.trimEnd s) = Js.trimEnd s.
Proof.
  induction s as [|c s IH]; [reflexivity|].
  cbn [Js.trimEnd].
  destruct (Js.trimEnd s) as [|d t] eqn:E.
  - destruct (Js.isWhitespace c) eqn:W; cbn; [reflexivity|].
    rewrite W. reflexivity.
  - change (Js.trimEnd (String c (String d t)))
      with (match Js.trimEnd (String d t) with
            | EmptyString => if Js.isWhitespace c then EmptyString
                             else String c EmptyString
            | String a b => String c (String a b)
            end).
    rewrite IH. reflexivity.
Qed.

Lemma trimStart_noLeadingSpace s : noLeadingSpace (Js.trimStart s).
Proof.
  induction s as [|c s IH]; cbn; [exact I|].
  destruct (Js.isWhitespace c) eqn:W; [exact IH|exact W].
Qed.

Lemma trimEnd_noLeadingSpace s :
  noLeadingSpace s -> noLeadingSpace (Js.trimEnd s).
Proof.
  destruct s as [|c s]; cbn; [trivial|]. intros W.
  destruct (Js.trimEnd s); [rewrite W|]; exact W.
Qed.

Lemma trimStart_fixed s : noLeadingSpace s -> Js.trimStart s = s.
Proof.
  destruct s as [|c s]; cbn; [reflexivity|]. intros ->. reflexivity.
Qed.

Lemma trim_idem s : Js.trim (Js.trim s) = Js.trim s.
Proof.
  unfold Js.trim.
  rewrite (trimStart_fixed (Js.trimEnd (Js.trimStart s))).
  - apply trimEnd_idem.
  - apply trimEnd_noLeadingSpace, trimStart_noLeadingSpace.
Qed.

(** The schema setters leave a sanitized e-mail address as it is, so the
    address stored for an accepted registration is the sanitized one. *)
Lemma emailSetter_sanitizeEmail e :
  emailSetter (sanitizeEmail e) = sanitizeEmail e.
Proof.
  unfold emailSetter, sanitizeEmail.
  rewrite trim_toLowerCase, toLowerCase_idem, trim_idem. reflexivity.
Qed.


(** A second registration that fails input validation is answered 400,
    also without touching the database. *)
Lemma signup_invalid env body db errors :
  validateRegistration (registrationData body) = Invalid errors ->
  signup env body db = (validationFailed errors, db).
Proof.
  intros Hv. unfold signup. fold (registrationData body). rewrite Hv.
  reflexivity.
Qed.

Lemma login_cases env cred db :
  login env cred db =
  match findOneByEmail (cred_email cred) db with
  | None =>
      (Throw {| err_class := PlainError;
                err_message := "Invalid email or password" |}, db)
  | Some user =>
      if comparePassword (Some (u_password user)) (cred_password cred)
      then (Ok (authResponse env user), db)
      else (Throw {| err_class := PlainError;
                     err_message := "Invalid email or password" |}, db)
  end.
Proof.
  unfold login, bind, getDb.
  destruct (findOneByEmail (cred_email cred) db) as [user|]; [|reflexivity].
  cbn [select uv_password].
  destruct (comparePassword _ _); reflexivity.
Qed.

Lemma signin_cases env body db sd :
  validateLogin (loginData body) = Valid sd ->
  signin env body db =
  match findOneByEmail (sl_email sd) db with
  | None => (invalidCredentials, db)
  | Some user =>
      if comparePassword (Some (u_password user)) (sl_password sd)
      then (respond 200
              (BAuth {| uj_id := oidToString (u_id user);
                        uj_firstName := u_firstName user;
                        uj_lastName := u_lastName user;
                        uj_email := u_email user;
                        uj_surgeryDate := None;
                        uj_recoveryDay := 0 |}
                 (generateToken env user) "User signed in successfully"), db)
      else (invalidCredentials, db)
  end.
Proof.
  intros Hv. unfold signin. fold (loginData body). rewrite Hv.
  rewrite login_cases. cbn [cred_email cred_password].
  destruct (findOneByEmail (sl_email sd) db) as [user|]; [|reflexivity].
  destruct (comparePassword _ _); reflexivity.
Qed.


(** C10. A 201 from [signup] echoes the [surgeryDate] of the body (or
    [null] when it is absent or empty) with [recoveryDay] 0, while the
    user it stores has no surgery date. A 200 from [signin] reports
    [surgeryDate] [null] and [recoveryDay] 0 whatever the database holds
    for the user, and writes nothing. *)
Theorem C10_signup_signin_surgery_date env body db r db' :
  signup env body db = (r, db') ->
  status r = 201 ->
  (exists uj token u,
      r = respond 201 (BAuth uj token "User created successfully")
      /\ uj_surgeryDate uj = orNull (sb_surgeryDate body)
      /\ (forall s, sb_surgeryDate body = Some s -> Js.truthy s = true ->
            uj_surgeryDate uj = Some (DateString s))
      /\ uj_recoveryDay uj = 0
      /\ users db' = (users db ++ [u])%list
      /\ uj_id uj = oidToString (u_id u)
      /\ u_surgeryDate u = None)
  /\ (forall env2 body2 db2 r2 db2',
        signin env2 body2 db2 = (r2, db2') ->
        status r2 = 200 ->
        db2' = db2
        /\ exists uj token,
             r2 = respond 200 (BAuth uj token "User signed in successfully")
             /\ uj_surgeryDate uj = None /\ uj_recoveryDay uj = 0).
Proof.
  intros Hs H201. split.
  - destruct (signup_created _ _ _ _ _ Hs H201) as (sd & Hv & Hr & ->).
    destruct (register_Ok _ _ _ _ _ Hr) as (_ & _ & Husers & _).
    do 3 eexists. split; [reflexivity|]. cbn [uj_surgeryDate uj_recoveryDay uj_id].
    split; [reflexivity|]. split.
    { intros s -> Ht. cbn. rewrite Ht. reflexivity. }
    split; [reflexivity|]. split; [exact Husers|].
    split.
    + unfold registeredUser. rewrite preSave_id. reflexivity.
    + unfold registeredUser. rewrite preSave_surgeryDate. reflexivity.
  - intros env2 body2 db2 r2 db2'. unfold signin.
    destruct (validateLogin _) as [sd|errs].
    + rewrite login_cases.
      destruct (findOneByEmail _ db2) as [u|].
      * destruct (comparePassword _ _).
        -- intros [= <- <-] _. split; [reflexivity|].
           do 2 eexists. split; [reflexivity|]. split; reflexivity.
        -- intros [= <- <-]. cbn. discriminate.
      * intros [= <- <-]. cbn. discriminate.
    + intros [= <- <-]. cbn. discriminate.
Qed.

End Registration.

(** ** The authorization gate and account state *)

Section Accounts.
Import UserModel AuthService UserService AuthMiddleware AuthController.
Import Invariant Notions.
Context {P : Platform}.

Lemma findById_id oid db u : findById oid db = Some u -> u_id u = oid.
Proof.
  unfold findById. intros H. apply find_some in H. destruct H as [_ H].
  apply N.eqb_eq. exact H.
Qed.

Lemma find_replaceById oid us u stored :
  find (fun v => N.eqb (u_id v) oid) us = Some u ->
  u_id stored = oid ->
  find (fun v => N.eqb (u_id v) oid) (replaceById stored us) = Some stored.
Proof.
  intros Hf Hid. induction us as [|v vs IH]; [discriminate|].
  cbn in Hf |- *. rewrite Hid.
  destruct (N.eqb (u_id v) oid) eqn:E.
  - cbn. rewrite Hid, N.eqb_refl. reflexivity.
  - cbn. rewrite E. apply IH. exact Hf.
Qed.

Lemma find_absent oid us :
  existsb (N.eqb oid) (map u_id us) = false ->
  find (fun v => N.eqb (u_id v) oid) us = None.
Proof.
  induction us as [|v vs IH]; cbn; [reflexivity|].
  intros H. apply orb_false_iff in H. destruct H as [Hv Hvs].
  rewrite N.eqb_sym, Hv. apply IH. exact Hvs.
Qed.

Lemma find_removeById oid us :
  nodupb N.eqb (map u_id us) = true ->
  find (fun v => N.eqb (u_id v) oid) (removeById oid us) = None.
Proof.
  induction us as [|v vs IH]; cbn; [reflexivity|].
  intros H. apply andb_prop in H. destruct H as [Hv Hvs].
  apply negb_true_iff in Hv.
  destruct (N.eqb_spec (u_id v) oid) as [E|E].
  - apply find_absent. rewrite <- E. exact Hv.
  - cbn. apply N.eqb_neq in E. rewrite E. apply IH. exact Hvs.
Qed.

(** A fresh [ObjectId] names no stored user. *)
Lemma findById_fresh db us :
  uniqueUserIds db = true -> users db = us ->
  find (fun v => N.eqb (u_id v) (next_oid db)) us = None.
Proof.
  unfold uniqueUserIds, belowb. intros H <-.
  apply andb_prop in H. destruct H as [_ Hb].
  apply find_absent.
  induction (map u_id (users db)) as [|i l IH]; cbn in *; [reflexivity|].
  apply andb_prop in Hb. destruct Hb as [Hi Hl].
  rewrite (IH Hl). apply N.ltb_lt in Hi.
  destruct (N.eqb_spec (next_oid db) i); [lia|reflexivity].
Qed.

(** The gate on a verified token: the user is looked up by the id of the
    payload and nothing but its existence is tested. *)
Lemma authenticateToken_resolved env auth token payload oid db :
  bearerToken auth = Some token ->
  Js.truthy token = true ->
  jwt_verify token (now env) = Ok payload ->
  castObjectId (jp_userId payload) = Some oid ->
  authenticateToken env auth db =
  match findById oid db with
  | Some u => Next (reqUserOf u)
  | None => Rejected (respond 401 (BGate "User not found"))
  end.
Proof.
  intros Hb Ht Hv Hc. unfold authenticateToken.
  rewrite Hb. cbn [Js.truthyOpt]. rewrite Ht. cbn [negb].
  rewrite Hv. unfold findByIdString. rewrite Hc.
  unfold bind, getDb, ret.
  destruct (findById oid db); reflexivity.
Qed.

Lemma userEqb_isActive a b :
  userEqb a b = true -> u_isActive a = u_isActive b.
Proof.
  unfold userEqb. intros H. apply andb_prop in H. destruct H as [_ H].
  apply Bool.eqb_prop. exact H.
Qed.

(** What a successful save of a loaded document leaves in the database:
    the document is found under its id with the assigned fields. *)
Lemma saveLoaded_Ok env old new db r db' :
  findById (u_id old) db = Some old ->
  u_id new = u_id old ->
  saveLoaded env false old new db = (Ok r, db') ->
  exists stored,
    findById (u_id old) db' = Some stored
    /\ u_isActive stored = u_isActive new
    /\ u_surgeryDate stored = u_surgeryDate new
    /\ u_password stored = u_password old
    /\ reqUserOf stored = reqUserOf new
    /\ progress db' = progress db /\ symptoms db' = symptoms db.
Proof.
  intros Hf Hid. unfold saveLoaded, bind, validate.
  destruct (validationErrors false new); [|discriminate].
  unfold ret at 1.
  destruct (userEqb old (setPassword (u_password old) new)) eqn:E.
  - intros [= <- <-]. exists old. split; [exact Hf|].
    pose proof (userEqb_isActive _ _ E) as Ha.
    unfold userEqb in E.
    repeat (apply andb_prop in E; destruct E as [E ?]).
    repeat match goal with
           | H : String.eqb _ _ = true |- _ => apply String.eqb_eq in H
           | H : Z.eqb _ _ = true |- _ => apply Z.eqb_eq in H
           end.
    cbn in *.
    assert (Hsd : u_surgeryDate old = u_surgeryDate new).
    { destruct (u_surgeryDate old), (u_surgeryDate new);
        try discriminate; try reflexivity.
      f_equal. apply Z.eqb_eq. assumption. }
    unfold reqUserOf. rewrite Hid.
    repeat split; try congruence.
  - unfold getDb, putDb, ret. intros [= <- <-].
    eexists. split.
    + unfold findById. cbn [users withUsers].
      apply (find_replaceById (u_id old) (users db) old); [exact Hf|].
      cbn. exact Hid.
    + cbn. unfold reqUserOf. cbn. repeat split.
Qed.

Lemma assign_id d u : u_id (assign d u) = u_id u.
Proof. reflexivity. Qed.




End Accounts.

(** ** Stored passwords *)

Section Passwords.
Import ValidationService UserModel AuthService UserService AuthController.
Import Invariant Notions.
Context {P : Platform}.

Lemma userEqb_setPassword u pw :
  userEqb u (setPassword pw u) = String.eqb (u_password u) pw.
Proof.
  unfold userEqb. cbn.
  rewrite !String.eqb_refl, Z.eqb_refl, Bool.eqb_reflx.
  destruct (u_surgeryDate u) as [d|]; [rewrite Z.eqb_refl|];
    cbn; rewrite ?andb_true_r; reflexivity.
Qed.


Lemma getUserById_found userId oid db u :
  castObjectId userId = Some oid ->
  findById oid db = Some u ->
  getUserById userId db = (Ok (Some (select false u)), db).
Proof.
  intros Hc Hf. unfold getUserById, findByIdString. rewrite Hc.
  unfold bind, getDb, ret. cbn beta iota. rewrite Hf. reflexivity.
Qed.




End Passwords.

(** ** Reading and writing the surgery date *)

Section SurgeryDate.
Import UserModel UserService AuthController Invariant Notions.
Context {P : Platform}.

(** [GET /auth/me] derives the recovery day from the stored surgery date
    and the instant of the request. *)
Lemma getProfile_recoveryDay env user oid db u :
  Js.truthy (ru_id user) = true ->
  castObjectId (ru_id user) = Some oid ->
  findById oid db = Some u ->
  exists uj,
    getProfile env (Some user) db
    = (respond 200 (BUser uj "User profile retrieved successfully"), db)
    /\ uj_surgeryDate uj = option_map DateValue (u_surgeryDate u)
    /\ uj_recoveryDay uj = calculateRecoveryDay (now env) (u_surgeryDate u).
Proof.
  intros Ht Hc Hf. unfold getProfile, authenticatedId. rewrite Ht.
  rewrite (getUserById_found _ _ _ _ Hc Hf).
  eexists. split; [reflexivity|]. split; reflexivity.
Qed.

(** A surgery date later than the instant of the request is refused and
    nothing is written. *)
Lemma updateSurgeryDate_future env user s date db :
  Js.truthy (ru_id user) = true ->
  Js.truthy s = true ->
  date_parse s = Some date ->
  now env < date ->
  updateSurgeryDate env (Some user) (Some s) db
  = (fail1 400 "Validation failed" "Surgery date cannot be in the future"
       "surgeryDate", db).
Proof.
  intros Ht Hs Hp Hlt. unfold updateSurgeryDate, authenticatedId.
  rewrite Ht. cbn [Js.truthyOpt ValidationService.orEmpty]. rewrite Hs.
  cbn [negb]. rewrite Hp.
  apply Z.ltb_lt in Hlt. rewrite Hlt. reflexivity.
Qed.

(** A 200 from [PATCH /auth/surgery-date] stored the parsed date, which is
    not in the future. *)
Lemma updateSurgeryDate_200 env user s oid db r db' :
  castObjectId (ru_id user) = Some oid ->
  updateSurgeryDate env (Some user) (Some s) db = (r, db') ->
  status r = 200 ->
  exists date stored,
    date_parse s = Some date
    /\ date <= now env
    /\ findById oid db' = Some stored
    /\ u_surgeryDate stored = Some date.
Proof.
  intros Hc. unfold updateSurgeryDate, authenticatedId.
  destruct (Js.truthy (ru_id user)); [|intros [= <- <-]; discriminate].
  cbn [Js.truthyOpt ValidationService.orEmpty].
  destruct (negb (Js.truthy s)); [intros [= <- <-]; discriminate|].
  destruct (date_parse s) as [date|]; [|intros [= <- <-]; discriminate].
  destruct (Z.ltb_spec (now env) date) as [|Hle];
    [intros [= <- <-]; discriminate|].
  unfold updateUser, findByIdString. rewrite Hc.
  unfold bind at 1, bind at 1, getDb at 1, ret at 1. cbn beta iota.
  destruct (findById oid db) as [u|] eqn:Hf;
    [|cbn; intros [= <- <-]; discriminate].
  unfold bind at 1, getDb at 1. cbn beta iota.
  cbn [emailTaken upd_email].
  unfold bind at 1.
  destruct (saveLoaded env false u _ db) as [[r1|e] db1] eqn:Hs;
    [|intros [= <- <-]; discriminate].
  pose proof (findById_id _ _ _ Hf) as Hid. rewrite <- Hid in Hf.
  destruct (saveLoaded_Ok _ _ _ _ _ _ Hf (assign_id _ u) Hs)
    as (stored & Hf1 & _ & Hsd & _).
  rewrite Hid in Hf1.
  rewrite (getUserById_found _ _ _ _ Hc Hf1).
  intros [= <- <-] _. exists date, stored. auto.
Qed.

End SurgeryDate.

(** ** Clearing, and the invariants *)

Section Clearing.
Import SymptomEntryService SymptomEntryController BrochureProgressService.
Import Invariant.

(** [clearUserSymptomEntries] itself does what the route promises: after it
    the user's diary is empty and the other users' entries are untouched. *)
Lemma clearUserSymptomEntries_clears user userId db :
  authenticatedId user = Some userId ->
  let db' := snd (clearUserSymptomEntries user db) in
  fst (clearUserSymptomEntries user db)
  = respond 200 (BMessage true "All symptom entries cleared successfully")
  /\ fst (getUserSymptomEntries user db')
     = respond 200 (BEntries [] "Symptom entries retrieved successfully")
  /\ (forall other, other <> userId ->
        SymptomEntryService.find other db' = SymptomEntryService.find other db).
Proof.
  intros Ha. cbn zeta.
  unfold clearUserSymptomEntries, getUserSymptomEntries. rewrite Ha.
  cbn [clearUserEntries getUserEntries success succeeded fst snd message
       dataBody data].
  split; [reflexivity|].
  unfold SymptomEntryService.find, SymptomEntryService.deleteMany.
  cbn [symptoms withSymptoms]. split.
  - replace (filter _ (filter _ (symptoms db))) with (@nil SymptomDoc);
      [reflexivity|].
    induction (symptoms db) as [|e l IH]; [reflexivity|].
    cbn [filter]. destruct (String.eqb (se_userId e) userId) eqn:E; cbn [negb].
    + exact IH.
    + cbn [filter]. rewrite E. exact IH.
  - intros other Hne.
    induction (symptoms db) as [|e l IH]; [reflexivity|].
    cbn [filter]. destruct (String.eqb_spec (se_userId e) userId) as [E|E];
      cbn [negb filter].
    + rewrite IH. rewrite E.
      apply String.eqb_neq in Hne. rewrite String.eqb_sym, Hne. reflexivity.
    + rewrite IH. reflexivity.
Qed.

(** [resetProgress] followed by [getUserProgress] yields no record. *)
Lemma resetProgress_clears userId db :
  BrochureProgressService.find userId (snd (resetProgress userId db)) = [].
Proof.
  unfold resetProgress, BrochureProgressService.find,
    BrochureProgressService.deleteMany.
  cbn [snd progress withProgress].
  induction (progress db) as [|p l IH]; [reflexivity|].
  cbn [filter]. destruct (String.eqb (p_userId p) userId) eqn:E; cbn [negb].
  - exact IH.
  - cbn [filter]. rewrite E. exact IH.
Qed.

Lemma emptyDb_invariants :
  uniqueUserIds emptyDb = true
  /\ uniqueSymptomIds emptyDb = true
  /\ uniqueProgressKeys emptyDb = true.
Proof. repeat split. Qed.

Lemma belowb_succ n ids : belowb n ids = true -> belowb (N.succ n) ids = true.
Proof.
  unfold belowb. induction ids as [|i l IH]; cbn; [reflexivity|].
  intros H. apply andb_prop in H. destruct H as [Hi Hl].
  rewrite (IH Hl), andb_true_r.
  apply N.ltb_lt. apply N.ltb_lt in Hi. lia.
Qed.

Lemma belowb_absent n ids :
  belowb n ids = true -> existsb (fun i => N.eqb i n) ids = false.
Proof.
  unfold belowb. induction ids as [|i l IH]; cbn; [reflexivity|].
  intros H. apply andb_prop in H. destruct H as [Hi Hl].
  rewrite (IH Hl), orb_false_r.
  apply N.eqb_neq. apply N.ltb_lt in Hi. lia.
Qed.

(** Creating an entry keeps the diary's ids unique and below the
    generator's counter. *)
Lemma createEntry_keeps_ids env userId entryData db :
  uniqueSymptomIds db = true ->
  uniqueSymptomIds (snd (createEntry env userId entryData db)) = true.
Proof.
  unfold uniqueSymptomIds, createEntry, save. cbn [freshOid].
  intros H. apply andb_prop in H. destruct H as [Hnd Hb].
  destruct (SymptomEntryService.validationErrors userId entryData).
  - cbn [snd symptoms withSymptoms next_oid].
    rewrite map_app. cbn [map newEntry se_id].
    apply andb_true_intro. split.
    + apply nodupb_snoc; [exact Hnd|]. apply belowb_absent. exact Hb.
    + unfold belowb. rewrite forallb_app. apply andb_true_intro. split.
      * apply belowb_succ. exact Hb.
      * cbn. rewrite andb_true_r. apply N.ltb_lt. lia.
  - cbn [snd throw symptoms next_oid].
    rewrite Hnd, (belowb_succ _ _ Hb). reflexivity.
Qed.

(** The ids of a sub-collection are still unique and below the counter. *)
Lemma ids_filter n (f : SymptomDoc -> bool) (l : list SymptomDoc) :
  (nodupb N.eqb (map se_id l) && belowb n (map se_id l))%bool = true ->
  (nodupb N.eqb (map se_id (filter f l))
   && belowb n (map se_id (filter f l)))%bool = true.
Proof.
  induction l as [|x l IH]; cbn [map filter nodupb belowb forallb];
    [reflexivity|].
  intros H. apply andb_prop in H. destruct H as [Hnd Hb].
  apply andb_prop in Hnd. destruct Hnd as [Hx Hnd].
  apply andb_prop in Hb. destruct Hb as [Hxb Hb].
  assert (IH' := IH (andb_true_intro (conj Hnd Hb))).
  destruct (f x); [|exact IH'].
  apply andb_prop in IH'. destruct IH' as [Hnd' Hb'].
  cbn [map nodupb forallb]. fold (belowb n (map se_id (filter f l))).
  rewrite Hnd', Hb', Hxb, !andb_true_r.
  apply negb_true_iff. apply negb_true_iff in Hx.
  revert Hx. clear. induction l as [|y l IH]; cbn; [reflexivity|].
  intros H. apply orb_false_iff in H. destruct H as [Hy Hl].
  destruct (f y); cbn; [rewrite Hy|]; exact (IH Hl).
Qed.

Lemma updateFirst_ids f g (l : list SymptomDoc) r l' :
  (forall e, se_id (g e) = se_id e) ->
  SymptomEntryService.updateFirst f g l = Some (r, l') ->
  map se_id l' = map se_id l.
Proof.
  intros Hg. revert r l'. induction l as [|x l IH]; intros r l'; cbn;
    [discriminate|].
  destruct (f x).
  - intros [= <- <-]. cbn. rewrite Hg. reflexivity.
  - destruct (SymptomEntryService.updateFirst f g l) as [[q l'']|];
      [|discriminate].
    intros [= <- <-]. cbn. rewrite (IH q l'' eq_refl). reflexivity.
Qed.

Lemma removeFirst_ids n f (l : list SymptomDoc) r l' :
  removeFirst f l = Some (r, l') ->
  (nodupb N.eqb (map se_id l) && belowb n (map se_id l))%bool = true ->
  (nodupb N.eqb (map se_id l') && belowb n (map se_id l'))%bool = true.
Proof.
  revert r l'. induction l as [|x l IH]; intros r l';
    cbn [removeFirst map nodupb belowb forallb]; [discriminate|].
  intros Hrm H. apply andb_prop in H. destruct H as [Hnd Hb].
  apply andb_prop in Hnd. destruct Hnd as [Hx Hnd].
  apply andb_prop in Hb. destruct Hb as [Hxb Hb].
  destruct (f x).
  - injection Hrm as <- <-. apply andb_true_intro. split; assumption.
  - destruct (removeFirst f l) as [[q l'']|] eqn:E; [|discriminate].
    injection Hrm as <- <-.
    assert (IH' := IH q l'' eq_refl (andb_true_intro (conj Hnd Hb))).
    apply andb_prop in IH'. destruct IH' as [Hnd' Hb'].
    unfold belowb in *. cbn [map nodupb forallb].
    rewrite Hnd', Hb', Hxb, !andb_true_r.
    apply negb_true_iff. apply negb_true_iff in Hx.
    revert E Hx. clear. revert q l''.
    induction l as [|y l IHl]; intros q l''; cbn; [discriminate|].
    destruct (f y).
    + intros [= <- <-] H. apply orb_false_iff in H. tauto.
    + destruct (removeFirst f l) as [[q' l3]|] eqn:E; [|discriminate].
      intros [= <- <-] H. apply orb_false_iff in H. destruct H as [Hy Hl].
      cbn. rewrite Hy. exact (IHl q' l3 eq_refl Hl).
Qed.

(** Every operation of the diary service keeps the ids of the diary
    unique and below the generator's counter. *)
Lemma diary_operations_keep_ids env userId entryId d db :
  uniqueSymptomIds db = true ->
  uniqueSymptomIds (snd (createEntry env userId d db)) = true
  /\ uniqueSymptomIds (snd (updateEntry env userId entryId d db)) = true
  /\ uniqueSymptomIds (snd (deleteEntry userId entryId db)) = true
  /\ uniqueSymptomIds (snd (clearUserEntries userId db)) = true
  /\ uniqueSymptomIds (snd (getUserEntries userId db)) = true.
Proof.
  intros H. split; [apply createEntry_keeps_ids; exact H|].
  assert (Hclear : uniqueSymptomIds (snd (clearUserEntries userId db)) = true).
  { unfold uniqueSymptomIds, clearUserEntries, SymptomEntryService.deleteMany.
    cbn [snd symptoms withSymptoms next_oid]. apply ids_filter. exact H. }
  unfold updateEntry, deleteEntry, SymptomEntryService.findOneAndUpdate,
    findOneAndDelete.
  destruct (castObjectId entryId) as [oid|]; cbn [throw snd].
  2: { repeat split; assumption. }
  split; [|split; [|split]].
  - destruct (SymptomEntryService.updateFirst _ _ (symptoms db))
      as [[r l']|] eqn:E; cbn [snd]; [|exact H].
    unfold uniqueSymptomIds. cbn [symptoms withSymptoms next_oid].
    rewrite (updateFirst_ids _ (SymptomEntryService.applyUpdate d (now env))
               _ _ _ (fun e => eq_refl) E).
    exact H.
  - destruct (removeFirst _ (symptoms db)) as [[r l']|] eqn:E; cbn [snd];
      [|exact H].
    unfold uniqueSymptomIds. cbn [symptoms withSymptoms next_oid].
    exact (removeFirst_ids _ _ _ _ _ E H).
  - exact Hclear.
  - exact H.
Qed.

End Clearing.

(** ** Object ids and the life of an account *)

Section ObjectIds.
Import ValidationService UserModel AuthService AuthController Notions.

Lemma length_append (a b : string) :
  String.length (a ++ b) = (String.length a + String.length b)%nat.
Proof.
  induction a as [|c a IH]; cbn; [reflexivity|]. rewrite IH. reflexivity.
Qed.

Lemma hexDigit_spec (k : N) :
  (k < 16)%N -> hexValue (hexDigit k) = k /\ Js.isHex (hexDigit k) = true.
Proof.
  intros H.
  assert (E : (k = 0 \/ k = 1 \/ k = 2 \/ k = 3 \/ k = 4 \/ k = 5 \/ k = 6
               \/ k = 7 \/ k = 8 \/ k = 9 \/ k = 10 \/ k = 11 \/ k = 12
               \/ k = 13 \/ k = 14 \/ k = 15)%N) by lia.
  repeat destruct E as [E|E]; subst k; split; reflexivity.
Qed.

Lemma hexToN_app (acc : N) (a b : string) :
  hexToN acc (a ++ b) = hexToN (hexToN acc a) b.
Proof.
  revert acc. induction a as [|c a IH]; intros acc; cbn; [reflexivity|].
  apply IH.
Qed.

Lemma allHex_app (a b : string) :
  allHex (a ++ b) = (allHex a && allHex b)%bool.
Proof.
  induction a as [|c a IH]; cbn; [reflexivity|].
  rewrite IH, andb_assoc. reflexivity.
Qed.

Lemma hexOfN_length (d : nat) (n : N) : String.length (hexOfN d n) = d.
Proof.
  revert n. induction d as [|d IH]; intros n; cbn [hexOfN]; [reflexivity|].
  rewrite length_append, IH. cbn. lia.
Qed.

Lemma hexOfN_allHex (d : nat) (n : N) : allHex (hexOfN d n) = true.
Proof.
  revert n. induction d as [|d IH]; intros n; cbn [hexOfN]; [reflexivity|].
  rewrite allHex_app, IH. cbn [allHex andb].
  destruct (hexDigit_spec (n mod 16)) as [_ ->]; [|reflexivity].
  apply N.mod_lt. discriminate.
Qed.

Lemma hexOfN_value (d : nat) (n acc : N) :
  hexToN acc (hexOfN d n) = (acc * 16 ^ N.of_nat d + n mod 16 ^ N.of_nat d)%N.
Proof.
  revert n acc. induction d as [|d IH]; intros n acc.
  - cbn [hexOfN hexToN N.of_nat]. rewrite N.pow_0_r, N.mod_1_r. lia.
  - cbn [hexOfN]. rewrite hexToN_app, IH. cbn [hexToN].
    destruct (hexDigit_spec (n mod 16)) as [-> _];
      [apply N.mod_lt; discriminate|].
    rewrite Nat2N.inj_succ, N.pow_succ_r'.
    rewrite (N.Div0.mod_mul_r n 16 (16 ^ N.of_nat d)). lia.
Qed.

(** Printing an [ObjectId] and casting the string back gives the id. *)
Lemma castObjectId_oidToString (o : ObjectId) :
  (o < 16 ^ 24)%N -> castObjectId (oidToString o) = Some o.
Proof.
  intros Hlt. unfold castObjectId, oidToString.
  rewrite hexOfN_length, hexOfN_allHex. cbn [Nat.eqb andb].
  rewrite (hexOfN_value 24 o 0). f_equal.
  change (N.of_nat 24) with 24%N. rewrite N.mod_small by exact Hlt. lia.
Qed.

Lemma app_nil_inv {A} (a b : list A) : (a ++ b)%list = [] -> a = [] /\ b = [].
Proof. destruct a; [auto|discriminate]. Qed.

(** Registration followed by login: whoever was answered 201 can sign in
    with the same address and password, given that bcrypt accepts the
    password for the hash it produced. *)
Lemma signin_after_signup {P : Platform} env1 env2 body e pw db r db' :
  (forall s p, bcrypt_hashSync s p <> ""
               /\ bcrypt_compareSync p (bcrypt_hashSync s p) = true) ->
  sb_email body = Some e ->
  sb_password body = Some pw ->
  signup env1 body db = (r, db') ->
  status r = 201 ->
  status (fst (signin env2 {| ib_email := Some e; ib_password := Some pw |}
                 db')) = 200.
Proof.
  intros Hbcrypt He Hpw Hs H201.
  destruct (signup_created _ _ _ _ _ Hs H201) as (sd & Hv & Hr & _).
  destruct (register_Ok _ _ _ _ _ Hr) as (Hnone & _ & Husers & _).
  pose proof (validateRegistration_Valid _ _ Hv) as Hsd.
  assert (Hlogin : validateLogin
                     (loginData {| ib_email := Some e; ib_password := Some pw |})
                   = Valid {| sl_email := sanitizeEmail e; sl_password := pw |}).
  { unfold validateRegistration in Hv.
    destruct (_ ++ _)%list eqn:Herr in Hv; [|discriminate].
    apply app_nil_inv in Herr. destruct Herr as [_ Herr].
    apply app_nil_inv in Herr. destruct Herr as [_ Herr].
    apply app_nil_inv in Herr. destruct Herr as [Hmail Hpass].
    cbn [registrationData rd_email rd_password] in Hmail, Hpass.
    rewrite He in Hmail. rewrite Hpw in Hpass.
    unfold validateLogin.
    cbn [loginData ld_email ld_password ib_email ib_password orEmpty].
    rewrite Hmail. unfold loginPasswordErrors. cbn [Js.truthyOpt].
    unfold passwordErrors in Hpass.
    destruct (Js.truthy pw); [reflexivity|discriminate]. }
  rewrite (signin_cases env2 _ db' _ Hlogin). cbn [sl_email sl_password].
  assert (Hmail : s_email sd = sanitizeEmail e).
  { rewrite Hsd. cbn. rewrite He. reflexivity. }
  assert (Hfind : findOneByEmail (sanitizeEmail e) db'
                  = Some (registeredUser env1 (registerData sd) db)).
  { unfold findOneByEmail in *. rewrite Husers, find_snoc.
    cbn [registerData reg_email] in Hnone. rewrite Hmail in Hnone.
    rewrite Hnone. unfold registeredUser. rewrite preSave_email.
    cbn [newUser u_email registerData reg_email].
    rewrite Hmail, emailSetter_sanitizeEmail, String.eqb_refl. reflexivity. }
  rewrite Hfind.
  unfold registeredUser at 1. rewrite preSave_password_new.
  cbn [newUser u_password registerData reg_password].
  assert (Hp : s_password sd = pw).
  { rewrite Hsd. cbn. rewrite Hpw. reflexivity. }
  rewrite Hp. unfold comparePassword.
  destruct (Hbcrypt (salt env1) pw) as [Hne Hcmp].
  apply String.eqb_neq in Hne. unfold Js.truthy. rewrite Hne. cbn [negb].
  rewrite Hcmp. reflexivity.
Qed.

End ObjectIds.

(** ** The properties on the sample requests *)

Section Samples.
Import ValidationService AuthController.





(** The two failing logins of the example, unknown address and wrong
    password, and the successful one. *)
Lemma signin_examples :
  let signin e p :=
    fst (AuthController.signin (P := Toy.platform) Toy.env
           {| AuthController.ib_email := Some e;
              AuthController.ib_password := Some p |} Examples.registered) in
  signin "nobody@x.com" "Passw0rd" = Notions.invalidCredentials
  /\ signin "sarah@x.com" "passw0rd" = Notions.invalidCredentials
  /\ status (signin "sarah@x.com" "Passw0rd") = 200.
Proof. vm_compute. auto. Qed.

Lemma C10_witness :
  (exists uj token u,
      fst (AuthController.signup (P := Toy.platform) Toy.env Examples.sarah
             emptyDb)
      = respond 201 (BAuth uj token "User created successfully")
      /\ uj_surgeryDate uj
         = AuthController.orNull (AuthController.sb_surgeryDate Examples.sarah)
      /\ (forall s,
            AuthController.sb_surgeryDate Examples.sarah = Some s ->
            Js.truthy s = true ->
            uj_surgeryDate uj = Some (DateString s))
      /\ uj_recoveryDay uj = 0
      /\ users Examples.registered = (users emptyDb ++ [u])%list
      /\ uj_id uj = oidToString (u_id u)
      /\ u_surgeryDate u = None)
  /\ (forall env2 body2 db2 r2 db2',
        AuthController.signin (P := Toy.platform) env2 body2 db2 = (r2, db2') ->
        status r2 = 200 ->
        db2' = db2
        /\ exists uj token,
             r2 = respond 200 (BAuth uj token "User signed in successfully")
             /\ uj_surgeryDate uj = None /\ uj_recoveryDay uj = 0).
Proof.
  exact (C10_signup_signin_surgery_date (P := Toy.platform) Toy.env
           Examples.sarah emptyDb _ _ eq_refl eq_refl).
Defined.





(** An ordinary change of password on the same account. *)
Lemma changePassword_example :
  let answer :=
    AuthController.changePassword (P := Toy.platform) Toy.env
      (Some Examples.sarahUser) (Some "Passw0rd") (Some "Fresh3rPass")
      Examples.registered in
  status (fst answer) = 200
  /\ map u_password (users (snd answer))
     = ["$2a$10$N9qo8uLOickgx2ZMRZoMyeFresh3rPass"].
Proof. vm_compute. auto. Qed.

End Samples.

(* ================================================================== *)
(** * Further properties *)

(** ** Input validation *)

Section RegexFacts.
Import Regex RegexSemantics.

Lemma append_nil_inv (s t : string) : s ++ t = "" -> s = "" /\ t = "".
Proof. destruct s; cbn; [auto|discriminate]. Qed.

Lemma append_nil_r (s : string) : s ++ "" = s.
Proof. induction s as [|c s IH]; cbn; [reflexivity|]. rewrite IH. reflexivity. Qed.

Lemma append_assoc (a b c : string) : (a ++ b) ++ c = a ++ (b ++ c).
Proof. induction a as [|x a IH]; cbn; [reflexivity|]. rewrite IH. reflexivity. Qed.

Lemma nullable_Matches (r : regex) : nullable r = true <-> Matches r "".
Proof.
  split.
  - induction r; cbn; intros H; try discriminate.
    + constructor.
    + apply andb_prop in H. destruct H as [H1 H2].
      change "" with ("" ++ ""). constructor; auto.
    + apply orb_prop in H. destruct H; [apply MAltL|apply MAltR]; auto.
    + constructor.
  - intros H. remember "" as s eqn:E.
    induction H; cbn; try discriminate; try reflexivity.
    + apply append_nil_inv in E. destruct E.
      rewrite IHMatches1, IHMatches2; auto.
    + rewrite IHMatches; auto.
    + rewrite IHMatches; auto using orb_true_r.
Qed.

Lemma deriv_sound (c : ascii) (r : regex) (s : string) :
  Matches (deriv c r) s -> Matches r (String c s).
Proof.
  revert s. induction r as [| |p|a IHa b IHb|a IHa b IHb|a IHa];
    cbn; intros s H.
  - inversion H.
  - inversion H.
  - destruct (p c) eqn:E; inversion H; subst. constructor. exact E.
  - assert (Hleft : forall u, Matches (Seq (deriv c a) b) u ->
                               Matches (Seq a b) (String c u)).
    { intros u Hu. inversion Hu; subst.
      change (String c (s0 ++ t)) with (String c s0 ++ t).
      constructor; auto. }
    destruct (nullable a) eqn:N.
    + inversion H; subst; [auto|].
      change (String c s) with ("" ++ String c s).
      constructor; [apply nullable_Matches; exact N|auto].
    + auto.
  - inversion H; subst; [apply MAltL|apply MAltR]; auto.
  - inversion H; subst.
    change (String c (s0 ++ t)) with (String c s0 ++ t).
    constructor; auto.
Qed.

Lemma deriv_complete (c : ascii) (r : regex) (s : string) :
  Matches r (String c s) -> Matches (deriv c r) s.
Proof.
  intros H. remember (String c s) as w eqn:E. revert c s E.
  induction H as [|p x Hp|a b u t Ha IHa Hb IHb|a b u Ha IHa|a b u Hb IHb
                  |a|a u t Ha IHa Ht IHt]; intros c s E.
  - discriminate.
  - injection E as <- <-. cbn. rewrite Hp. constructor.
  - cbn. destruct u as [|x u]; cbn in E.
    + subst t. apply nullable_Matches in Ha. rewrite Ha.
      apply MAltR. apply IHb. reflexivity.
    + injection E as -> <-.
      assert (Matches (Seq (deriv c a) b) (u ++ t))
        by (constructor; [apply IHa; reflexivity|exact Hb]).
      destruct (nullable a); [apply MAltL|]; assumption.
  - cbn. apply MAltL. apply IHa. exact E.
  - cbn. apply MAltR. apply IHb. exact E.
  - discriminate.
  - destruct u as [|x u]; cbn in E.
    + apply IHt. exact E.
    + injection E as -> <-. cbn.
      constructor; [apply IHa; reflexivity|exact Ht].
Qed.

(** The matcher decides the language of the expression. *)
Lemma fullMatch_Matches (r : regex) (s : string) :
  fullMatch r s = true <-> Matches r s.
Proof.
  revert r. induction s as [|c s IH]; intros r; cbn.
  - apply nullable_Matches.
  - rewrite IH. split; [apply deriv_sound|apply deriv_complete].
Qed.

Lemma Matches_Seq (a b : regex) (s : string) :
  Matches (Seq a b) s <->
  exists u t, s = u ++ t /\ Matches a u /\ Matches b t.
Proof.
  split.
  - intros H. inversion H; subst. eauto.
  - intros (u & t & -> & Ha & Hb). constructor; assumption.
Qed.

Lemma Matches_Chr (p : ascii -> bool) (s : string) :
  Matches (Chr p) s <-> exists c, s = String c "" /\ p c = true.
Proof.
  split.
  - intros H. inversion H; subst. eauto.
  - intros (c & -> & Hp). constructor. exact Hp.
Qed.

Lemma Matches_Star_Chr (p : ascii -> bool) (s : string) :
  Matches (Star (Chr p)) s <-> allChars p s = true.
Proof.
  split.
  - intros H. remember (Star (Chr p)) as r eqn:E.
    induction H; try discriminate; [reflexivity|].
    injection E as ->. apply Matches_Chr in H. destruct H as (c & -> & Hc).
    cbn. rewrite Hc. apply IHMatches2. reflexivity.
  - induction s as [|c s IH]; cbn; intros H; [constructor|].
    apply andb_prop in H. destruct H as [Hc Hs].
    change (String c s) with (String c "" ++ s).
    constructor; [constructor; exact Hc|apply IH; exact Hs].
Qed.

Lemma Matches_Plus_Chr (p : ascii -> bool) (s : string) :
  Matches (Plus (Chr p)) s <-> s <> "" /\ allChars p s = true.
Proof.
  unfold Plus. rewrite Matches_Seq. split.
  - intros (u & t & -> & Hu & Ht).
    apply Matches_Chr in Hu. destruct Hu as (c & -> & Hc).
    apply Matches_Star_Chr in Ht. cbn. rewrite Hc, Ht.
    split; [discriminate|reflexivity].
  - intros [Hne H]. destruct s as [|c s]; [congruence|].
    cbn in H. apply andb_prop in H. destruct H as [Hc Hs].
    exists (String c ""), s. split; [reflexivity|].
    split; [constructor; exact Hc|apply Matches_Star_Chr; exact Hs].
Qed.

Lemma Matches_Lit (c : ascii) (s : string) :
  Matches (Lit c) s <-> s = String c "".
Proof.
  unfold Lit. rewrite Matches_Chr. split.
  - intros (x & -> & H). apply Ascii.eqb_eq in H. subst. reflexivity.
  - intros ->. exists c. split; [reflexivity|apply Ascii.eqb_refl].
Qed.

End RegexFacts.

Section ValidationFacts.
Import Regex RegexSemantics ValidationService AuthController Notions.


Lemma allChars_true (s : string) : allChars (fun _ => true) s = true.
Proof. induction s as [|c s IH]; cbn; auto. Qed.

Lemma anyChar_firstLine (p : ascii -> bool) (s : string) :
  (forall c, p c = true -> Js.isDot c = true) ->
  anyChar p (firstLine s) = true <->
  exists a c t, s = a ++ String c t /\ allChars Js.isDot a = true /\ p c = true.
Proof.
  intros Hp. split.
  - induction s as [|x s IH]; cbn; [discriminate|].
    destruct (Js.isDot x) eqn:Dx; cbn; [|discriminate].
    destruct (p x) eqn:Px; cbn.
    + intros _. exists "", x, s. auto.
    + intros H. destruct (IH H) as (a & c & t & -> & Ha & Hc).
      exists (String x a), c, t. cbn. rewrite Dx, Ha. auto.
  - intros (a & c & t & -> & Ha & Hc).
    induction a as [|x a IH]; cbn.
    + rewrite (Hp c Hc). cbn. rewrite Hc. reflexivity.
    + cbn in Ha. apply andb_prop in Ha. destruct Ha as [Dx Ha].
      rewrite Dx. cbn. rewrite (IH Ha). apply orb_true_r.
Qed.

(** A lookahead [(?=.*[class])] holds exactly when the first line of the
    string has a character of the class. *)
Lemma lookahead_class (p : ascii -> bool) (s : string) :
  (forall c, p c = true -> Js.isDot c = true) ->
  lookahead (Seq (Star (Chr Js.isDot)) (Chr p)) s = anyChar p (firstLine s).
Proof.
  intros Hp. apply Bool.eq_true_iff_eq.
  rewrite (anyChar_firstLine p s Hp).
  unfold lookahead, prefixMatch. rewrite fullMatch_Matches. split.
  - intros H.
    apply Matches_Seq in H. destruct H as (u & t & -> & Hu & _).
    apply Matches_Seq in Hu. destruct Hu as (a & x & -> & Ha & Hx).
    apply Matches_Star_Chr in Ha.
    apply Matches_Chr in Hx. destruct Hx as (c & -> & Hc).
    exists a, c, t. rewrite append_assoc. auto.
  - intros (a & c & t & -> & Ha & Hc).
    apply Matches_Seq. exists (a ++ String c ""), t.
    split; [rewrite append_assoc; reflexivity|].
    split; [|apply Matches_Star_Chr, allChars_true].
    apply Matches_Seq. exists a, (String c "").
    split; [reflexivity|].
    split; [apply Matches_Star_Chr; exact Ha|constructor; exact Hc].
Qed.

Lemma class_isDot (lo hi : N) (c : ascii) :
  (14 <= lo)%N -> Js.inRange lo hi c = true -> Js.isDot c = true.
Proof.
  unfold Js.inRange, Js.isDot. intros Hlo H.
  apply andb_prop in H. destruct H as [H _]. apply N.leb_le in H.
  apply negb_true_iff, orb_false_iff. split; apply N.eqb_neq; lia.
Qed.

(** X2. [validateRegistration] accepts a password exactly when it has at
    least 8 characters and its first line (the part before any line
    break) holds a lowercase letter, an uppercase letter and a digit. *)
Theorem X2_password_rule (password : string) :
  passwordErrors (Some password) = [] <->
  (8 <= String.length password)%nat
  /\ anyChar Js.isLower (firstLine password) = true
  /\ anyChar Js.isUpper (firstLine password) = true
  /\ anyChar Js.isDigit (firstLine password) = true.
Proof.
  unfold passwordErrors, passwordPolicy.
  rewrite !lookahead_class
    by (intros c; apply class_isDot; lia).
  destruct password as [|c s]; [cbn; split; [discriminate|lia]|].
  change (Js.truthy (String c s)) with true. cbn [negb].
  destruct (Nat.ltb_spec (String.length (String c s)) 8) as [Hlt|Hge].
  - split; [discriminate|lia].
  - destruct (anyChar Js.isLower _), (anyChar Js.isUpper _),
      (anyChar Js.isDigit _); cbn; split;
      try discriminate; try tauto; intros (_ & H1 & H2 & H3); discriminate.
Qed.

(** X3. The field reported with each validation message. Messages about
    the names and the password are reported under their own field, and
    "Email is required" under [email]; "Invalid email format" does not
    contain the word [Email] and is reported under [general]. The 400 of
    [signup] carries exactly these pairs and writes nothing. *)
Theorem X3_validation_error_fields (v : option string) :
  (forall e, In e (nameErrors "First name" v) ->
     getFieldFromError e = "firstName")
  /\ (forall e, In e (nameErrors "Last name" v) ->
        getFieldFromError e = "lastName")
  /\ (forall e, In e (passwordErrors v) -> getFieldFromError e = "password")
  /\ (forall e, In e (emailErrors v) ->
        (e = "Email is required" /\ getFieldFromError e = "email")
        \/ (e = "Invalid email format" /\ getFieldFromError e = "general"))
  /\ (forall {P : Platform} env body db errors,
        validateRegistration (registrationData body) = Invalid errors ->
        signup env body db
        = (respond 400
             (BFailure "Validation failed"
                (map (fun e => {| fe_message := e;
                                  fe_field := getFieldFromError e |}) errors)),
           db)).
Proof.
  split; [|split; [|split; [|split]]].
  - unfold nameErrors. intros e.
    destruct v as [n|]; [destruct (Js.truthy n);
                         [destruct (Nat.ltb _ 2)|]|];
      cbn [In]; intros H; try contradiction;
      destruct H as [<-|[]]; reflexivity.
  - unfold nameErrors. intros e.
    destruct v as [n|]; [destruct (Js.truthy n);
                         [destruct (Nat.ltb _ 2)|]|];
      cbn [In]; intros H; try contradiction;
      destruct H as [<-|[]]; reflexivity.
  - unfold passwordErrors. intros e.
    destruct v as [p|];
      [destruct (negb (Js.truthy p));
       [|destruct (Nat.ltb _ 8); [|destruct (negb (passwordPolicy p))]]|];
      cbn [In]; intros H; try contradiction;
      destruct H as [<-|[]]; reflexivity.
  - unfold emailErrors. intros e.
    destruct v as [m|];
      [destruct (negb (Js.truthy (sanitizeEmail m)));
       [|destruct (negb (isValidEmail (sanitizeEmail m)))]|];
      cbn [In]; intros H; try contradiction;
      destruct H as [<-|[]]; [left|right|left]; split; reflexivity.
  - intros P env body db errors Hv.
    unfold signup. fold (registrationData body). rewrite Hv. reflexivity.
Qed.

End ValidationFacts.

(** ** The diary service *)

Section DiaryFacts.
Import SymptomEntryService Invariant MoreNotions.

Lemma insertByTimestamp_perm (e : SymptomDoc) (l : list SymptomDoc) :
  Permutation (insertByTimestamp e l) (e :: l).
Proof.
  induction l as [|x l IH]; cbn; [apply Permutation_refl|].
  destruct (se_timestamp x <? se_timestamp e); [apply Permutation_refl|].
  eapply perm_trans; [apply perm_skip; exact IH|apply perm_swap].
Qed.

Lemma sortByTimestampDesc_perm (l : list SymptomDoc) :
  Permutation (sortByTimestampDesc l) l.
Proof.
  induction l as [|x l IH]; cbn; [constructor|].
  eapply perm_trans; [apply insertByTimestamp_perm|].
  apply perm_skip. exact IH.
Qed.

Lemma insertByTimestamp_sorted (e : SymptomDoc) (l : list SymptomDoc) :
  StronglySorted newerOrEqual l ->
  StronglySorted newerOrEqual (insertByTimestamp e l).
Proof.
  induction l as [|x l IH]; cbn; intros Hs.
  - constructor; constructor.
  - apply StronglySorted_inv in Hs. destruct Hs as [Hl Hx].
    destruct (Z.ltb_spec (se_timestamp x) (se_timestamp e)) as [Hlt|Hge].
    + constructor; [constructor; assumption|].
      constructor; [unfold newerOrEqual; lia|].
      eapply Forall_impl; [|exact Hx].
      unfold newerOrEqual. intros y Hy. lia.
    + constructor; [apply IH; exact Hl|].
      eapply Permutation_Forall;
        [apply Permutation_sym, insertByTimestamp_perm|].
      constructor; [exact Hge|exact Hx].
Qed.

Lemma sortByTimestampDesc_sorted (l : list SymptomDoc) :
  StronglySorted newerOrEqual (sortByTimestampDesc l).
Proof.
  induction l as [|x l IH]; cbn; [constructor|].
  apply insertByTimestamp_sorted. exact IH.
Qed.

(** X4. [getUserEntries] always succeeds, writes nothing, and returns
    exactly the entries of the user (each once, no entry of another
    user), the newest first. *)
Theorem X4_getUserEntries_newest_first (userId : string) (db : Db) :
  exists l,
    getUserEntries userId db
    = (succeeded (Some (ManyEntries l))
         "Symptom entries retrieved successfully", db)
    /\ Permutation l
         (filter (fun e => String.eqb (se_userId e) userId) (symptoms db))
    /\ (forall e, In e l <-> In e (symptoms db) /\ se_userId e = userId)
    /\ StronglySorted newerOrEqual l.
Proof.
  exists (sortByTimestampDesc (SymptomEntryService.find userId db)).
  split; [reflexivity|]. split; [apply sortByTimestampDesc_perm|].
  split; [|apply sortByTimestampDesc_sorted].
  intros e. unfold SymptomEntryService.find. split.
  - intros H.
    apply (Permutation_in _ (sortByTimestampDesc_perm _)) in H.
    apply filter_In in H. rewrite String.eqb_eq in H. exact H.
  - intros [H1 H2].
    apply (Permutation_in _ (Permutation_sym (sortByTimestampDesc_perm _))).
    apply filter_In. rewrite String.eqb_eq. auto.
Qed.

Lemma filter_other (a b : string) (l : list SymptomDoc) :
  a <> b ->
  filter (fun e => String.eqb (se_userId e) a)
    (filter (fun e => negb (String.eqb (se_userId e) b)) l)
  = filter (fun e => String.eqb (se_userId e) a) l.
Proof.
  intros Hne. induction l as [|e l IH]; [reflexivity|].
  cbn [filter]. destruct (String.eqb_spec (se_userId e) b) as [E|E];
    cbn [negb filter].
  - rewrite IH, E. apply not_eq_sym, String.eqb_neq in Hne.
    rewrite Hne. reflexivity.
  - rewrite IH. reflexivity.
Qed.

Lemma filter_self (a : string) (l : list SymptomDoc) :
  filter (fun e => String.eqb (se_userId e) a)
    (filter (fun e => negb (String.eqb (se_userId e) a)) l) = [].
Proof.
  induction l as [|e l IH]; [reflexivity|].
  cbn [filter]. destruct (String.eqb (se_userId e) a) eqn:E; cbn [negb filter].
  - exact IH.
  - rewrite E. exact IH.
Qed.

(** X5. [clearUserEntries] always succeeds; after it [getUserEntries]
    returns the empty list for that user and, for every other user, what
    it returned before; users and progress records are not touched. *)
Theorem X5_clearUserEntries_then_list (userId : string) (db : Db) :
  let db' := snd (clearUserEntries userId db) in
  fst (clearUserEntries userId db)
  = succeeded None "All symptom entries cleared successfully"
  /\ fst (getUserEntries userId db')
     = succeeded (Some (ManyEntries []))
         "Symptom entries retrieved successfully"
  /\ (forall other, other <> userId ->
        fst (getUserEntries other db') = fst (getUserEntries other db))
  /\ users db' = users db /\ progress db' = progress db.
Proof.
  cbn zeta. unfold clearUserEntries, getUserEntries,
    SymptomEntryService.find, SymptomEntryService.deleteMany.
  cbn [fst snd symptoms withSymptoms users progress].
  split; [reflexivity|]. split; [rewrite filter_self; reflexivity|].
  split; [|split; reflexivity].
  intros other Hne. rewrite filter_other by exact Hne. reflexivity.
Qed.

(** With unique ids, the owner's filter selects the entry itself. *)
Lemma updateFirst_own g (l : list SymptomDoc) (e : SymptomDoc) :
  nodupb N.eqb (map se_id l) = true ->
  In e l ->
  SymptomEntryService.updateFirst (owned (se_id e) (se_userId e)) g l
  = Some (g e, map (fun x => if N.eqb (se_id x) (se_id e) then g e else x) l).
Proof.
  intros Hnd He. induction l as [|x l IH]; [contradiction|].
  cbn [SymptomEntryService.updateFirst map].
  destruct (N.eqb_spec (se_id x) (se_id e)) as [Hid|Hid].
  - assert (x = e) by
      (apply (nodupb_In_eq (x :: l)); cbn; auto). subst x.
    unfold owned. rewrite N.eqb_refl, String.eqb_refl. cbn [andb].
    f_equal. f_equal. f_equal.
    cbn in Hnd. apply andb_prop in Hnd. destruct Hnd as [Hx _].
    apply negb_true_iff in Hx. clear IH He.
    induction l as [|y l IHl]; [reflexivity|].
    cbn in Hx |- *. apply orb_false_iff in Hx. destruct Hx as [Hy Hl].
    rewrite N.eqb_sym, Hy, <- (IHl Hl). reflexivity.
  - unfold owned at 1. apply N.eqb_neq in Hid. rewrite Hid. cbn [andb].
    destruct He as [->|He]; [apply N.eqb_neq in Hid; congruence|].
    cbn in Hnd. apply andb_prop in Hnd. destruct Hnd as [_ Hl].
    rewrite (IH Hl He). reflexivity.
Qed.

Lemma removeFirst_own (l : list SymptomDoc) (e : SymptomDoc) :
  nodupb N.eqb (map se_id l) = true ->
  In e l ->
  removeFirst (owned (se_id e) (se_userId e)) l
  = Some (e, filter (fun x => negb (N.eqb (se_id x) (se_id e))) l).
Proof.
  intros Hnd He. induction l as [|x l IH]; [contradiction|].
  cbn [removeFirst filter].
  destruct (N.eqb_spec (se_id x) (se_id e)) as [Hid|Hid].
  - assert (x = e) by
      (apply (nodupb_In_eq (x :: l)); cbn; auto). subst x.
    unfold owned. rewrite N.eqb_refl, String.eqb_refl. cbn [andb negb].
    f_equal. f_equal.
    cbn in Hnd. apply andb_prop in Hnd. destruct Hnd as [Hx _].
    apply negb_true_iff in Hx. clear IH He.
    induction l as [|y l IHl]; [reflexivity|].
    cbn in Hx |- *. apply orb_false_iff in Hx. destruct Hx as [Hy Hl].
    rewrite N.eqb_sym, Hy. cbn. rewrite <- (IHl Hl). reflexivity.
  - unfold owned at 1. apply N.eqb_neq in Hid. rewrite Hid. cbn [andb negb].
    destruct He as [->|He]; [apply N.eqb_neq in Hid; congruence|].
    cbn in Hnd. apply andb_prop in Hnd. destruct Hnd as [_ Hl].
    rewrite (IH Hl He). reflexivity.
Qed.

End DiaryFacts.

Section DiaryOwner.
Import SymptomEntryService Invariant MoreNotions.

(** X8. An update by the owner of a stored entry answers with the updated
    entry: the supplied fields are overwritten as given - no validator
    runs, so a pain level outside 0..10 is stored - and [updatedAt] is
    set; id, owner and timestamps of creation are kept, every other entry
    of the diary is left as it was, and the ids stay unique. *)
Theorem X8_updateEntry_own (env : Env) (userId entryId : string)
        (d : SymptomEntryRequest) (db : Db) (e : SymptomDoc) :
  uniqueSymptomIds db = true ->
  In e (symptoms db) ->
  castObjectId entryId = Some (se_id e) ->
  se_userId e = userId ->
  let e' := applyUpdate d (now env) e in
  let db' := snd (updateEntry env userId entryId d db) in
  fst (updateEntry env userId entryId d db)
  = succeeded (Some (OneEntry e')) "Symptom entry updated successfully"
  /\ symptoms db'
     = map (fun x => if N.eqb (se_id x) (se_id e) then e' else x) (symptoms db)
  /\ (forall n, req_painLevel d = Some n -> se_painLevel e' = n)
  /\ (se_id e' = se_id e /\ se_userId e' = userId
      /\ se_timestamp e' = se_timestamp e /\ se_createdAt e' = se_createdAt e
      /\ se_updatedAt e' = now env)
  /\ users db' = users db /\ progress db' = progress db
  /\ uniqueSymptomIds db' = true.
Proof.
  intros Hinv He Hc Hu. cbn zeta.
  pose proof Hinv as Hinv'. unfold uniqueSymptomIds in Hinv'.
  apply andb_prop in Hinv'. destruct Hinv' as [Hnd _].
  unfold updateEntry, SymptomEntryService.findOneAndUpdate.
  rewrite Hc, <- Hu, (updateFirst_own _ _ _ Hnd He).
  cbn [fst snd symptoms withSymptoms users progress].
  split; [reflexivity|]. split; [reflexivity|].
  split; [intros n Hn; cbn; rewrite Hn; reflexivity|].
  split; [repeat split|]. split; [reflexivity|]. split; [reflexivity|].
  unfold uniqueSymptomIds. cbn [symptoms withSymptoms next_oid].
  replace (map se_id (map _ (symptoms db))) with (map se_id (symptoms db));
    [exact Hinv|].
  rewrite map_map. apply map_ext. intros x.
  destruct (N.eqb_spec (se_id x) (se_id e)) as [E|E]; [|reflexivity].
  cbn. exact E.
Qed.

(** X9. A delete by the owner of a stored entry succeeds and removes that
    entry and no other; a second delete of the same id is answered
    [Symptom entry not found] and writes nothing. *)
Theorem X9_deleteEntry_own (userId entryId : string) (db : Db)
        (e : SymptomDoc) :
  uniqueSymptomIds db = true ->
  In e (symptoms db) ->
  castObjectId entryId = Some (se_id e) ->
  se_userId e = userId ->
  let db' := snd (deleteEntry userId entryId db) in
  fst (deleteEntry userId entryId db)
  = succeeded None "Symptom entry deleted successfully"
  /\ symptoms db'
     = filter (fun x => negb (N.eqb (se_id x) (se_id e))) (symptoms db)
  /\ (forall x, In x (symptoms db') <-> In x (symptoms db) /\ x <> e)
  /\ users db' = users db /\ progress db' = progress db
  /\ deleteEntry userId entryId db' = (failed "Symptom entry not found", db').
Proof.
  intros Hinv He Hc Hu. cbn zeta.
  unfold uniqueSymptomIds in Hinv.
  apply andb_prop in Hinv. destruct Hinv as [Hnd _].
  unfold deleteEntry, findOneAndDelete.
  rewrite Hc, <- Hu, (removeFirst_own _ _ Hnd He).
  cbn [fst snd symptoms withSymptoms users progress].
  split; [reflexivity|]. split; [reflexivity|].
  split; [|split; [reflexivity|split; [reflexivity|]]].
  - intros x. rewrite filter_In, negb_true_iff, N.eqb_neq. split.
    + intros [Hx Hid]. split; [exact Hx|]. intros ->. apply Hid. reflexivity.
    + intros [Hx Hne]. split; [exact Hx|]. intros Hid. apply Hne.
      exact (nodupb_In_eq _ _ _ Hnd Hx He Hid).
  - rewrite removeFirst_none; [reflexivity|].
    intros x Hx. apply filter_In in Hx. destruct Hx as [_ Hx].
    apply negb_true_iff in Hx. unfold owned. rewrite Hx. reflexivity.
Qed.

(** X10. A valid entry is stored with a fresh id and the time of the
    request as its timestamp, and from then on [getUserEntries] lists it
    together with the entries the user had; the lists of the other users
    do not change. An invalid entry is answered with a failure and the
    diary is left as it was. *)
Theorem X10_createEntry_then_list (env : Env) (userId : string)
        (d : SymptomEntryRequest) (db : Db) :
  let e := newEntry (next_oid db) (now env) userId d in
  let db' := snd (createEntry env userId d db) in
  (SymptomEntryService.validationErrors userId d = [] ->
     fst (createEntry env userId d db)
     = succeeded (Some (OneEntry e)) "Symptom entry created successfully"
     /\ symptoms db' = (symptoms db ++ [e])%list
     /\ (exists l,
           fst (getUserEntries userId db')
           = succeeded (Some (ManyEntries l))
               "Symptom entries retrieved successfully"
           /\ In e l
           /\ Permutation l (e :: SymptomEntryService.find userId db))
     /\ (forall other, other <> userId ->
           fst (getUserEntries other db') = fst (getUserEntries other db)))
  /\ (SymptomEntryService.validationErrors userId d <> [] ->
        fst (createEntry env userId d db)
        = failed "Failed to create symptom entry"
        /\ symptoms db' = symptoms db)
  /\ users db' = users db /\ progress db' = progress db.
Proof.
  cbn zeta. unfold createEntry, save. cbn [freshOid].
  destruct (SymptomEntryService.validationErrors userId d) as [|m ms] eqn:Ev.
  - cbn [fst snd symptoms withSymptoms users progress].
    split; [|split; [intros H; contradiction H; reflexivity
                    |split; reflexivity]].
    intros _. split; [reflexivity|]. split; [reflexivity|].
    unfold getUserEntries, SymptomEntryService.find.
    cbn [fst symptoms withSymptoms]. split.
    + eexists. split; [reflexivity|].
      rewrite filter_app. cbn [filter newEntry se_userId].
      rewrite String.eqb_refl.
      assert (Hp : Permutation
                (sortByTimestampDesc
                   (filter (fun e => String.eqb (se_userId e) userId)
                      (symptoms db)
                    ++ [newEntry (next_oid db) (now env) userId d]))
                (newEntry (next_oid db) (now env) userId d
                 :: filter (fun e => String.eqb (se_userId e) userId)
                      (symptoms db))).
      { eapply perm_trans; [apply sortByTimestampDesc_perm|].
        apply Permutation_sym, Permutation_cons_append. }
      split; [|exact Hp].
      apply (Permutation_in _ (Permutation_sym Hp)). left. reflexivity.
    + intros other Hne. rewrite filter_app. cbn [filter newEntry se_userId].
      apply not_eq_sym, String.eqb_neq in Hne. rewrite Hne, app_nil_r.
      reflexivity.
  - cbn [throw fst snd symptoms users progress].
    split; [intros H; discriminate H|].
    split; [intros _; split; reflexivity|split; reflexivity].
Qed.

End DiaryOwner.

Section DiarySamples.
Import SymptomEntryService Invariant MoreNotions.

Lemma X8_witness :
  fst (updateEntry Toy.env Examples.sarahId MoreExamples.sarahEntryId
         (Examples.pain 11) Examples.withDiary)
  = succeeded
      (Some (OneEntry
               (applyUpdate (Examples.pain 11) (now Toy.env)
                  MoreExamples.sarahEntry)))
      "Symptom entry updated successfully".
Proof.
  refine (proj1 (X8_updateEntry_own Toy.env Examples.sarahId
                   MoreExamples.sarahEntryId (Examples.pain 11)
                   Examples.withDiary MoreExamples.sarahEntry _ _ _ _)).
  - vm_compute. reflexivity.
  - vm_compute. left. reflexivity.
  - vm_compute. reflexivity.
  - reflexivity.
Defined.

Lemma X9_witness :
  symptoms (snd (deleteEntry Examples.sarahId MoreExamples.sarahEntryId
                   Examples.withDiary)) = [].
Proof.
  refine (eq_trans
            (proj1 (proj2 (X9_deleteEntry_own Examples.sarahId
                             MoreExamples.sarahEntryId Examples.withDiary
                             MoreExamples.sarahEntry _ _ _ _))) _).
  - vm_compute. reflexivity.
  - vm_compute. left. reflexivity.
  - vm_compute. reflexivity.
  - reflexivity.
  - vm_compute. reflexivity.
Defined.

End DiarySamples.

(** ** The progress service *)

Section ProgressFacts.
Import BrochureProgressService SectionProgress Invariant.

Lemma filter_filter_progress (f g : ProgressDoc -> bool)
      (l : list ProgressDoc) :
  filter f (filter g l) = filter (fun p => (g p && f p)%bool) l.
Proof.
  induction l as [|p l IH]; [reflexivity|].
  cbn [filter]. destruct (g p); cbn [andb filter]; rewrite IH; reflexivity.
Qed.

(** An in-place update of documents selected by [f] is invisible to a
    query [q] that selects none of them, before or after the update. *)
Lemma updateFirst_frame (f q : ProgressDoc -> bool) g
      (l : list ProgressDoc) r l' :
  (forall p, f p = true -> q p = false /\ q (g p) = false) ->
  BrochureProgressService.updateFirst f g l = Some (r, l') ->
  filter q l' = filter q l.
Proof.
  intros Hq. revert r l'. induction l as [|p l IH]; intros r l'; cbn;
    [discriminate|].
  destruct (f p) eqn:Hf.
  - intros [= <- <-]. destruct (Hq p Hf) as [H1 H2].
    cbn [filter]. rewrite H1, H2. reflexivity.
  - destruct (BrochureProgressService.updateFirst f g l) as [[r0 l0]|];
      [|discriminate].
    intros [= <- <-]. cbn [filter]. rewrite (IH r0 l0 eq_refl). reflexivity.
Qed.

(** What an upsert with key [(u, s, i)] leaves alone. *)
Lemma findOneAndUpdate_frame env u s i c n db (q : ProgressDoc -> bool) :
  (forall p, sameKey u s i p = true -> q p = false) ->
  filter q (progress (snd (findOneAndUpdate env u s i c n db)))
  = filter q (progress db).
Proof.
  intros Hq. unfold findOneAndUpdate.
  destruct (BrochureProgressService.updateFirst (sameKey u s i)
              (applyUpdate c n (now env)) (progress db))
    as [[r l']|] eqn:E.
  - cbn [snd progress withProgress].
    apply (updateFirst_frame _ q _ _ _ _ (fun p Hp =>
             conj (Hq p Hp) (Hq (applyUpdate c n (now env) p) Hp)) E).
  - cbn [freshOid snd progress withProgress].
    rewrite filter_app. cbn [filter].
    rewrite (Hq _ (sameKey_refl u s i c n (now env) (next_oid db))).
    apply app_nil_r.
Qed.

(** X6. An upsert touches the record of its key only: the records with
    another key, the progress lists of the other users, the lists of the
    user's other sections, the users and the diary are what they were. *)
Theorem X6_updateProgress_frame (env : Env) (u s i : string) (c : bool)
        (n : option string) (db : Db) :
  let db' := snd (updateProgress env u s i c n db) in
  filter (fun p => negb (sameKey u s i p)) (progress db')
  = filter (fun p => negb (sameKey u s i p)) (progress db)
  /\ (forall other, other <> u ->
        fst (getUserProgress other db') = fst (getUserProgress other db))
  /\ (forall s', s' <> s ->
        fst (getSectionProgress u s' db') = fst (getSectionProgress u s' db))
  /\ users db' = users db /\ symptoms db' = symptoms db.
Proof.
  cbn zeta.
  assert (Hsnd : forall q : ProgressDoc -> bool,
             (forall p, sameKey u s i p = true -> q p = false) ->
             filter q (progress (snd (updateProgress env u s i c n db)))
             = filter q (progress db)).
  { intros q Hq. rewrite <- (findOneAndUpdate_frame env u s i c n db q Hq).
    unfold updateProgress.
    destruct (findOneAndUpdate env u s i c n db) as [[r|err] db'];
      reflexivity. }
  split; [apply Hsnd; intros p Hp; rewrite Hp; reflexivity|].
  split; [|split].
  - intros other Hne. unfold getUserProgress, BrochureProgressService.find.
    cbn [fst]. rewrite Hsnd; [reflexivity|].
    intros p Hp. unfold sameKey in Hp.
    apply andb_prop in Hp. destruct Hp as [Hp _].
    apply andb_prop in Hp. destruct Hp as [Hp _].
    apply String.eqb_eq in Hp. rewrite Hp.
    apply String.eqb_neq. apply not_eq_sym. exact Hne.
  - intros s' Hne. unfold getSectionProgress, findSection.
    cbn [fst]. rewrite Hsnd; [reflexivity|].
    intros p Hp. unfold sameKey in Hp.
    apply andb_prop in Hp. destruct Hp as [Hp _].
    apply andb_prop in Hp. destruct Hp as [_ Hp].
    apply String.eqb_eq in Hp. rewrite Hp.
    apply not_eq_sym, String.eqb_neq in Hne. rewrite Hne.
    apply andb_false_r.
  - unfold updateProgress, findOneAndUpdate.
    destruct (BrochureProgressService.updateFirst _ _ (progress db))
      as [[r l']|]; split; reflexivity.
Qed.

(** X7. Reading back a write: on a store that satisfies the unique index,
    after [updateProgress] for item [i] of section [s] the section list
    of the user holds exactly one record for the item, the one the call
    returned, with the [completed] flag of the call; the list of the
    section is the part of the user's list with that [sectionId]; the
    unique index still holds. *)
Theorem X7_updateProgress_read_back (env : Env) (u s i : string) (c : bool)
        (n : option string) (db : Db) :
  uniqueProgressKeys db = true ->
  exists r db',
    updateProgress env u s i c n db
    = ({| pr_success := true; pr_data := Some (OneProgress r);
          pr_message := "Progress updated successfully" |}, db')
    /\ progressKey r = (u, s, i) /\ p_completed r = c
    /\ filter (fun p => String.eqb (p_itemId p) i) (findSection u s db') = [r]
    /\ findSection u s db'
       = filter (fun p => String.eqb (p_sectionId p) s)
           (BrochureProgressService.find u db')
    /\ In r (BrochureProgressService.find u db')
    /\ uniqueProgressKeys db' = true.
Proof.
  intros Hu.
  destruct (findOneAndUpdate_spec env db u s i c n Hu)
    as (r & db' & E & F & U & C & _).
  exists r, db'. unfold updateProgress. rewrite E.
  assert (Hr : In r (filter (sameKey u s i) (progress db')))
    by (rewrite F; left; reflexivity).
  apply filter_In in Hr. destruct Hr as [Hin Hk].
  split; [reflexivity|]. split.
  { rewrite sameKey_keyEqb in Hk. apply keyEqb_eq in Hk. exact Hk. }
  split; [exact C|]. split.
  { unfold findSection. rewrite filter_filter_progress. exact F. }
  split.
  { unfold findSection, BrochureProgressService.find.
    rewrite filter_filter_progress. reflexivity. }
  split; [|exact U].
  unfold BrochureProgressService.find. apply filter_In. split; [exact Hin|].
  unfold sameKey in Hk. apply andb_prop in Hk. destruct Hk as [Hk _].
  apply andb_prop in Hk. destruct Hk as [Hk _]. exact Hk.
Qed.

Lemma nodupb_keys_filter (f : ProgressDoc -> bool) (l : list ProgressDoc) :
  nodupb keyEqb (map progressKey l) = true ->
  nodupb keyEqb (map progressKey (filter f l)) = true.
Proof.
  induction l as [|p l IH]; cbn [filter map nodupb]; [reflexivity|].
  intros H. apply andb_prop in H. destruct H as [Hp Hl].
  destruct (f p); [|exact (IH Hl)].
  cbn [map nodupb]. rewrite (IH Hl), andb_true_r.
  apply negb_true_iff. apply negb_true_iff in Hp.
  revert Hp. clear. induction l as [|x l IH]; cbn; [reflexivity|].
  intros H. apply orb_false_iff in H. destruct H as [Hx Hl].
  destruct (f x); cbn; [rewrite Hx|]; exact (IH Hl).
Qed.

(** X11. [resetProgress] always succeeds; afterwards the user has no
    progress record, in total or in any section; the records of the other
    users, the users and the diary are untouched, and the unique index is
    kept. *)
Theorem X11_resetProgress_then_read (userId : string) (db : Db) :
  let db' := snd (resetProgress userId db) in
  fst (resetProgress userId db)
  = {| pr_success := true; pr_data := None;
       pr_message := "Progress reset successfully" |}
  /\ fst (getUserProgress userId db')
     = {| pr_success := true; pr_data := Some (ManyProgress []);
          pr_message := "Progress retrieved successfully" |}
  /\ (forall s,
        fst (getSectionProgress userId s db')
        = {| pr_success := true; pr_data := Some (ManyProgress []);
             pr_message := "Section progress retrieved successfully" |})
  /\ (forall other, other <> userId ->
        fst (getUserProgress other db') = fst (getUserProgress other db))
  /\ users db' = users db /\ symptoms db' = symptoms db
  /\ (uniqueProgressKeys db = true -> uniqueProgressKeys db' = true).
Proof.
  cbn zeta. unfold resetProgress, getUserProgress, getSectionProgress,
    BrochureProgressService.find, findSection,
    BrochureProgressService.deleteMany, uniqueProgressKeys.
  cbn [fst snd progress withProgress users symptoms].
  split; [reflexivity|].
  assert (Hnone : forall g : ProgressDoc -> bool,
             filter (fun p => (String.eqb (p_userId p) userId && g p)%bool)
               (filter (fun p => negb (String.eqb (p_userId p) userId))
                  (progress db)) = []).
  { intros g. induction (progress db) as [|p l IH]; [reflexivity|].
    cbn [filter]. destruct (String.eqb (p_userId p) userId) eqn:E;
      cbn [negb filter]; [exact IH|]. rewrite E. exact IH. }
  split.
  { rewrite <- (Hnone (fun _ => true)) at 1.
    rewrite (filter_ext _ (fun p => (String.eqb (p_userId p) userId && true)%bool)
               (fun p => eq_sym (andb_true_r _))).
    reflexivity. }
  split; [intros s; rewrite Hnone; reflexivity|].
  split; [|split; [reflexivity|split; [reflexivity|apply nodupb_keys_filter]]].
  intros other Hne.
  assert (Hother :
            filter (fun p => String.eqb (p_userId p) other)
              (filter (fun p => negb (String.eqb (p_userId p) userId))
                 (progress db))
            = filter (fun p => String.eqb (p_userId p) other) (progress db)).
  { clear Hnone. induction (progress db) as [|p l IH]; [reflexivity|].
    cbn [filter]. destruct (String.eqb_spec (p_userId p) userId) as [E|E];
      cbn [negb filter].
    - rewrite IH, E. apply not_eq_sym, String.eqb_neq in Hne.
      rewrite Hne. reflexivity.
    - rewrite IH. reflexivity. }
  rewrite Hother. reflexivity.
Qed.

End ProgressFacts.

Section ProgressSamples.
Import BrochureProgressService SectionProgress Invariant.

Lemma X7_witness :
  exists r db',
    updateProgress Toy.env "u1" "section-1" "item-1" true None emptyDb
    = ({| pr_success := true; pr_data := Some (OneProgress r);
          pr_message := "Progress updated successfully" |}, db')
    /\ progressKey r = ("u1", "section-1", "item-1") /\ p_completed r = true
    /\ filter (fun p => String.eqb (p_itemId p) "item-1")
         (findSection "u1" "section-1" db') = [r]
    /\ findSection "u1" "section-1" db'
       = filter (fun p => String.eqb (p_sectionId p) "section-1")
           (BrochureProgressService.find "u1" db')
    /\ In r (BrochureProgressService.find "u1" db')
    /\ uniqueProgressKeys db' = true.
Proof.
  exact (X7_updateProgress_read_back Toy.env "u1" "section-1" "item-1" true
           None emptyDb eq_refl).
Defined.

End ProgressSamples.

(** ** The gates *)

Section GateFacts.
Context {P : Platform}.
Import UserModel AuthMiddleware OptionalAuth Notions.

(** X12. The answers of the gate. When [authenticateToken] lets a request
    pass, [req.user] is the projection of a stored user and [optionalAuth]
    attaches the same user; when it rejects, [optionalAuth] attaches no
    user, and the rejection is one of four: 401 [Access token required],
    401 [Invalid token], 401 [User not found], 500 [Authentication
    failed]. [Token expired] is never answered: an expired token is an
    instance of [JsonWebTokenError] and is answered [Invalid token]. *)
Theorem X12_gate_answers (env : Env) (authorization : option string)
        (db : Db) :
  match authenticateToken env authorization db with
  | Next user =>
      optionalAuth env authorization db = Some user
      /\ exists u, In u (users db) /\ user = reqUserOf u
  | Rejected r =>
      optionalAuth env authorization db = None
      /\ (r = respond 401 (BGate "Access token required")
          \/ r = respond 401 (BGate "Invalid token")
          \/ r = respond 401 (BGate "User not found")
          \/ r = respond 500 (BGate "Authentication failed"))
  end
  /\ (forall token e,
        bearerToken authorization = Some token ->
        Js.truthy token = true ->
        jwt_verify token (now env) = Throw e ->
        err_class e = TokenExpiredError ->
        authenticateToken env authorization db
        = Rejected (respond 401 (BGate "Invalid token"))).
Proof.
  split.
  - unfold authenticateToken, optionalAuth.
    destruct (negb (Js.truthyOpt (bearerToken authorization)));
      [split; [reflexivity|left; reflexivity]|].
    destruct (jwt_verify _ (now env)) as [decoded|e].
    + unfold findByIdString.
      destruct (castObjectId (jp_userId decoded)) as [oid|].
      * unfold bind, getDb, ret. cbn beta iota.
        destruct (findById oid db) as [u|] eqn:Hf.
        -- split; [reflexivity|]. exists u. split; [|reflexivity].
           unfold findById in Hf. apply find_some in Hf. apply Hf.
        -- split; [reflexivity|]. right. right. left. reflexivity.
      * unfold throw. cbn.
        split; [reflexivity|]. right. right. right. reflexivity.
    + destruct (instanceofJsonWebTokenError e) eqn:Hj.
      * split; [reflexivity|]. right. left. reflexivity.
      * assert (Ht : instanceofTokenExpiredError e = false).
        { unfold instanceofJsonWebTokenError in Hj.
          unfold instanceofTokenExpiredError.
          destruct (err_class e); try reflexivity; discriminate. }
        rewrite Ht. split; [reflexivity|]. right. right. right. reflexivity.
  - intros token e Hb Ht Hv Hc. unfold authenticateToken.
    rewrite Hb. cbn [Js.truthyOpt]. rewrite Ht. cbn [negb]. rewrite Hv.
    unfold instanceofJsonWebTokenError. rewrite Hc. reflexivity.
Qed.

End GateFacts.

Section GateSamples.
Import AuthMiddleware.

Lemma X12_witness :
  let expired : Platform :=
    {| bcrypt_hashSync := Toy.hashSync;
       bcrypt_compareSync := Toy.compareSync;
       jwt_sign := Toy.sign;
       jwt_verify := fun _ _ =>
         Throw {| err_class := TokenExpiredError;
                  err_message := "jwt expired" |};
       date_parse := Toy.parseDate |} in
  authenticateToken (P := expired) Toy.env Examples.bearer Examples.registered
  = Rejected (respond 401 (BGate "Invalid token")).
Proof.
  intros expired.
  exact (proj2 (X12_gate_answers (P := expired) Toy.env Examples.bearer
                  Examples.registered)
           Examples.sarahToken
           {| err_class := TokenExpiredError; err_message := "jwt expired" |}
           eq_refl eq_refl eq_refl eq_refl).
Defined.

End GateSamples.

(** ** Accounts *)

Section AccountFacts.
Context {P : Platform}.
Import ValidationService UserModel AuthService AuthController.
Import Invariant Notions MoreNotions.

(** What [register] does to the database, whatever it returns. *)
Lemma register_effect env data db :
  let r := fst (register env data db) in
  let db' := snd (register env data db) in
  progress db' = progress db /\ symptoms db' = symptoms db
  /\ ((users db' = users db
       /\ (next_oid db' = next_oid db \/ next_oid db' = N.succ (next_oid db))
       /\ exists e, r = Throw e)
      \/ (exists u,
            users db' = (users db ++ [u])%list
            /\ u = registeredUser env data db
            /\ next_oid db' = N.succ (next_oid db)
            /\ existsb (fun v => String.eqb (u_email v) (u_email u)) (users db)
               = false
            /\ r = Ok (authResponse env u))).
Proof.
  cbn zeta. unfold register, bind, getDb.
  destruct (findOneByEmail (reg_email data) db) as [u0|].
  - unfold throw. cbn [fst snd]. split; [reflexivity|]. split; [reflexivity|].
    left. split; [reflexivity|]. split; [left; reflexivity|].
    eexists. reflexivity.
  - unfold newObjectId. cbn [freshOid]. unfold saveNew, bind, validate.
    destruct (validationErrors true _) as [|m ms].
    + unfold ret, getDb. cbn [users].
      match goal with
      | |- context [existsb ?f (users db)] =>
          destruct (existsb f (users db)) eqn:Hex
      end.
      * unfold throw. cbn [fst snd progress symptoms users next_oid].
        split; [reflexivity|]. split; [reflexivity|].
        left. split; [reflexivity|]. split; [right; reflexivity|].
        eexists. reflexivity.
      * unfold putDb, ret.
        cbn [fst snd progress symptoms users next_oid withUsers].
        split; [reflexivity|]. split; [reflexivity|].
        right. eexists. split; [reflexivity|]. split; [reflexivity|].
        split; [reflexivity|]. split; [exact Hex|reflexivity].
    + unfold throw. cbn [fst snd progress symptoms users next_oid].
      split; [reflexivity|]. split; [reflexivity|].
      left. split; [reflexivity|]. split; [right; reflexivity|].
      eexists. reflexivity.
Qed.

Lemma existsb_false_In {A} (f : A -> bool) (l : list A) (x : A) :
  existsb f l = false -> In x l -> f x = false.
Proof.
  induction l as [|y l IH]; cbn; [contradiction|].
  intros H. apply orb_false_iff in H. destruct H as [Hy Hl].
  intros [<-|Hx]; [exact Hy|exact (IH Hl Hx)].
Qed.

(** X13. [signup] answers 201, 400, 409 or 500. On 201 exactly one user
    has been appended, with a fresh id and an e-mail address no stored
    user had; on every other answer the users are what they were. The
    diary and the progress records are never touched, and ids and e-mail
    addresses stay unique. *)
Theorem X13_signup_effect (env : Env) (body : SignupBody) (db : Db) :
  uniqueUserIds db = true ->
  uniqueEmails db = true ->
  let r := fst (signup env body db) in
  let db' := snd (signup env body db) in
  (status r = 201 \/ status r = 400 \/ status r = 409 \/ status r = 500)
  /\ (status r = 201 ->
        exists u,
          users db' = (users db ++ [u])%list
          /\ u_id u = next_oid db
          /\ (forall v, In v (users db) ->
                u_id v <> u_id u /\ u_email v <> u_email u))
  /\ (status r <> 201 -> users db' = users db)
  /\ progress db' = progress db /\ symptoms db' = symptoms db
  /\ uniqueUserIds db' = true /\ uniqueEmails db' = true.
Proof.
  intros Hids Hmails. cbn zeta. unfold signup.
  destruct (validateRegistration _) as [sd|errors].
  2: { cbn [fst snd status validationFailed respond].
       split; [right; left; reflexivity|].
       split; [intros H; discriminate H|].
       repeat split; assumption. }
  pose proof (register_effect env
                {| reg_email := s_email sd; reg_password := s_password sd;
                   reg_firstName := s_firstName sd;
                   reg_lastName := s_lastName sd |} db) as He.
  cbn zeta in He.
  destruct (register env _ db) as [[a|e] db'].
  - cbn [fst snd] in He |- *. destruct He as (Hp & Hs & [He|He]).
    { destruct He as (_ & _ & e & He). discriminate He. }
    destruct He as (u & Hu & Hreg & Hn & Hex & _).
    assert (Hid : u_id u = next_oid db).
    { rewrite Hreg. unfold registeredUser, preSave. cbn [negb].
      reflexivity. }
    unfold uniqueUserIds in Hids. apply andb_prop in Hids.
    destruct Hids as [Hnd Hb].
    cbn [status respond].
    split; [left; reflexivity|]. split.
    { intros _. exists u. split; [exact Hu|]. split; [exact Hid|].
      intros v Hv. split.
      - rewrite Hid. intros E.
        pose proof (existsb_false_In _ _ (u_id v) (belowb_absent _ _ Hb)
                      (in_map u_id _ _ Hv)) as Habs.
        apply N.eqb_neq in Habs. contradiction.
      - apply String.eqb_neq. exact (existsb_false_In _ _ v Hex Hv). }
    split; [intros H; contradiction H; reflexivity|].
    split; [exact Hp|]. split; [exact Hs|]. split.
    + unfold uniqueUserIds. rewrite Hu, Hn, map_app. cbn [map].
      apply andb_true_intro. split.
      * apply nodupb_snoc; [exact Hnd|]. rewrite Hid.
        apply belowb_absent. exact Hb.
      * unfold belowb. rewrite forallb_app. apply andb_true_intro. split.
        -- apply belowb_succ. exact Hb.
        -- cbn. rewrite andb_true_r, Hid. apply N.ltb_lt. lia.
    + unfold uniqueEmails. rewrite Hu, map_app. cbn [map].
      apply nodupb_snoc; [exact Hmails|].
      rewrite <- Hex. clear.
      induction (users db) as [|v l IH]; cbn; [reflexivity|].
      rewrite IH. reflexivity.
  - cbn [fst snd] in He. destruct He as (Hp & Hs & [He|He]).
    2: { destruct He as (u & _ & _ & _ & _ & He). discriminate He. }
    destruct He as (Hu & Hn & _).
    assert (Hinv : uniqueUserIds db' = true /\ uniqueEmails db' = true).
    { unfold uniqueUserIds, uniqueEmails. rewrite Hu. split; [|exact Hmails].
      unfold uniqueUserIds in Hids. apply andb_prop in Hids.
      destruct Hids as [Hnd Hb]. rewrite Hnd. cbn [andb].
      destruct Hn as [-> | ->]; [exact Hb|apply belowb_succ; exact Hb]. }
    destruct (Js.includes "already exists" (err_message e));
      cbn [fst snd status fail1 unexpected respond].
    + split; [right; right; left; reflexivity|].
      split; [intros H; discriminate H|].
      split; [intros _; exact Hu|]. split; [exact Hp|]. split; [exact Hs|].
      exact Hinv.
    + split; [right; right; right; reflexivity|].
      split; [intros H; discriminate H|].
      split; [intros _; exact Hu|]. split; [exact Hp|]. split; [exact Hs|].
      exact Hinv.
Qed.

End AccountFacts.

Section AccountLife.
Context {P : Platform}.
Import ValidationService UserModel AuthService AuthController AuthMiddleware.
Import Invariant Notions MoreNotions.

Lemma registeredUser_fields env data db :
  let u := registeredUser env data db in
  u_id u = next_oid db
  /\ u_firstName u = nameSetter (reg_firstName data)
  /\ u_lastName u = nameSetter (reg_lastName data)
  /\ u_email u = emailSetter (reg_email data)
  /\ u_password u = bcrypt_hashSync (salt env) (reg_password data).
Proof. cbn zeta. unfold registeredUser, preSave. cbn. repeat split. Qed.

(** X14. Whoever was answered 201 by [signup] can sign in, at any later
    time, with the same password and with the e-mail address written in
    any letter case and with surrounding white space: [signin] answers
    200 with the id, names and address that [signup] returned, and writes
    nothing. (bcrypt is taken to produce a non-empty hash that it accepts
    for the password it was made from.) *)
Theorem X14_signup_then_signin (env1 env2 : Env) (body : SignupBody)
        (e e' pw : string) (db : Db) (r : Response) (db' : Db) :
  bcrypt_hashSync (salt env1) pw <> "" ->
  bcrypt_compareSync pw (bcrypt_hashSync (salt env1) pw) = true ->
  sb_email body = Some e ->
  sb_password body = Some pw ->
  sameEmail e' e ->
  signup env1 body db = (r, db') ->
  status r = 201 ->
  exists uj t1 t2,
    r = respond 201 (BAuth uj t1 "User created successfully")
    /\ signin env2 {| ib_email := Some e'; ib_password := Some pw |} db'
       = (respond 200
            (BAuth {| uj_id := uj_id uj;
                      uj_firstName := uj_firstName uj;
                      uj_lastName := uj_lastName uj;
                      uj_email := uj_email uj;
                      uj_surgeryDate := None;
                      uj_recoveryDay := 0 |}
               t2 "User signed in successfully"), db').
Proof.
  intros Hne Hcmp He Hpw Hsame Hs H201.
  destruct (signup_created _ _ _ _ _ Hs H201) as (sd & Hv & Hr & Hresp).
  destruct (register_Ok _ _ _ _ _ Hr) as (Hnone & _ & Husers & _).
  pose proof (validateRegistration_Valid _ _ Hv) as Hsd.
  assert (Hsan : sanitizeEmail e' = sanitizeEmail e) by exact Hsame.
  assert (Hlogin : validateLogin
                     (loginData {| ib_email := Some e'; ib_password := Some pw |})
                   = Valid {| sl_email := sanitizeEmail e; sl_password := pw |}).
  { unfold validateRegistration in Hv.
    destruct (_ ++ _)%list eqn:Herr in Hv; [|discriminate].
    apply app_nil_inv in Herr. destruct Herr as [_ Herr].
    apply app_nil_inv in Herr. destruct Herr as [_ Herr].
    apply app_nil_inv in Herr. destruct Herr as [Hmail Hpass].
    cbn [registrationData rd_email rd_password] in Hmail, Hpass.
    rewrite He in Hmail. rewrite Hpw in Hpass.
    unfold validateLogin.
    cbn [loginData ld_email ld_password ib_email ib_password orEmpty].
    assert (Hmail' : emailErrors (Some e') = []).
    { unfold emailErrors in Hmail |- *. rewrite Hsan. exact Hmail. }
    rewrite Hmail', Hsan. unfold loginPasswordErrors. cbn [Js.truthyOpt].
    unfold passwordErrors in Hpass.
    destruct (Js.truthy pw); [reflexivity|discriminate]. }
  assert (Hmail : s_email sd = sanitizeEmail e).
  { rewrite Hsd. cbn. rewrite He. reflexivity. }
  assert (Hp : s_password sd = pw).
  { rewrite Hsd. cbn. rewrite Hpw. reflexivity. }
  destruct (registeredUser_fields env1 (registerData sd) db)
    as (Fid & Ffirst & Flast & Femail & Fpass).
  cbn [registerData reg_firstName reg_lastName reg_email reg_password]
    in Ffirst, Flast, Femail, Fpass.
  assert (Hfind : findOneByEmail (sanitizeEmail e) db'
                  = Some (registeredUser env1 (registerData sd) db)).
  { unfold findOneByEmail in *. rewrite Husers, find_snoc.
    cbn [registerData reg_email] in Hnone. rewrite Hmail in Hnone.
    rewrite Hnone, Femail, Hmail, emailSetter_sanitizeEmail, String.eqb_refl.
    reflexivity. }
  do 3 eexists. split; [exact Hresp|].
  rewrite (signin_cases env2 _ db' _ Hlogin). cbn [sl_email sl_password].
  rewrite Hfind, Fpass, Hp. unfold comparePassword.
  apply String.eqb_neq in Hne. unfold Js.truthy. rewrite Hne. cbn [negb].
  rewrite Hcmp, Fid, Ffirst, Flast, Femail.
  cbn [uj_id uj_firstName uj_lastName uj_email]. reflexivity.
Qed.

(** X15. The user of a 201 answer of [signup] is the user the gate
    resolves: a bearer token that verifies and carries the returned id
    passes [authenticateToken], and [req.user] has the id, names and
    address of the answer. (Ids are taken to fit the 24 hex digits of an
    [ObjectId].) *)
Theorem X15_signup_user_passes_gate (env1 env2 : Env) (body : SignupBody)
        (db db' : Db) (uj : UserJson) (token msg : string)
        (authorization : option string) (payload : JwtPayload) :
  uniqueUserIds db = true ->
  (next_oid db < 16 ^ 24)%N ->
  signup env1 body db = (respond 201 (BAuth uj token msg), db') ->
  bearerToken authorization = Some token ->
  Js.truthy token = true ->
  jwt_verify token (now env2) = Ok payload ->
  jp_userId payload = uj_id uj ->
  authenticateToken env2 authorization db'
  = Next {| ru_id := uj_id uj; ru_firstName := uj_firstName uj;
            ru_lastName := uj_lastName uj; ru_email := uj_email uj |}.
Proof.
  intros Hinv Hlt Hs Hb Ht Hv Hid.
  destruct (signup_created _ _ _ _ _ Hs eq_refl) as (sd & _ & Hr & Hresp).
  destruct (register_Ok _ _ _ _ _ Hr) as (_ & _ & Husers & _).
  destruct (registeredUser_fields env1 (registerData sd) db)
    as (Fid & Ffirst & Flast & Femail & _).
  cbn [registerData reg_firstName reg_lastName reg_email] in Ffirst, Flast,
    Femail.
  injection Hresp as -> _ _.
  cbn [uj_id uj_firstName uj_lastName uj_email] in Hid |- *.
  assert (Hc : castObjectId (jp_userId payload) = Some (next_oid db)).
  { rewrite Hid. apply castObjectId_oidToString. exact Hlt. }
  rewrite (authenticateToken_resolved env2 authorization token payload
             (next_oid db) db' Hb Ht Hv Hc).
  assert (Hf : findById (next_oid db) db'
               = Some (registeredUser env1 (registerData sd) db)).
  { unfold findById. rewrite Husers, find_snoc.
    rewrite (findById_fresh db (users db) Hinv eq_refl).
    rewrite Fid, N.eqb_refl. reflexivity. }
  rewrite Hf. unfold reqUserOf. rewrite Fid, Ffirst, Flast, Femail.
  reflexivity.
Qed.

End AccountLife.

Section AccountSamples.
Import ValidationService UserModel AuthService AuthController AuthMiddleware.
Import Invariant Notions MoreNotions.

Lemma X13_witness :
  status (fst (signup (P := Toy.platform) Toy.env Examples.sarah emptyDb)) = 201
  \/ status (fst (signup (P := Toy.platform) Toy.env Examples.sarah emptyDb)) = 400
  \/ status (fst (signup (P := Toy.platform) Toy.env Examples.sarah emptyDb)) = 409
  \/ status (fst (signup (P := Toy.platform) Toy.env Examples.sarah emptyDb)) = 500.
Proof.
  exact (proj1 (X13_signup_effect (P := Toy.platform) Toy.env Examples.sarah
                  emptyDb eq_refl eq_refl)).
Defined.

Lemma X14_witness :
  exists uj t1 t2,
    fst (signup (P := Toy.platform) Toy.env Examples.sarah emptyDb)
    = respond 201 (BAuth uj t1 "User created successfully")
    /\ signin (P := Toy.platform) Toy.env
         {| ib_email := Some "  Sarah@X.com "; ib_password := Some "Passw0rd" |}
         Examples.registered
       = (respond 200
            (BAuth {| uj_id := uj_id uj;
                      uj_firstName := uj_firstName uj;
                      uj_lastName := uj_lastName uj;
                      uj_email := uj_email uj;
                      uj_surgeryDate := None;
                      uj_recoveryDay := 0 |}
               t2 "User signed in successfully"), Examples.registered).
Proof.
  refine (X14_signup_then_signin (P := Toy.platform) Toy.env Toy.env
            Examples.sarah "sarah@x.com" "  Sarah@X.com " "Passw0rd" emptyDb
            _ Examples.registered _ _ _ _ _ _ _).
  - vm_compute. discriminate.
  - vm_compute. reflexivity.
  - reflexivity.
  - reflexivity.
  - vm_compute. reflexivity.
  - vm_compute. reflexivity.
  - vm_compute. reflexivity.
Defined.

Lemma X15_witness :
  authenticateToken (P := Toy.platform) Toy.env Examples.bearer
    Examples.registered
  = Next Examples.sarahUser.
Proof.
  refine (X15_signup_user_passes_gate (P := Toy.platform) Toy.env Toy.env
            Examples.sarah emptyDb Examples.registered
            {| uj_id := Examples.sarahId; uj_firstName := "Sarah";
               uj_lastName := "Johnson"; uj_email := "sarah@x.com";
               uj_surgeryDate := Some (DateString "2024-01-15");
               uj_recoveryDay := 0 |}
            Examples.sarahToken "User created successfully"
            Examples.bearer
            {| jp_userId := Examples.sarahId; jp_email := "sarah@x.com" |}
            _ _ _ _ _ _ _).
  - reflexivity.
  - vm_compute. reflexivity.
  - vm_compute. reflexivity.
  - vm_compute. reflexivity.
  - vm_compute. reflexivity.
  - vm_compute. reflexivity.
  - reflexivity.
Defined.

End AccountSamples.

(** ** Passwords and tokens *)

Section PasswordFacts.
Context {P : Platform}.
Import ValidationService UserModel AuthService AccountRecovery.
Import Invariant Notions MoreNotions.

(** Under unique ids, a stored user is the one its id finds. *)
Lemma findById_In (db : Db) (u : UserDoc) :
  nodupb N.eqb (map u_id (users db)) = true ->
  In u (users db) -> findById (u_id u) db = Some u.
Proof.
  unfold findById. induction (users db) as [|v l IH]; cbn; [contradiction|].
  intros Hnd Hin. apply andb_prop in Hnd. destruct Hnd as [Hv Hl].
  destruct Hin as [->|Hin]; [rewrite N.eqb_refl; reflexivity|].
  destruct (N.eqb_spec (u_id v) (u_id u)) as [E|E]; [|exact (IH Hl Hin)].
  apply negb_true_iff in Hv.
  pose proof (existsb_false_In _ _ (u_id u) Hv (in_map u_id _ _ Hin)) as Hx.
  apply N.eqb_neq in Hx. contradiction.
Qed.

Lemma belowb_In (n : N) (ids : list N) (i : N) :
  belowb n ids = true -> In i ids -> (i < n)%N.
Proof.
  unfold belowb. intros H Hin. rewrite forallb_forall in H.
  apply N.ltb_lt. exact (H i Hin).
Qed.

(** Replacing the document a query finds by one the query also selects. *)
Lemma find_replaceById_pred (f : UserDoc -> bool) (us : list UserDoc)
      (u stored : UserDoc) :
  find f us = Some u ->
  find (fun v => N.eqb (u_id v) (u_id u)) us = Some u ->
  u_id stored = u_id u ->
  f stored = true ->
  find f (replaceById stored us) = Some stored.
Proof.
  intros Hf Hid Hs Hfs. induction us as [|v vs IH]; [discriminate|].
  cbn in Hf, Hid |- *. rewrite Hs.
  destruct (N.eqb (u_id v) (u_id u)) eqn:E.
  - cbn. rewrite Hfs. reflexivity.
  - cbn. destruct (f v).
    + injection Hf as ->. rewrite N.eqb_refl in E. discriminate.
    + exact (IH Hf Hid).
Qed.

(** Saving a loaded user after its password was assigned. *)
Lemma savePassword_effect env u new db r db' :
  saveLoaded env true u (setPassword new u) db = (Ok r, db') ->
  (u_password u = new /\ db' = db)
  \/ (u_password u <> new
      /\ users db'
         = replaceById
             (setUpdatedAt (now env)
                (setPassword (bcrypt_hashSync (salt env) new) u))
             (users db)
      /\ progress db' = progress db /\ symptoms db' = symptoms db).
Proof.
  unfold saveLoaded, bind, validate.
  destruct (validationErrors true (setPassword new u)); [|cbn; discriminate].
  unfold ret at 1. cbn beta iota.
  rewrite userEqb_setPassword.
  destruct (String.eqb_spec (u_password u) new) as [E|E].
  - unfold ret. intros [= _ <-]. left. auto.
  - unfold getDb, putDb, ret. cbn beta iota. intros [= _ <-].
    right. split; [exact E|]. cbn [users withUsers progress symptoms].
    split; [|split; reflexivity].
    cbn [setPassword u_password andb].
    assert (Hne : String.eqb new (u_password u) = false)
      by (apply String.eqb_neq; congruence).
    rewrite Hne. reflexivity.
Qed.

(** After such a save, [login] under the user's address is decided by the
    new hash alone. *)
Lemma login_after_savePassword env env2 e u new db r db' :
  findOneByEmail e db = Some u ->
  findById (u_id u) db = Some u ->
  saveLoaded env true u (setPassword new u) db = (Ok r, db') ->
  u_password u <> new ->
  forall p,
    login env2 {| cred_email := e; cred_password := p |} db'
    = if comparePassword (Some (bcrypt_hashSync (salt env) new)) p
      then (Ok (authResponse env2 u), db')
      else (Throw {| err_class := PlainError;
                     err_message := "Invalid email or password" |}, db').
Proof.
  intros He Hid Hsave Hne p.
  destruct (savePassword_effect _ _ _ _ _ _ Hsave)
    as [[E _]|(_ & Hu & _)]; [contradiction|].
  rewrite login_cases. cbn [cred_email cred_password].
  assert (Hf : findOneByEmail e db'
               = Some (setUpdatedAt (now env)
                         (setPassword (bcrypt_hashSync (salt env) new) u))).
  { unfold findOneByEmail in He |- *. rewrite Hu.
    apply (find_replaceById_pred _ (users db) u); try assumption;
      [reflexivity|].
    cbn [setUpdatedAt setPassword u_email].
    apply find_some in He. apply He. }
  rewrite Hf. cbn [setUpdatedAt setPassword u_password].
  destruct (comparePassword _ p); reflexivity.
Qed.

(** X16. After a successful [changePassword] (the degenerate request
    whose new password is the stored hash string apart), [login] under
    the user's address succeeds exactly for the passwords bcrypt accepts
    for the hash of the new password, whatever the old password was; the
    change itself required the current password to verify. *)
Theorem X16_changePassword_then_login (env env2 : Env)
        (userId cur new e : string) (db db' : Db) (u : UserDoc) :
  findOneByEmail e db = Some u ->
  castObjectId userId = Some (u_id u) ->
  findById (u_id u) db = Some u ->
  u_password u <> new ->
  AuthService.changePassword env userId cur new db = (Ok tt, db') ->
  comparePassword (Some (u_password u)) cur = true
  /\ forall p,
       login env2 {| cred_email := e; cred_password := p |} db'
       = if comparePassword (Some (bcrypt_hashSync (salt env) new)) p
         then (Ok (authResponse env2 u), db')
         else (Throw {| err_class := PlainError;
                        err_message := "Invalid email or password" |}, db').
Proof.
  intros He Hc Hid Hne.
  unfold AuthService.changePassword, findByIdString. rewrite Hc.
  unfold bind at 1, bind at 1, getDb, ret at 1. cbn beta iota.
  rewrite Hid. cbn [select uv_password].
  destruct (comparePassword (Some (u_password u)) cur) eqn:Hcmp;
    [|cbn; discriminate].
  unfold bind.
  destruct (saveLoaded env true u (setPassword new u) db) as [[r|err] db1]
    eqn:Hsave; [|discriminate].
  unfold ret. intros [= <-]. split; [reflexivity|].
  exact (login_after_savePassword env env2 e u new db r db1 He Hid Hsave Hne).
Qed.


(** X18. [refreshToken] for the id that [login] returned issues, at the
    same instant, the token [login] issued, and writes nothing. *)
Theorem X18_refreshToken_after_login (env : Env) (cred : LoginCredentials)
        (db db' : Db) (a : AuthResponse) :
  uniqueUserIds db = true ->
  (next_oid db <= 16 ^ 24)%N ->
  login env cred db = (Ok a, db') ->
  refreshToken env (au_id (ar_user a)) db = (Ok (ar_token a), db).
Proof.
  intros Hinv Hmax. rewrite login_cases.
  destruct (findOneByEmail (cred_email cred) db) as [u|] eqn:He;
    [|discriminate].
  destruct (comparePassword _ _); [|discriminate].
  intros [= <- _]. cbn [authResponse ar_user ar_token au_id].
  unfold uniqueUserIds in Hinv. apply andb_prop in Hinv.
  destruct Hinv as [Hnd Hb].
  unfold findOneByEmail in He. apply find_some in He. destruct He as [Hin _].
  pose proof (belowb_In _ _ _ Hb (in_map u_id _ _ Hin)) as Hlt.
  unfold refreshToken, findByIdString.
  rewrite castObjectId_oidToString by lia.
  unfold bind, getDb, ret. cbn beta iota.
  rewrite (findById_In db u Hnd Hin). reflexivity.
Qed.

End PasswordFacts.

(** ** The profile *)

Section ProfileFacts.
Context {P : Platform}.
Import ValidationService UserModel UserService AuthController.
Import ProfileController Invariant Notions MoreNotions.




End ProfileFacts.

(** ** Reading and deleting users *)

Section UserFacts.
Context {P : Platform}.
Import UserModel UserService AuthController SymptomEntryService.
Import Invariant Notions MoreNotions.

Lemma In_removeById (oid : ObjectId) (us : list UserDoc) (v : UserDoc) :
  nodupb N.eqb (map u_id us) = true ->
  (In v (removeById oid us) <-> In v us /\ u_id v <> oid).
Proof.
  induction us as [|w ws IH]; cbn; [tauto|].
  intros H. apply andb_prop in H. destruct H as [Hw Hws].
  apply negb_true_iff in Hw.
  destruct (N.eqb_spec (u_id w) oid) as [E|E].
  - split.
    + intros Hin. split; [right; exact Hin|].
      pose proof (existsb_false_In _ _ (u_id v) Hw (in_map u_id _ _ Hin)) as Hx.
      apply N.eqb_neq in Hx. congruence.
    + intros [[->|Hin] Hne]; [contradiction|exact Hin].
  - cbn. rewrite (IH Hws). split.
    + intros [->|[Hin Hne]]; auto.
    + intros [[->|Hin] Hne]; auto.
Qed.

(** X20. [GET /users/:userId] answers every caller the gate lets through,
    for the id of any stored user, with that user's names, address,
    surgery date and the recovery day of the instant of the request; the
    caller's own identity is not consulted. An id that is not made of 24
    hex digits is answered 500, not 404. *)
Theorem X20_getUserById_any_user (env : Env) (db : Db) :
  (forall u,
     uniqueUserIds db = true ->
     (next_oid db <= 16 ^ 24)%N ->
     In u (users db) ->
     UserController.getUserById env (oidToString (u_id u)) db
     = UserController.Retrieved
         {| UserController.ud_id := oidToString (u_id u);
            UserController.ud_firstName := u_firstName u;
            UserController.ud_lastName := u_lastName u;
            UserController.ud_email := u_email u;
            UserController.ud_surgeryDate := u_surgeryDate u;
            UserController.ud_recoveryDay :=
              calculateRecoveryDay (now env) (u_surgeryDate u);
            UserController.ud_createdAt := u_createdAt u |})
  /\ (forall userId,
        castObjectId userId = None ->
        UserController.getUserById env userId db
        = UserController.Failed 500 "Failed to retrieve user")
  /\ (forall userId oid,
        castObjectId userId = Some oid ->
        findById oid db = None ->
        UserController.getUserById env userId db
        = UserController.Failed 404 "User not found").
Proof.
  split; [|split].
  - intros u Hinv Hmax Hin.
    unfold uniqueUserIds in Hinv. apply andb_prop in Hinv.
    destruct Hinv as [Hnd Hb].
    pose proof (belowb_In _ _ _ Hb (in_map u_id _ _ Hin)) as Hlt.
    unfold UserController.getUserById, findByIdString.
    rewrite castObjectId_oidToString by lia.
    unfold bind, getDb, ret. cbn beta iota.
    rewrite (findById_In db u Hnd Hin). reflexivity.
  - intros userId Hc. unfold UserController.getUserById, findByIdString.
    rewrite Hc. reflexivity.
  - intros userId oid Hc Hf.
    unfold UserController.getUserById, findByIdString.
    rewrite Hc. unfold bind, getDb, ret. cbn beta iota. rewrite Hf.
    reflexivity.
Qed.

(** X21. [deleteUser] removes the user and nothing else: the other users
    stay, and the diary entries and progress records of the deleted user
    stay in their collections, still listed under the deleted id. *)
Theorem X21_deleteUser_leaves_records (db : Db) (u : UserDoc) :
  uniqueUserIds db = true ->
  (next_oid db <= 16 ^ 24)%N ->
  In u (users db) ->
  let userId := oidToString (u_id u) in
  exists db',
    deleteUser userId db = (Ok tt, db')
    /\ findById (u_id u) db' = None
    /\ (forall v, In v (users db') <-> In v (users db) /\ v <> u)
    /\ symptoms db' = symptoms db /\ progress db' = progress db
    /\ getUserEntries userId db' = (fst (getUserEntries userId db), db')
    /\ BrochureProgressService.getUserProgress userId db'
       = (fst (BrochureProgressService.getUserProgress userId db), db').
Proof.
  intros Hinv Hmax Hin. cbn zeta.
  unfold uniqueUserIds in Hinv. apply andb_prop in Hinv.
  destruct Hinv as [Hnd Hb].
  pose proof (belowb_In _ _ _ Hb (in_map u_id _ _ Hin)) as Hlt.
  unfold deleteUser, findByIdString.
  rewrite castObjectId_oidToString by lia.
  unfold bind, getDb, ret. cbn beta iota.
  rewrite (findById_In db u Hnd Hin).
  unfold deleteOne, bind, getDb, putDb.
  eexists. split; [reflexivity|].
  split; [unfold findById; cbn [users withUsers];
          apply find_removeById; exact Hnd|].
  split; [|repeat split].
  intros v. cbn [users withUsers]. rewrite (In_removeById _ _ _ Hnd).
  split.
  - intros [Hv Hne]. split; [exact Hv|]. intros ->. contradiction.
  - intros [Hv Hne]. split; [exact Hv|]. intros E. apply Hne.
    pose proof (findById_In db v Hnd Hv) as Hfv.
    rewrite E, (findById_In db u Hnd Hin) in Hfv. congruence.
Qed.

End UserFacts.

(** ** The recovery day over time *)

Section RecoveryFacts.
Context {P : Platform}.
Import UserModel UserService AuthController Invariant Notions.

Lemma ceilDiv_monotone (a b d : Z) :
  0 < d -> a <= b -> ceilDiv a d <= ceilDiv b d.
Proof.
  intros Hd Hab.
  pose proof (ceilDiv_spec a d Hd). pose proof (ceilDiv_spec b d Hd). nia.
Qed.

Lemma ceilDiv_add_multiple (a k d : Z) :
  0 < d -> ceilDiv (a + k * d) d = ceilDiv a d + k.
Proof.
  intros Hd. apply ceilDiv_unique; [exact Hd|].
  pose proof (ceilDiv_spec a d Hd). nia.
Qed.

(** X22. The recovery day never decreases as time passes and never
    increases when the surgery date is moved later; it is positive
    exactly after the surgery instant; and once positive it grows by
    exactly [k] over [k] further days. *)
Theorem X22_recoveryDay_over_time (sd : Z) :
  (forall t1 t2, t1 <= t2 ->
     calculateRecoveryDay t1 (Some sd) <= calculateRecoveryDay t2 (Some sd))
  /\ (forall t sd', sd <= sd' ->
        calculateRecoveryDay t (Some sd') <= calculateRecoveryDay t (Some sd))
  /\ (forall t, 0 < calculateRecoveryDay t (Some sd) <-> sd < t)
  /\ (forall t k, sd < t -> 0 <= k ->
        calculateRecoveryDay (t + k * msPerDay) (Some sd)
        = calculateRecoveryDay t (Some sd) + k).
Proof.
  assert (Hd : 0 < msPerDay) by reflexivity.
  unfold calculateRecoveryDay. cbn zeta.
  split; [|split; [|split]].
  - intros t1 t2 H.
    pose proof (ceilDiv_monotone (t1 - sd) (t2 - sd) msPerDay Hd). lia.
  - intros t sd' H.
    pose proof (ceilDiv_monotone (t - sd') (t - sd) msPerDay Hd). lia.
  - intros t. pose proof (ceilDiv_spec (t - sd) msPerDay Hd). nia.
  - intros t k Ht Hk.
    replace (t + k * msPerDay - sd) with ((t - sd) + k * msPerDay) by lia.
    rewrite ceilDiv_add_multiple by exact Hd.
    pose proof (ceilDiv_spec (t - sd) msPerDay Hd). nia.
Qed.

(** X23. A surgery date accepted by [updateSurgeryDate] is the date the
    profile is computed from afterwards: [getProfile] at any later
    instant returns that date and the recovery day counted from it. *)
Theorem X23_surgeryDate_then_profile (env env2 : Env) (user : ReqUser)
        (s : string) (db db' : Db) (r : Response) :
  updateSurgeryDate env (Some user) (Some s) db = (r, db') ->
  status r = 200 ->
  exists date uj,
    date_parse s = Some date
    /\ date <= now env
    /\ getProfile env2 (Some user) db'
       = (respond 200 (BUser uj "User profile retrieved successfully"), db')
    /\ uj_surgeryDate uj = Some (DateValue date)
    /\ uj_recoveryDay uj = calculateRecoveryDay (now env2) (Some date).
Proof.
  intros Hu H200.
  assert (Ht : Js.truthy (ru_id user) = true).
  { unfold updateSurgeryDate, authenticatedId in Hu.
    destruct (Js.truthy (ru_id user)); [reflexivity|].
    injection Hu as <- _. discriminate H200. }
  destruct (castObjectId (ru_id user)) as [oid|] eqn:Hc.
  2: { exfalso. unfold updateSurgeryDate, authenticatedId in Hu.
       rewrite Ht in Hu.
       destruct (negb _) in Hu; [injection Hu as <- _; discriminate|].
       destruct (date_parse _) in Hu; [|injection Hu as <- _; discriminate].
       destruct (_ <? _) in Hu; [injection Hu as <- _; discriminate|].
       unfold updateUser, findByIdString in Hu. rewrite Hc in Hu.
       cbn in Hu. injection Hu as <- _. discriminate. }
  destruct (updateSurgeryDate_200 _ _ _ _ _ _ _ Hc Hu H200)
    as (date & stored & Hd & Hle & Hf & Hsd).
  exists date.
  unfold getProfile, authenticatedId. rewrite Ht.
  rewrite (getUserById_found _ _ _ _ Hc Hf).
  eexists. split; [exact Hd|]. split; [exact Hle|].
  split; [reflexivity|].
  cbn [userResponse select uj_surgeryDate uj_recoveryDay uv_surgeryDate].
  rewrite Hsd. split; reflexivity.
Qed.

End RecoveryFacts.

Section MoreAccountSamples.
Import ValidationService UserModel AuthService UserService AuthController.
Import AccountRecovery ProfileController SymptomEntryService.
Import Invariant Notions MoreNotions.

Lemma X16_witness :
  comparePassword (P := Toy.platform)
    (Some (u_password MoreExamples.sarahDoc)) "Passw0rd" = true
  /\ forall p,
       login (P := Toy.platform) Toy.env
         {| cred_email := "sarah@x.com"; cred_password := p |}
         (snd (AuthService.changePassword (P := Toy.platform) Toy.env
                 Examples.sarahId "Passw0rd" "aaaaaaaa" Examples.registered))
       = if comparePassword (P := Toy.platform)
              (Some (bcrypt_hashSync (Platform := Toy.platform)
                       (salt Toy.env) "aaaaaaaa")) p
         then (Ok (authResponse (P := Toy.platform) Toy.env
                     MoreExamples.sarahDoc),
               snd (AuthService.changePassword (P := Toy.platform) Toy.env
                      Examples.sarahId "Passw0rd" "aaaaaaaa"
                      Examples.registered))
         else (Throw {| err_class := PlainError;
                        err_message := "Invalid email or password" |},
               snd (AuthService.changePassword (P := Toy.platform) Toy.env
                      Examples.sarahId "Passw0rd" "aaaaaaaa"
                      Examples.registered)).
Proof.
  refine (X16_changePassword_then_login (P := Toy.platform) Toy.env Toy.env
            Examples.sarahId "Passw0rd" "aaaaaaaa" "sarah@x.com"
            Examples.registered _ MoreExamples.sarahDoc _ _ _ _ _).
  - vm_compute. reflexivity.
  - vm_compute. reflexivity.
  - vm_compute. reflexivity.
  - vm_compute. discriminate.
  - vm_compute. reflexivity.
Defined.


Lemma X18_witness :
  refreshToken (P := Toy.platform) Toy.env Examples.sarahId Examples.registered
  = (Ok Examples.sarahToken, Examples.registered).
Proof.
  refine (X18_refreshToken_after_login (P := Toy.platform) Toy.env
            {| cred_email := "sarah@x.com"; cred_password := "Passw0rd" |}
            Examples.registered Examples.registered
            (authResponse (P := Toy.platform) Toy.env MoreExamples.sarahDoc)
            _ _ _).
  - vm_compute. reflexivity.
  - vm_compute. discriminate.
  - vm_compute. reflexivity.
Defined.


Lemma X20_witness :
  UserController.getUserById Toy.env Examples.sarahId Examples.registered
  = UserController.Retrieved
      {| UserController.ud_id := Examples.sarahId;
         UserController.ud_firstName := "Sarah";
         UserController.ud_lastName := "Johnson";
         UserController.ud_email := "sarah@x.com";
         UserController.ud_surgeryDate := None;
         UserController.ud_recoveryDay := 0;
         UserController.ud_createdAt := 1705312800000 |}.
Proof.
  refine (proj1 (X20_getUserById_any_user Toy.env Examples.registered)
            MoreExamples.sarahDoc _ _ _).
  - vm_compute. reflexivity.
  - vm_compute. discriminate.
  - vm_compute. left. reflexivity.
Defined.

Lemma X21_witness :
  exists db',
    deleteUser Examples.sarahId Examples.withDiary = (Ok tt, db')
    /\ findById (u_id MoreExamples.sarahDoc) db' = None
    /\ (forall v, In v (users db') <->
                  In v (users Examples.withDiary) /\ v <> MoreExamples.sarahDoc)
    /\ symptoms db' = symptoms Examples.withDiary
    /\ progress db' = progress Examples.withDiary
    /\ getUserEntries Examples.sarahId db'
       = (fst (getUserEntries Examples.sarahId Examples.withDiary), db')
    /\ BrochureProgressService.getUserProgress Examples.sarahId db'
       = (fst (BrochureProgressService.getUserProgress Examples.sarahId
                 Examples.withDiary), db').
Proof.
  refine (X21_deleteUser_leaves_records Examples.withDiary
            MoreExamples.sarahDoc _ _ _).
  - vm_compute. reflexivity.
  - vm_compute. discriminate.
  - vm_compute. left. reflexivity.
Defined.

Lemma X23_witness :
  exists date uj,
    date_parse (Platform := Toy.platform) "2024-01-14" = Some date
    /\ date <= now Toy.env
    /\ getProfile Toy.env (Some Examples.sarahUser)
         (snd (updateSurgeryDate (P := Toy.platform) Toy.env
                 (Some Examples.sarahUser) (Some "2024-01-14")
                 Examples.registered))
       = (respond 200 (BUser uj "User profile retrieved successfully"),
          snd (updateSurgeryDate (P := Toy.platform) Toy.env
                 (Some Examples.sarahUser) (Some "2024-01-14")
                 Examples.registered))
    /\ uj_surgeryDate uj = Some (DateValue date)
    /\ uj_recoveryDay uj = calculateRecoveryDay (now Toy.env) (Some date).
Proof.
  refine (X23_surgeryDate_then_profile (P := Toy.platform) Toy.env Toy.env
            Examples.sarahUser "2024-01-14" Examples.registered _
            (fst (updateSurgeryDate (P := Toy.platform) Toy.env
                    (Some Examples.sarahUser) (Some "2024-01-14")
                    Examples.registered)) _ _).
  - vm_compute. reflexivity.
  - vm_compute. reflexivity.
Defined.

End MoreAccountSamples.

(** ** The brochure *)

Section BrochureFacts.
Import BrochureData BrochureController MoreNotions.






End BrochureFacts.

Section BrochureReading.
Import BrochureData BrochureService BrochureController MoreNotions Invariant.

Lemma filter_length_split {A} (f : A -> bool) (l : list A) :
  (List.length (filter f l) + List.length (filter (fun x => negb (f x)) l)
   = List.length l)%nat.
Proof.
  induction l as [|x l IH]; [reflexivity|].
  cbn [filter]. destruct (f x); cbn [negb List.length]; lia.
Qed.

(** Of the items of a brochure every one is either completed or
    pending, never both: [getCompletedItems] and [getPendingItems] split
    [getAllItems], and their sizes add up. The items [getItemsBySection]
    returns for a section are items of the brochure, and there are none
    for an id no section has. *)
Lemma brochure_items_split (data : BrochureData) :
  (forall i, In i (getAllItems data) <->
             In i (getCompletedItems data) \/ In i (getPendingItems data))
  /\ (forall i, In i (getCompletedItems data) ->
                In i (getPendingItems data) -> False)
  /\ (List.length (getCompletedItems data)
      + List.length (getPendingItems data)
      = List.length (getAllItems data))%nat
  /\ (forall sectionId i,
        In i (getItemsBySection data sectionId) -> In i (getAllItems data))
  /\ (forall sectionId,
        (forall s, In s (bd_sections data) -> bs_id s <> sectionId) ->
        getItemsBySection data sectionId = []).
Proof.
  unfold getCompletedItems, getPendingItems.
  split; [|split; [|split; [|split]]].
  - intros i. rewrite !filter_In.
    destruct (bi_completed i); cbn [negb]; intuition congruence.
  - intros i H1 H2. apply filter_In in H1. apply filter_In in H2.
    destruct H1 as [_ H1]. destruct H2 as [_ H2]. rewrite H1 in H2.
    discriminate H2.
  - apply filter_length_split.
  - intros sectionId i. unfold getItemsBySection, getAllItems.
    destruct (find _ (bd_sections data)) as [s|] eqn:Hf; [|contradiction].
    apply find_some in Hf. destruct Hf as [Hs _].
    intros Hi. apply in_flat_map. exists s. split; assumption.
  - intros sectionId Hnone. unfold getItemsBySection.
    destruct (find _ (bd_sections data)) as [s|] eqn:Hf; [|reflexivity].
    apply find_some in Hf. destruct Hf as [Hs He].
    apply String.eqb_eq in He. exfalso. exact (Hnone s Hs He).
Qed.





End BrochureReading.

Section BrochureSamples.
Import BrochureData BrochureService BrochureController MoreNotions.



End BrochureSamples.

(** ** Validation against the schema *)

Section SchemaGap.
Context {P : Platform}.
Import Regex ValidationService UserModel AuthService AuthController.
Import Invariant Notions MoreNotions.






End SchemaGap.

Section SchemaAddresses.
Import Regex RegexSemantics ValidationService UserModel SchemaNotions.

Lemma allChars_app (p : ascii -> bool) (s t : string) :
  allChars p (s ++ t) = (allChars p s && allChars p t)%bool.
Proof.
  induction s as [|c s IH]; cbn; [reflexivity|].
  rewrite IH, andb_assoc. reflexivity.
Qed.

Lemma allChars_impl (p q : ascii -> bool) (s : string) :
  (forall c, p c = true -> q c = true) ->
  allChars p s = true -> allChars q s = true.
Proof.
  intros Hpq. induction s as [|c s IH]; cbn; [reflexivity|].
  intros H. apply andb_prop in H. destruct H as [Hc Hs].
  rewrite (Hpq c Hc), (IH Hs). reflexivity.
Qed.

Lemma addressChar_notSpaceAt (c : ascii) :
  addressChar c = true -> notSpaceAt c = true.
Proof.
  destruct c as [[] [] [] [] [] [] [] []]; vm_compute;
    intros H; try reflexivity; discriminate H.
Qed.

Lemma isWord_addressChar (c : ascii) :
  Js.isWord c = true -> addressChar c = true.
Proof. unfold addressChar. intros ->. reflexivity. Qed.

Lemma dotOrDash_addressChar (c : ascii) :
  dotOrDash c = true -> addressChar c = true.
Proof. unfold addressChar. intros ->. apply orb_true_r. Qed.

(** A property of strings that holds of what [a] matches, of the empty
    string and of concatenations holds of what [Star a] matches. *)
Lemma Matches_Star_all (Q : string -> Prop) (a : regex) (s : string) :
  (forall t, Matches a t -> Q t) ->
  Q "" ->
  (forall u v, Q u -> Q v -> Q (u ++ v)) ->
  Matches (Star a) s -> Q s.
Proof.
  intros Ha Hnil Happ H.
  remember (Star a) as r eqn:Er.
  induction H; try discriminate; injection Er as ->.
  - exact Hnil.
  - apply Happ; [apply Ha; assumption|]. apply IHMatches2. reflexivity.
Qed.

Lemma Matches_words (s : string) :
  Matches wordsRegex s -> s <> "" /\ allChars addressChar s = true.
Proof.
  unfold wordsRegex. intros H.
  apply Matches_Seq in H. destruct H as (u & v & -> & Hu & Hv).
  apply Matches_Plus_Chr in Hu. destruct Hu as [Hne Hu].
  split.
  - intros E. apply append_nil_inv in E. destruct E as [E _]. contradiction.
  - rewrite allChars_app.
    rewrite (allChars_impl _ _ _ isWord_addressChar Hu). cbn [andb].
    apply (Matches_Star_all (fun t => allChars addressChar t = true)
             (Seq (Opt (Chr dotOrDash)) (Plus (Chr Js.isWord)))).
    + intros t Ht. apply Matches_Seq in Ht.
      destruct Ht as (o & w & -> & Ho & Hw).
      apply Matches_Plus_Chr in Hw. destruct Hw as [_ Hw].
      rewrite allChars_app, (allChars_impl _ _ _ isWord_addressChar Hw).
      rewrite andb_true_r. unfold Opt in Ho.
      inversion Ho as [| | |a0 b0 s0 He|a0 b0 s0 Hc| |]; subst.
      * inversion He. reflexivity.
      * apply Matches_Chr in Hc. destruct Hc as (c & -> & Hc).
        cbn. rewrite (dotOrDash_addressChar c Hc). reflexivity.
    + reflexivity.
    + intros a b Ha Hb. rewrite allChars_app, Ha, Hb. reflexivity.
    + exact Hv.
Qed.

(** The last of the groups [\.\w{2,3}]: what a non-empty sequence of
    them matches ends in a dot and a non-empty run of word characters. *)
Lemma Matches_groups (g : regex) (x rest : string) :
  (forall t, Matches g t ->
     exists w, t = String "." w /\ w <> "" /\ allChars Js.isWord w = true) ->
  Matches g x -> Matches (Star g) rest ->
  exists d w,
    x ++ rest = d ++ String "." w
    /\ allChars addressChar d = true
    /\ w <> "" /\ allChars Js.isWord w = true.
Proof.
  intros Hg Hx Hrest. revert x Hx.
  remember (Star g) as r eqn:Er.
  induction Hrest; try discriminate; injection Er as ->; intros x Hx.
  - destruct (Hg x Hx) as (w & -> & Hne & Hw).
    exists "", w. rewrite append_nil_r. cbn. auto.
  - destruct (IHHrest2 eq_refl s Hrest1) as (d & w & E & Hd & Hne & Hw).
    destruct (Hg x Hx) as (w0 & -> & _ & Hw0).
    exists (String "." w0 ++ d), w. rewrite E, append_assoc.
    split; [reflexivity|]. split; [|auto].
    rewrite allChars_app, Hd, andb_true_r. cbn.
    exact (allChars_impl _ _ _ isWord_addressChar Hw0).
Qed.

(** X28. Every address the pattern of the user schema accepts is
    accepted by [isValidEmail]: the validator of the requests is the
    laxer of the two, so an address can pass validation and fail the
    schema but never the other way round. *)
Theorem X28_schema_address_is_valid (email : string) :
  fullMatch schemaEmailRegex email = true -> isValidEmail email = true.
Proof.
  unfold isValidEmail, schemaEmailRegex. rewrite !fullMatch_Matches.
  intros H.
  apply Matches_Seq in H. destruct H as (l & r1 & -> & Hl & H).
  apply Matches_Seq in H. destruct H as (a & r2 & -> & Ha & H).
  apply Matches_Seq in H. destruct H as (d0 & r3 & -> & Hd0 & H).
  apply Matches_Lit in Ha. subst a.
  apply Matches_words in Hl, Hd0.
  destruct Hl as [Hlne Hl]. destruct Hd0 as [Hdne Hd0].
  unfold Plus in H. apply Matches_Seq in H.
  destruct H as (x & rest & -> & Hx & Hrest).
  destruct (Matches_groups
              (Seq (Lit ".")
                 (Seq (Chr Js.isWord)
                    (Seq (Chr Js.isWord) (Opt (Chr Js.isWord)))))
              x rest) as (d & w & E & Hd & Hwne & Hw);
    [|exact Hx|exact Hrest|].
  { intros t Ht.
    apply Matches_Seq in Ht. destruct Ht as (o & t1 & -> & Ho & Ht).
    apply Matches_Lit in Ho. subst o.
    apply Matches_Seq in Ht. destruct Ht as (c1 & t2 & -> & Hc1 & Ht).
    apply Matches_Seq in Ht. destruct Ht as (c2 & t3 & -> & Hc2 & Ht).
    apply Matches_Chr in Hc1, Hc2.
    destruct Hc1 as (c1' & -> & Hc1). destruct Hc2 as (c2' & -> & Hc2).
    eexists. split; [reflexivity|]. split; [discriminate|].
    cbn. rewrite Hc1, Hc2. cbn [andb].
    unfold Opt in Ht.
    inversion Ht as [| | |a0 b0 s0 He|a0 b0 s0 Hc| |]; subst.
    - inversion He. reflexivity.
    - apply Matches_Chr in Hc. destruct Hc as (c & -> & Hc).
      cbn. rewrite Hc. reflexivity. }
  rewrite E. unfold emailRegex.
  apply Matches_Seq. exists l, ("@" ++ (d0 ++ d) ++ "." ++ w).
  split.
  { cbn. f_equal. f_equal. rewrite append_assoc. reflexivity. }
  split.
  { apply Matches_Plus_Chr. split; [exact Hlne|].
    exact (allChars_impl _ _ _ addressChar_notSpaceAt Hl). }
  apply Matches_Seq. exists "@", ((d0 ++ d) ++ "." ++ w).
  split; [reflexivity|]. split; [apply Matches_Lit; reflexivity|].
  apply Matches_Seq. exists (d0 ++ d), ("." ++ w).
  split; [reflexivity|]. split.
  { apply Matches_Plus_Chr. split.
    - intros E0. apply append_nil_inv in E0. destruct E0 as [E0 _].
      contradiction.
    - rewrite allChars_app.
      rewrite (allChars_impl _ _ _ addressChar_notSpaceAt Hd0).
      exact (allChars_impl _ _ _ addressChar_notSpaceAt Hd). }
  apply Matches_Seq. exists ".", w.
  split; [reflexivity|]. split; [apply Matches_Lit; reflexivity|].
  apply Matches_Plus_Chr. split; [exact Hwne|].
  apply (allChars_impl Js.isWord); [|exact Hw].
  intros c Hc. apply addressChar_notSpaceAt, isWord_addressChar, Hc.
Qed.

End SchemaAddresses.

(** ** Isolation of the diaries *)

Section DiaryIsolation.
Context {P : Platform}.
Import SymptomEntryService SymptomEntryController SymptomEntryRoutes.
Import AuthMiddleware Invariant.

Lemma updateFirst_frame_entries (f q : SymptomDoc -> bool) g
      (l : list SymptomDoc) r l' :
  (forall e, f e = true -> q e = false /\ q (g e) = false) ->
  SymptomEntryService.updateFirst f g l = Some (r, l') ->
  filter q l' = filter q l.
Proof.
  intros Hq. revert r l'. induction l as [|e l IH]; intros r l'; cbn;
    [discriminate|].
  destruct (f e) eqn:Hf.
  - intros [= <- <-]. destruct (Hq e Hf) as [H1 H2].
    cbn [filter]. rewrite H1, H2. reflexivity.
  - destruct (SymptomEntryService.updateFirst f g l) as [[r0 l0]|];
      [|discriminate].
    intros [= <- <-]. cbn [filter]. rewrite (IH r0 l0 eq_refl). reflexivity.
Qed.

Lemma removeFirst_frame_entries (f q : SymptomDoc -> bool)
      (l : list SymptomDoc) r l' :
  (forall e, f e = true -> q e = false) ->
  removeFirst f l = Some (r, l') ->
  filter q l' = filter q l.
Proof.
  intros Hq. revert r l'. induction l as [|e l IH]; intros r l'; cbn;
    [discriminate|].
  destruct (f e) eqn:Hf.
  - intros [= <- <-]. rewrite (Hq e Hf). reflexivity.
  - destruct (removeFirst f l) as [[r0 l0]|]; [|discriminate].
    intros [= <- <-]. cbn [filter]. rewrite (IH r0 l0 eq_refl). reflexivity.
Qed.

Lemma owned_other (oid : ObjectId) (userId other : string) (e : SymptomDoc) :
  other <> userId ->
  owned oid userId e = true -> String.eqb (se_userId e) other = false.
Proof.
  intros Hne H. unfold owned in H. apply andb_prop in H.
  destruct H as [_ H]. apply String.eqb_eq in H. rewrite H.
  apply String.eqb_neq. apply not_eq_sym. exact Hne.
Qed.

(** What the four writing operations of the diary service leave alone:
    the users, the progress records and the entries of every other
    user. *)
Lemma diary_service_frame env userId entryId d db :
  let frame db' :=
    users db' = users db /\ progress db' = progress db
    /\ forall other, other <> userId ->
         SymptomEntryService.find other db' = SymptomEntryService.find other db
  in
  frame (snd (createEntry env userId d db))
  /\ frame (snd (updateEntry env userId entryId d db))
  /\ frame (snd (deleteEntry userId entryId db))
  /\ frame (snd (clearUserEntries userId db)).
Proof.
  cbn zeta. split; [|split; [|split]].
  - unfold createEntry, save. cbn [freshOid].
    destruct (SymptomEntryService.validationErrors userId d).
    + cbn [snd users progress symptoms withSymptoms].
      split; [reflexivity|]. split; [reflexivity|].
      intros other Hne. unfold SymptomEntryService.find.
      cbn [symptoms withSymptoms]. rewrite filter_app.
      cbn [filter newEntry se_userId].
      apply not_eq_sym, String.eqb_neq in Hne. rewrite Hne.
      apply app_nil_r.
    + cbn [throw snd users progress symptoms]. repeat split.
  - unfold updateEntry, SymptomEntryService.findOneAndUpdate.
    destruct (castObjectId entryId) as [oid|]; [|cbn; repeat split].
    destruct (SymptomEntryService.updateFirst _ _ (symptoms db))
      as [[r l']|] eqn:E; [|cbn; repeat split].
    cbn [snd users progress symptoms withSymptoms].
    split; [reflexivity|]. split; [reflexivity|].
    intros other Hne. unfold SymptomEntryService.find.
    cbn [symptoms withSymptoms].
    apply (updateFirst_frame_entries (owned oid userId)
             (fun e => String.eqb (se_userId e) other)
             (SymptomEntryService.applyUpdate d (now env)) _ _ _
             (fun e He => conj (owned_other oid userId other e Hne He)
                               (owned_other oid userId other e Hne He)) E).
  - unfold deleteEntry, findOneAndDelete.
    destruct (castObjectId entryId) as [oid|]; [|cbn; repeat split].
    destruct (removeFirst _ (symptoms db)) as [[r l']|] eqn:E;
      [|cbn; repeat split].
    cbn [snd users progress symptoms withSymptoms].
    split; [reflexivity|]. split; [reflexivity|].
    intros other Hne. unfold SymptomEntryService.find.
    cbn [symptoms withSymptoms].
    apply (removeFirst_frame_entries _ _ _ _ _
             (fun e He => owned_other oid userId other e Hne He) E).
  - unfold clearUserEntries, SymptomEntryService.deleteMany.
    cbn [snd users progress symptoms withSymptoms].
    split; [reflexivity|]. split; [reflexivity|].
    intros other Hne. unfold SymptomEntryService.find.
    cbn [symptoms withSymptoms]. apply filter_other. exact Hne.
Qed.

(** The database a handler of the tracker leaves is the one the service
    call left. *)
Lemma run_snd env a ps user body db :
  Js.truthy (ru_id user) = true ->
  exists d entryId,
    snd (run env a ps (Some user) body db)
    = match a with
      | CreateSymptomEntry => snd (createEntry env (ru_id user) d db)
      | GetUserSymptomEntries => db
      | UpdateSymptomEntry =>
          snd (updateEntry env (ru_id user) entryId d db)
      | DeleteSymptomEntry => snd (deleteEntry (ru_id user) entryId db)
      | ClearUserSymptomEntries => snd (clearUserEntries (ru_id user) db)
      end.
Proof.
  intros Ht. destruct a; cbn [run].
  - unfold createSymptomEntry, authenticatedId. rewrite Ht.
    exists {| req_date := req_date body;
              req_painLevel := req_painLevel body;
              req_location := orEmptyString (req_location body);
              req_description := orEmptyString (req_description body);
              req_medications := orEmptyString (req_medications body) |}, "".
    destruct (createEntry env (ru_id user) _ db) as [res db'].
    cbn [snd]. destruct (success res); reflexivity.
  - exists emptyBody, "". unfold getUserSymptomEntries, authenticatedId.
    rewrite Ht. reflexivity.
  - unfold updateSymptomEntry, authenticatedId. rewrite Ht.
    exists {| req_date := if Js.truthyOpt (req_date body)
                          then req_date body else None;
              req_painLevel := req_painLevel body;
              req_location := req_location body;
              req_description := req_description body;
              req_medications := req_medications body |}, (param "id" ps).
    destruct (updateEntry env (ru_id user) _ _ db) as [res db'].
    cbn [snd]. destruct (success res); reflexivity.
  - unfold deleteSymptomEntry, authenticatedId. rewrite Ht.
    exists emptyBody, (param "id" ps).
    destruct (deleteEntry (ru_id user) _ db) as [res db'].
    cbn [snd]. destruct (success res); reflexivity.
  - unfold clearUserSymptomEntries, authenticatedId. rewrite Ht.
    exists emptyBody, "". reflexivity.
Qed.

(** X29. No request to the tracker reaches beyond the diary of its
    sender. A request the gate rejects writes nothing. A request the gate
    lets pass as [user] leaves the users, the progress records and, for
    every other user, the entries that user has exactly as they were,
    whatever the method, the path, the id in the path or the body. Ids
    of entries stay unique. *)
Theorem X29_tracker_isolation (env : Env) (req : Request) (db : Db) :
  let db' := snd (router env req db) in
  users db' = users db /\ progress db' = progress db
  /\ (uniqueSymptomIds db = true -> uniqueSymptomIds db' = true)
  /\ match authenticateToken env (rq_authorization req) db with
     | Rejected r => router env req db = (r, db)
     | Next user =>
         forall other, other <> ru_id user ->
           SymptomEntryService.find other db'
           = SymptomEntryService.find other db
     end.
Proof.
  cbn zeta. unfold router.
  destruct (authenticateToken env (rq_authorization req) db) as [user|r]
    eqn:Hgate; [|cbn [snd]; repeat split; auto].
  pose proof (authenticateToken_truthy _ _ _ _ Hgate) as Ht.
  destruct (firstMatch routes (rq_method req) (segments (rq_path req)))
    as [[a ps]|]; [|cbn [snd]; repeat split; auto].
  destruct (run_snd env a ps user (rq_body req) db Ht) as (d & entryId & ->).
  pose proof (diary_service_frame env (ru_id user) entryId d db) as Hf.
  cbn zeta in Hf. destruct Hf as (Hc & Hu & Hd & Hcl).
  pose proof (diary_operations_keep_ids env (ru_id user) entryId d db) as Hi.
  destruct a.
  - destruct Hc as (H1 & H2 & H3). repeat split; try assumption.
    intros H. apply Hi. exact H.
  - repeat split; auto.
  - destruct Hu as (H1 & H2 & H3). repeat split; try assumption.
    intros H. apply Hi. exact H.
  - destruct Hd as (H1 & H2 & H3). repeat split; try assumption.
    intros H. apply Hi. exact H.
  - destruct Hcl as (H1 & H2 & H3). repeat split; try assumption.
    intros H. apply Hi. exact H.
Qed.

End DiaryIsolation.

(** ** Deactivated accounts *)

Section Deactivation.
Context {P : Platform}.
Import UserModel AuthService UserService Invariant Notions.

(** The effect on the database of saving a loaded user whose password
    was not loaded. *)
Lemma saveLoaded_effect env u new db r db' :
  saveLoaded env false u new db = (Ok r, db') ->
  progress db' = progress db /\ symptoms db' = symptoms db
  /\ (users db' = users db
      \/ users db'
         = replaceById
             (setUpdatedAt (now env) (setPassword (u_password u) new))
             (users db)).
Proof.
  unfold saveLoaded, bind, validate.
  destruct (validationErrors false new); [|discriminate].
  unfold ret at 1. cbn beta iota.
  destruct (userEqb u (setPassword (u_password u) new)).
  - unfold ret. intros [= _ <-]. auto.
  - unfold getDb, putDb, ret. cbn beta iota. intros [= _ <-].
    cbn [progress symptoms users withUsers andb preSave negb]. auto.
Qed.

(** A query by a field the replacement does not change finds the same
    document, up to the replacement. *)
Lemma find_replaceById_same {K : Type} (key : UserDoc -> K)
      (f : UserDoc -> bool) (us : list UserDoc) (u stored : UserDoc) :
  find (fun v => N.eqb (u_id v) (u_id u)) us = Some u ->
  u_id stored = u_id u ->
  f stored = f u ->
  key stored = key u ->
  option_map key (find f (replaceById stored us))
  = option_map key (find f us).
Proof.
  intros Hid Hs Hf Hk. induction us as [|v vs IH]; [reflexivity|].
  cbn in Hid |- *. rewrite Hs.
  destruct (N.eqb (u_id v) (u_id u)) eqn:E.
  - injection Hid as ->. cbn. rewrite Hf.
    destruct (f u); [cbn; rewrite Hk|]; reflexivity.
  - cbn. destruct (f v); [reflexivity|exact (IH Hid)].
Qed.

(** X30. [deactivateUser] clears the [isActive] flag and nothing that
    [login] reads: after it, every login attempt, by any user, has the
    outcome it had before: same token payload and user on success, same
    error otherwise. The diary and the progress records are untouched. *)
Theorem X30_deactivated_user_signs_in (env : Env) (userId : string)
        (db db' : Db) (v : option UserView) :
  deactivateUser env userId db = (Ok v, db') ->
  (exists view,
     v = Some view /\ uv_isActive view = false /\ uv_password view = None)
  /\ (forall env2 credentials,
        fst (login env2 credentials db') = fst (login env2 credentials db))
  /\ progress db' = progress db /\ symptoms db' = symptoms db.
Proof.
  unfold deactivateUser, setActive, bind at 1, findByIdString.
  destruct (castObjectId userId) as [oid|] eqn:Hc; [|discriminate].
  unfold bind at 1, getDb, ret at 1.
  destruct (findById oid db) as [u|] eqn:Hf; [|unfold throw; discriminate].
  pose proof (findById_id _ _ _ Hf) as Hid.
  unfold bind at 1.
  destruct (saveLoaded env false u _ db) as [[r|e] db1] eqn:Hs; [|discriminate].
  rewrite <- Hid in Hf.
  destruct (saveLoaded_Ok _ _ _ _ _ _ Hf (assign_id _ u) Hs)
    as (stored & Hf1 & Ha & _ & _ & _ & _).
  destruct (saveLoaded_effect _ _ _ _ _ _ Hs) as (Hp & Hsy & Hu).
  rewrite Hid in Hf1.
  rewrite (getUserById_found _ _ _ _ Hc Hf1).
  intros [= <- <-].
  split; [eexists; split; [reflexivity|]; split; [exact Ha|reflexivity]|].
  split; [|split; assumption].
  intros env2 cred. rewrite !login_cases.
  assert (Hfind :
            option_map
              (fun w => (comparePassword (Some (u_password w))
                           (cred_password cred),
                         authResponse env2 w))
              (findOneByEmail (cred_email cred) db1)
            = option_map
                (fun w => (comparePassword (Some (u_password w))
                             (cred_password cred),
                           authResponse env2 w))
                (findOneByEmail (cred_email cred) db)).
  { unfold findOneByEmail. destruct Hu as [-> | ->]; [reflexivity|].
    apply (find_replaceById_same _ _ (users db) u); try reflexivity.
    exact Hf. }
  destruct (findOneByEmail (cred_email cred) db1) as [w1|];
    destruct (findOneByEmail (cred_email cred) db) as [w0|];
    cbn [option_map] in Hfind; try discriminate Hfind; [|reflexivity].
  set (c1 := comparePassword (Some (u_password w1)) (cred_password cred)) in *.
  set (c0 := comparePassword (Some (u_password w0)) (cred_password cred)) in *.
  set (a1 := authResponse env2 w1) in *.
  set (a0 := authResponse env2 w0) in *.
  clearbody c1 c0 a1 a0. injection Hfind as -> ->.
  destruct c0; reflexivity.
Qed.

End Deactivation.

Section DeactivationSamples.
Import UserModel AuthService UserService.

Lemma X30_witness :
  fst (login (P := Toy.platform) Toy.env
         {| cred_email := "sarah@x.com"; cred_password := "Passw0rd" |}
         (snd (deactivateUser (P := Toy.platform) Toy.env Examples.sarahId
                 Examples.registered)))
  = fst (login (P := Toy.platform) Toy.env
           {| cred_email := "sarah@x.com"; cred_password := "Passw0rd" |}
           Examples.registered).
Proof.
  refine (proj1 (proj2 (X30_deactivated_user_signs_in (P := Toy.platform)
                          Toy.env Examples.sarahId Examples.registered _
                          _ _))
            Toy.env
            {| cred_email := "sarah@x.com"; cred_password := "Passw0rd" |}).
  reflexivity.
Defined.

End DeactivationSamples.

(** ** Isolation of the progress records *)

Section ProgressIsolation.
Import BrochureProgressService SectionProgress BrochureController Invariant.


End ProgressIsolation.

Section SchemaSamples.
Import Regex ValidationService UserModel AuthController Notions.


Lemma X28_witness : isValidEmail "sarah.johnson@mail.example.org" = true.
Proof.
  exact (X28_schema_address_is_valid "sarah.johnson@mail.example.org" eq_refl).
Defined.

End SchemaSamples.
